(** * Akash managed-services MCP server: shallow embedding

    The server exposes the NetData cloud API, the Akash provider-health API
    and a GitHub wiki as tools.  This file embeds the parts of the TypeScript
    sources that the specification talks about:

    - [utils.ts]: configuration, the HTTP helpers, [queryAgentMetric],
      [filterContextsByCategory], [testMetricsInBatches];
    - [services/netdata.ts]: [getNetDataAlarms], the room-lookup tools and the
      metric-activity tools;
    - [services/akash.ts]: the CPU and memory reports with their
      utilization column, the down-provider and partial-failure reports;
    - [services/github.ts], [services/index.ts], [index.ts]: tool routing.

    Outbound HTTP is modelled by a trace of events and an oracle that answers
    each request from the history so far; JavaScript exceptions are an outcome
    of the computation; the one unbounded loop runs on fuel.  Numbers are
    IEEE 754 doubles.  What the sources take from the JavaScript library and
    this file does not compute ([JSON.stringify], [JSON.parse], [Number] on
    texts, [toUpperCase], the order of texts) is a parameter. *)

From Stdlib Require Import ZArith Floats Lia Permutation.
From stdpp Require Import base list strings gmap pretty.

(* ===================================================================== *)
(** * The JavaScript runtime, as far as the sources use it *)
(* ===================================================================== *)

Module Js.

(** The double-quote character, for the template literals that print one. *)
Definition dquote : string :=
  Eval cbv in String (Ascii.ascii_of_nat 34) EmptyString.

(** [s.startsWith(p)] *)
Definition startsWith (s p : string) : bool := String.prefix p s.

(** [s.includes(sub)] *)
Fixpoint includes (s sub : string) : bool :=
  String.prefix sub s ||
  match s with
  | EmptyString => false
  | String _ s' => includes s' sub
  end.

(** [xs.join(sep)] *)
Definition join (sep : string) (xs : list string) : string :=
  String.concat sep xs.

(** [s.padEnd(n)]: spaces are added up to length [n]. *)
Definition padEnd (s : string) (n : nat) : string :=
  s +:+ String.concat "" (replicate (n - String.length s) " ").

(** Truthiness of a value of type [string | undefined | null]. *)
Definition truthy (v : option string) : bool :=
  match v with
  | Some s => negb (String.eqb s "")
  | None => false
  end.

(** [a || b] on such values, when [b] is a string. *)
Definition or_else (a : option string) (b : string) : string :=
  match a with
  | Some s => if String.eqb s "" then b else s
  | None => b
  end.

(** [xs.slice(start, end)] with integer arguments: a negative index counts
    from the end of the array, indices are clamped to [0 .. length], and an
    empty range gives the empty array. *)
Definition slice {A} (xs : list A) (start stop : Z) : list A :=
  let len := Z.of_nat (length xs) in
  let clamp i := if (i <? 0)%Z then Z.max (len + i) 0 else Z.min i len in
  let k := clamp start in
  let final := clamp stop in
  take (Z.to_nat (final - k)) (drop (Z.to_nat k) xs).

(** ** Object literals used as tables

    An object literal keeps its own keys in insertion order and inherits the
    properties of [Object.prototype]; [o[k]] finds both. *)

Definition Object_prototype : list string :=
  [ "constructor"; "__defineGetter__"; "__defineSetter__"; "hasOwnProperty";
    "__lookupGetter__"; "__lookupSetter__"; "isPrototypeOf";
    "propertyIsEnumerable"; "toString"; "valueOf"; "__proto__";
    "toLocaleString" ].

Inductive property (V : Type) : Type :=
| Own (v : V)              (* a key of the literal *)
| Inherited (name : string) (* a member of Object.prototype: truthy *)
| Undefined.
Arguments Own {V} v.
Arguments Inherited {V} name.
Arguments Undefined {V}.

Fixpoint own {V} (o : list (string * V)) (k : string) : option V :=
  match o with
  | [] => None
  | (k', v) :: o' => if String.eqb k' k then Some v else own o' k
  end.

(** [o[k]] *)
Definition get {V} (o : list (string * V)) (k : string) : property V :=
  match own o k with
  | Some v => Own v
  | None => if bool_decide (k ∈ Object_prototype) then Inherited k
            else Undefined
  end.

(** [Object.keys(o)] *)
Definition keys {V} (o : list (string * V)) : list string := o.*1.

(** What a template literal prints for an inherited member. *)
Definition show_inherited (name : string) : string :=
  if String.eqb name "__proto__" then "[object Object]"
  else if String.eqb name "constructor"
       then "function Object() { [native code] }"
       else "function " +:+ name +:+ "() { [native code] }".

(** [Object.fromEntries(entries)]: a later entry overwrites an earlier one
    with the same key. *)
Definition fromEntries (entries : list (string * string))
  : gmap string string :=
  foldl (fun m kv => <[kv.1 := kv.2]> m) ∅ entries.

(** ** Numbers

    A Number is an IEEE 754 double: the primitive floats, whose division and
    multiplication round as JavaScript's do. *)

Definition number : Type := float.

Definition NaN : number := nan.

Definition Infinity (negative : bool) : number :=
  if negative then neg_infinity else infinity.

(** The Number of an integer: the nearest double, ties to even. *)
Definition of_Z (z : Z) : number :=
  SF2Prim (binary_normalize prec emax z 0 false).

Definition of_nat (n : nat) : number := of_Z (Z.of_nat n).

(** [a / b] *)
Definition div (a b : number) : number := PrimFloat.div a b.

(** [a * b] *)
Definition mul (a b : number) : number := PrimFloat.mul a b.

(** Truthiness of a Number: all but NaN, 0 and -0. *)
Definition truthyNumber (x : number) : bool :=
  PrimFloat.eqb x x && negb (PrimFloat.eqb x 0).

(** [x.toFixed(1)].  NaN and the infinities print by name; a magnitude of
    10^21 or more prints as [toString] prints it; any other magnitude
    [m * 2^e] prints as [n / 10], for the integer [n] nearest to ten times
    its exact value (the larger one of two), after the sign of a negative
    [x]. *)
Definition toFixed1 (toString : number -> string) (x : number) : string :=
  match Prim2SF x with
  | S754_nan => "NaN"
  | S754_infinity false => "Infinity"
  | S754_infinity true => "-Infinity"
  | S754_zero _ => "0.0"
  | S754_finite negative m e =>
      let num := (if 0 <=? e then Z.pos m * 2 ^ e else Z.pos m)%Z in
      let den := (if 0 <=? e then 1 else 2 ^ (- e))%Z in
      (if negative then "-" else "") +:+
      (if (10 ^ 21 * den <=? num)%Z then toString (PrimFloat.abs x)
       else
         let n := ((20 * num + den) / (2 * den))%Z in
         pretty (n / 10)%Z +:+ "." +:+ pretty (n mod 10)%Z)
  end.

End Js.

(* ===================================================================== *)
(** * Shared type definitions ([types.ts]) *)
(* ===================================================================== *)

Record TextContent := { text : string }.

Record ToolResponse := {
  content : list TextContent;
  isError : option bool
}.

(** The envelope every handler builds: one text item, [isError] unset. *)
Definition text_response (s : string) : ToolResponse :=
  {| content := [ {| text := s |} ]; isError := None |}.

(** A data row of an agent reply; the code only ever passes it on. *)
Definition datapoint := list Z.

(** A falsy value other than [false]. *)
Inductive Falsy : Type :=
| FalsyUndefined
| FalsyNull
| FalsyZero (negative : bool)  (* 0 or -0 *)
| FalsyEmptyText.

(** What the field [active] of a result holds.  The interface declares a
    boolean; [queryAgentMetric] stores the value of a conjunction, which is
    the falsy value of its first operand when that one cuts it short. *)
Inductive Activity : Type :=
| Cut (v : Falsy)
| Flag (b : bool).

(** Truthiness of such a value. *)
Definition truthyActivity (a : Activity) : bool :=
  match a with
  | Flag true => true
  | _ => false
  end.

Module MetricResult.
Record t := {
  context : string;
  active : Activity;
  dataPoints : nat;
  labels : list string;
  lastValue : option datapoint;
  error : option string
}.
End MetricResult.

Module Summary.
Record t := {
  total : nat;
  tested : nat;
  activeCount : nat;
  inactiveCount : nat;
  errorCount : nat
}.
End Summary.

Module MetricTestResults.
Record t := {
  active : list MetricResult.t;
  inactive : list MetricResult.t;
  errors : list MetricResult.t;
  summary : Summary.t
}.
End MetricTestResults.

(* ===================================================================== *)
(** * Effects: requests, pauses, exceptions *)
(* ===================================================================== *)

(** What the process does to the outside world, oldest event first. *)
Inductive event : Type :=
| CloudGet (url : string)   (* GET with the bearer token *)
| AgentGet (url : string)   (* GET to a NetData agent, port 19999 *)
| ProviderGet (url : string) (* GET to the Akash provider monitor *)
| Sleep (ms : Z).           (* setTimeout *)

Definition trace := list event.

Inductive ErrorCode := MethodNotFound | InternalError.

(** Thrown values: a plain [Error] (or [TypeError]) and the SDK's
    [McpError]. *)
Inductive exn : Type :=
| Error (message : string)
| McpError (code : ErrorCode) (message : string).

Definition message (e : exn) : string :=
  match e with
  | Error m => m
  | McpError _ m => m
  end.

Inductive outcome (A : Type) : Type :=
| Return (a : A)
| Throw (e : exn)
| OutOfFuel.               (* the loop budget ran out: no result yet *)
Arguments Return {A} a.
Arguments Throw {A} e.
Arguments OutOfFuel {A}.

Definition M (A : Type) : Type := trace -> outcome A * trace.

Definition ret {A} (a : A) : M A := fun t => (Return a, t).

Definition throw {A} (e : exn) : M A := fun t => (Throw e, t).

Definition bind {A B} (m : M A) (k : A -> M B) : M B :=
  fun t =>
    match m t with
    | (Return a, t') => k a t'
    | (Throw e, t') => (Throw e, t')
    | (OutOfFuel, t') => (OutOfFuel, t')
    end.

Notation "'let*' x := c 'in' k" := (bind c (fun x => k))
  (at level 10, x name, c at level 100, k at level 200).

(** [try { body } catch (error) { handler }] *)
Definition try_catch {A} (body : M A) (handler : exn -> M A) : M A :=
  fun t =>
    match body t with
    | (Throw e, t') => handler e t'
    | r => r
    end.

(** [await new Promise(resolve => setTimeout(resolve, ms))] *)
Definition sleep (ms : Z) : M unit := fun t => (Return tt, t ++ [Sleep ms]).

(** [xs.map(f)] for an effectful [f], in array order. *)
Fixpoint mapM {A B} (f : A -> M B) (xs : list A) : M (list B) :=
  match xs with
  | [] => ret []
  | x :: xs' => let* y := f x in let* ys := mapM f xs' in ret (y :: ys)
  end.

(** A settled axios call: rejected, with the message that the [catch] block
    of the caller reads from the error ([error.message], or the upstream's
    own message where the caller prefers it), or resolved with the decoded
    body.  The message is any string, the empty one included. *)
Inductive reply (A : Type) : Type :=
| Rejected (msg : string)
| Resolved (data : A).
Arguments Rejected {A} msg.
Arguments Resolved {A} data.

(** [axios.get(url)]: the request is logged, and the oracle answers it from
    the history before it. *)
Definition axios_get {A} (kind : string -> event)
    (oracle : trace -> string -> reply A) (url : string) : M A :=
  fun t =>
    match oracle t url with
    | Rejected m => (Throw (Error m), t ++ [kind url])
    | Resolved d => (Return d, t ++ [kind url])
    end.

(** A synchronous function that may throw: [inl] is the thrown value. *)
Definition lift {A} (r : exn + A) : M A :=
  match r with
  | inl e => throw e
  | inr a => ret a
  end.

(* ===================================================================== *)
(** * [utils.ts] *)
(* ===================================================================== *)

(** The part of [process.env] the configuration reads. *)
Record ProcessEnv := {
  NETDATA_CLOUD_URL : option string;
  NETDATA_SPACE_ID : option string;
  NETDATA_API_TOKEN : option string
}.

Record AkashConfig := {
  providerApiUrl : string;
  apiTimeout : Z
}.

Definition akashConfig : AkashConfig := {|
  providerApiUrl := "https://providermon.akashnet.net";
  apiTimeout := 10000
|}.

Record NetdataConfig := {
  cloudBaseUrl : string;
  spaceId : string;
  apiToken : option string;
  sandboxHost : string;
  agentTimeout : Z;
  rateLimitDelay : Z
}.

Definition config (penv : ProcessEnv) : NetdataConfig := {|
  cloudBaseUrl :=
    Js.or_else (NETDATA_CLOUD_URL penv) "https://app.netdata.cloud";
  spaceId :=
    Js.or_else (NETDATA_SPACE_ID penv) "4e5af321-fd71-4cd7-8456-aa96d7029ab8";
  apiToken := NETDATA_API_TOKEN penv;
  sandboxHost := "216.153.63.25";
  agentTimeout := 5000;
  rateLimitDelay := 100
|}.

(** Known room IDs mapping *)
Definition ROOM_IDS : list (string * string) := [
  ("valdi-sdg-h100", "016d43f2-d5c0-4a78-913c-a0bc91e245ed");
  ("colo-he-nucs", "2421c260-1423-4f1a-bb47-ad5dc9e765fd");
  ("colo-he-proxmox2", "2d177350-fe36-4f06-a211-364ba9b02abe");
  ("evergreen-rtx-4090", "36629903-e073-4df9-836f-2e1512b4871e");
  ("cato-v100", "72789f00-8cc4-48e3-90a0-3ea87170eb6a");
  ("all-nodes", "93e19508-b494-4999-957f-802b48a2ba0d");
  ("valdi-wdc-h100", "b62ef6bd-2007-4a7a-a633-b8b62caf1e9e");
  ("colo-he-proxmox", "bbf6d7ac-faf7-4037-9b44-db1e2404bab1");
  ("nebulablock-dfw-4090", "fb090f13-2e25-494f-960a-04a751f7bd0e");
  ("coreweave-sandbox", "ffc6dce8-079f-4dc4-9b34-2a6f1e95a467")
].

(** Metric category definitions for targeted testing *)
Definition METRIC_CATEGORIES : list (string * list string) := [
  ("network", ["net."; "ip."; "ipv4."; "ipv6."; "system.net"; "netfilter.";
               "k8s.cgroup.net_"; "netdata.network"]);
  ("system", ["system.cpu"; "system.ram"; "system.load"; "system.processes";
              "system.entropy"; "system.uptime"; "system.interrupts"]);
  ("disk", ["disk."; "system.io"]);
  ("memory", ["mem."; "system.pgpgio"]);
  ("docker", ["docker."; "cgroup."]);
  ("kubernetes", ["k8s."]);
  ("applications", ["app."; "user."; "usergroup."]);
  ("sensors", ["sensors."; "system.hw.sensor"]);
  ("nvidia", ["nvidia_smi."]);
  ("netdata_internal", ["netdata."])
].

(** ** Bodies of the upstream replies, as the code reads them *)

(** The [data] field of a body of [/api/v1/data], as far as
    [data && Array.isArray(data) && data.length > 0] tells values apart. *)
Inductive DataField : Type :=
| DataFalsy (v : Falsy)   (* missing, null, 0, -0 or the empty text *)
| DataOther               (* [false], or a truthy value that is no array *)
| DataRows (rows : list datapoint).

(** A body of [/api/v1/data] that is not [null]; a field that the body
    lacks (as every field of a body that is no object) is undefined.
    [labels] is [None] when the field is falsy. *)
Module AgentData.
Record t := {
  data : DataField;
  labels : option (list string)
}.
End AgentData.

(** The decoded body of an agent's reply. *)
Inductive AgentBody : Type :=
| NullBody
| Body (fields : AgentData.t).

(** One entry of [/api/v1/alarms]. *)
Module Alarm.
Record t := {
  status : option string;
  name : option string;
  info : option string;
  chart : option string
}.
End Alarm.

(** [alarmCounter] of a room of the cloud's alarm list. *)
Module AlarmCounter.
Record t := {
  warning : option nat;
  critical : option nat
}.
End AlarmCounter.

(** One entry of [alarmsData.results]; the counters are counts. *)
Module RoomAlarm.
Record t := {
  roomID : string;
  alarmCounter : option AlarmCounter.t;
  unreachableCount : option nat
}.
End RoomAlarm.

(** One entry of the room list. *)
Module Room.
Record t := {
  id : string;
  name : string
}.
End Room.

(** One entry of a room's node list. *)
Module Node.
Record t := {
  name : string;
  alarmCounters : option AlarmCounter.t
}.
End Node.

(** The context list of a room: bare, or wrapped in [results]. *)
Inductive ContextsData : Type :=
| ContextsResults (results : list string)
| ContextsBare (contexts : list string).

(** A field of a provider record that arrives as a number or as a string. *)
Inductive NumOrStr : Type :=
| Num (n : Js.number)
| Str (s : string).

Module AkashProvider.
Record t := {
  host : option string;
  provider : option string;
  node : option string;
  allocatable : option NumOrStr;
  allocated : option NumOrStr;
  capacity : option NumOrStr;
  issue : option string;
  issue_type : option string;
  severity : option string;
  failureDuration : option string;
  failures : option nat;
  failed_ips : option (list string)
}.
End AkashProvider.

(** The outside world: every call site has its oracle, which answers a URL
    from the history of events before the request.  [first_rejects] says
    which of the two parallel cloud requests of the alarm summary settles
    first when both are rejected. *)
Record Network := {
  agent_data : trace -> string -> reply AgentBody;
  agent_alarms : trace -> string -> reply (option (list (string * Alarm.t)));
  cloud_alarms : trace -> string -> reply (option (list RoomAlarm.t));
  cloud_rooms : trace -> string -> reply (list Room.t);
  cloud_nodes : trace -> string -> reply (list Node.t);
  cloud_contexts : trace -> string -> reply ContextsData;
  provider_issues : trace -> string -> reply (option (list AkashProvider.t));
  first_rejects : trace -> bool
}.

Section Utils.

Context (penv : ProcessEnv) (net : Network).

(** Helper function to make authenticated NetData Cloud API requests.
    [oracle] is the reply of the endpoint being asked; a rejection is
    rethrown with the message the upstream gave, or axios's own. *)
Definition makeCloudRequest {A} (oracle : trace -> string -> reply A)
    (endpoint : string) : M A :=
  if negb (Js.truthy (apiToken (config penv)))
  then throw (Error "NetData API token is not configured")
  else
    try_catch
      (axios_get CloudGet oracle
         (cloudBaseUrl (config penv) +:+ "/api/v2" +:+ endpoint))
      (fun error =>
         throw (Error ("NetData Cloud API error: " +:+ message error))).

(** Helper function to make Akash Provider API requests *)
Definition makeAkashRequest {A} (oracle : trace -> string -> reply A)
    (endpoint : string) : M A :=
  try_catch
    (axios_get ProviderGet oracle (providerApiUrl akashConfig +:+ endpoint))
    (fun error =>
       throw (Error ("Akash Provider API error: " +:+ message error))).

(** The URL [queryAgentMetric] asks. *)
Definition agentMetricUrl (context : string) (afterSeconds : Z) : string :=
  "http://" +:+ sandboxHost (config penv) +:+
  ":19999/api/v1/data?context=" +:+ context +:+
  "&after=" +:+ pretty afterSeconds +:+ "&before=0".

(** [data && Array.isArray(data) && data.length > 0] *)
Definition hasData (body : AgentData.t) : Activity :=
  match AgentData.data body with
  | DataFalsy v => Cut v
  | DataOther => Flag false
  | DataRows [] => Flag false
  | DataRows (_ :: _) => Flag true
  end.

(** [response.data.data] when [hasData] is truthy. *)
Definition rowsOf (body : AgentData.t) : list datapoint :=
  match AgentData.data body with
  | DataRows rows => rows
  | _ => []
  end.

(** Direct agent query for metric activity testing.  Reading a field of a
    [null] body throws inside the [try]. *)
Definition queryAgentMetric (context : string) (afterSeconds : Z)
  : M MetricResult.t :=
  let url := agentMetricUrl context afterSeconds in
  try_catch
    (let* response := axios_get AgentGet (agent_data net) url in
     match response with
     | NullBody =>
         throw (Error "Cannot read properties of null (reading 'data')")
     | Body body =>
         ret {| MetricResult.context := context;
                MetricResult.active := hasData body;
                MetricResult.dataPoints :=
                  if truthyActivity (hasData body)
                  then length (rowsOf body) else 0;
                MetricResult.labels := default [] (AgentData.labels body);
                MetricResult.lastValue :=
                  if truthyActivity (hasData body)
                  then head (rowsOf body) else None;
                MetricResult.error := None |}
     end)
    (fun error =>
       ret {| MetricResult.context := context;
              MetricResult.active := Flag false;
              MetricResult.dataPoints := 0;
              MetricResult.labels := [];
              MetricResult.lastValue := None;
              MetricResult.error := Some (message error) |}).

(** [prefixes.some(prefix => context.startsWith(prefix))] *)
Definition matchesSome (prefixes : list string) (context : string) : bool :=
  existsb (fun prefix => Js.startsWith context prefix) prefixes.

(** Filter contexts by category.  An unknown category throws; a name that
    [METRIC_CATEGORIES] only inherits is not an array, so the first call of
    the filter callback throws a TypeError. *)
Definition filterContextsByCategory (contexts : list string)
    (category : string) : exn + list string :=
  match Js.get METRIC_CATEGORIES category with
  | Js.Undefined =>
      inl (Error ("Unknown category: " +:+ category +:+ ". Available: " +:+
                  Js.join ", " (Js.keys METRIC_CATEGORIES)))
  | Js.Inherited _ =>
      match contexts with
      | [] => inr []
      | _ :: _ => inl (Error "prefixes.some is not a function")
      end
  | Js.Own prefixes => inr (List.filter (matchesSome prefixes) contexts)
  end.

Definition emptyResults (contexts : list string) : MetricTestResults.t := {|
  MetricTestResults.active := [];
  MetricTestResults.inactive := [];
  MetricTestResults.errors := [];
  MetricTestResults.summary := {|
    Summary.total := length contexts;
    Summary.tested := 0;
    Summary.activeCount := 0;
    Summary.inactiveCount := 0;
    Summary.errorCount := 0 |}
|}.

(** The body of [for (const result of batchResults)]. *)
Definition categorize (results : MetricTestResults.t)
    (result : MetricResult.t) : MetricTestResults.t :=
  let s := MetricTestResults.summary results in
  let tested' := S (Summary.tested s) in
  if Js.truthy (MetricResult.error result) then
    {| MetricTestResults.active := MetricTestResults.active results;
       MetricTestResults.inactive := MetricTestResults.inactive results;
       MetricTestResults.errors :=
         MetricTestResults.errors results ++ [result];
       MetricTestResults.summary :=
         {| Summary.total := Summary.total s;
            Summary.tested := tested';
            Summary.activeCount := Summary.activeCount s;
            Summary.inactiveCount := Summary.inactiveCount s;
            Summary.errorCount := S (Summary.errorCount s) |} |}
  else if truthyActivity (MetricResult.active result) then
    {| MetricTestResults.active :=
         MetricTestResults.active results ++ [result];
       MetricTestResults.inactive := MetricTestResults.inactive results;
       MetricTestResults.errors := MetricTestResults.errors results;
       MetricTestResults.summary :=
         {| Summary.total := Summary.total s;
            Summary.tested := tested';
            Summary.activeCount := S (Summary.activeCount s);
            Summary.inactiveCount := Summary.inactiveCount s;
            Summary.errorCount := Summary.errorCount s |} |}
  else
    {| MetricTestResults.active := MetricTestResults.active results;
       MetricTestResults.inactive :=
         MetricTestResults.inactive results ++ [result];
       MetricTestResults.errors := MetricTestResults.errors results;
       MetricTestResults.summary :=
         {| Summary.total := Summary.total s;
            Summary.tested := tested';
            Summary.activeCount := Summary.activeCount s;
            Summary.inactiveCount := S (Summary.inactiveCount s);
            Summary.errorCount := Summary.errorCount s |} |}.

(** The loop [for (let i = ...; i < contexts.length; i += batchSize)], from
    the value [i] of the counter on; one unit of fuel per iteration. *)
Fixpoint batchLoop (fuel : nat) (contexts : list string) (batchSize i : Z)
    (results : MetricTestResults.t) : M MetricTestResults.t :=
  match fuel with
  | O => fun t => (OutOfFuel, t)
  | S fuel' =>
      if (i <? Z.of_nat (length contexts))%Z then
        let batch := Js.slice contexts i (i + batchSize) in
        let* batchResults :=
          mapM (fun context => queryAgentMetric context (-300)) batch in
        let results' := foldl categorize results batchResults in
        let* _ :=
          (if (i + batchSize <? Z.of_nat (length contexts))%Z
           then sleep (rateLimitDelay (config penv))
           else ret tt) in
        batchLoop fuel' contexts batchSize (i + batchSize) results'
      else ret results
  end.

(** Rate-limited batch testing *)
Definition testMetricsInBatches (fuel : nat) (contexts : list string)
    (batchSize : Z) : M MetricTestResults.t :=
  batchLoop fuel contexts batchSize 0 (emptyResults contexts).

End Utils.

(* ===================================================================== *)
(** * [services/netdata.ts] *)
(* ===================================================================== *)

(** The arguments a tool call may carry, with the types the tools' input
    schemas give them: texts, and an integer [sample_size].  The server
    does not check [required]: any field may be missing, and the whole
    object is [None] when the request has no [arguments].  The server does
    not check the types either; a field of another JSON type (a number or
    an object where a text is expected) is outside this record, and so
    outside every statement about [ToolArgs]. *)
Record ToolArgs := {
  room_name : option string;
  category : option string;
  sample_size : option Z;
  query : option string;
  page_name : option string
}.

(** [args || {}] *)
Definition noArgs : ToolArgs := {|
  room_name := None; category := None; sample_size := None;
  query := None; page_name := None
|}.

(** Built-ins of the runtime that the embedding takes as given. *)
Record Runtime := {
  (** [new Date().toISOString()] *)
  now : trace -> string;
  (** [JSON.stringify(contexts, null, 2)] *)
  stringify_contexts : list string -> string;
  (** [JSON.stringify(nodesData, null, 2)] *)
  stringify_nodes : list Node.t -> string;
  (** [JSON.parse] of a bracketed text that should hold context names *)
  JSON_parse : string -> exn + list string;
  (** [Number(s)] of a string *)
  StringToNumber : string -> Js.number;
  (** a Number in a template literal *)
  NumberToString : Js.number -> string;
  (** [s.toUpperCase()] *)
  toUpperCase : string -> string
}.

Module RoomData.
Record t := {
  roomID : string;
  roomName : string;
  warnings : nat;
  critical : nat;
  unreachable : nat
}.
End RoomData.

Module CriticalAlarm.
Record t := {
  host : string;
  alertName : string;
  status : string;
  description : string;
  chart : string;
  room : string
}.
End CriticalAlarm.

Module Totals.
Record t := {
  warnings : nat;
  critical : nat;
  unreachable : nat;
  totalRooms : nat;
  roomsWithIssues : nat
}.
End Totals.

Module NetDataAlarmData.
Record t := {
  totals : Totals.t;
  roomsWithAlarms : list RoomData.t;
  criticalAlarmDetails : list CriticalAlarm.t;
  allRooms : list RoomAlarm.t;
  error : option string
}.
End NetDataAlarmData.

(** Upper case of a text of ASCII characters. *)
Definition upper_ascii (c : Ascii.ascii) : Ascii.ascii :=
  let n := Ascii.nat_of_ascii c in
  if (97 <=? n) && (n <=? 122) then Ascii.ascii_of_nat (n - 32) else c.

Fixpoint upperCaseAscii (s : string) : string :=
  match s with
  | EmptyString => EmptyString
  | String c s' => String (upper_ascii c) (upperCaseAscii s')
  end.

(** The text after the first [c] of [s]. *)
Fixpoint after_first (c : Ascii.ascii) (s : string) : option string :=
  match s with
  | EmptyString => None
  | String a s' => if Ascii.eqb a c then Some s' else after_first c s'
  end.

(** The text before the last [c] of [s]. *)
Fixpoint before_last (c : Ascii.ascii) (s : string) : option string :=
  match s with
  | EmptyString => None
  | String a s' =>
      match before_last c s' with
      | Some r => Some (String a r)
      | None => if Ascii.eqb a c then Some EmptyString else None
      end
  end.

(** Group 1 of the greedy bracket pattern that [contextsText.match] is given:
    the text from the first opening bracket to the last closing bracket
    after it. *)
Definition matchBrackets (s : string) : option string :=
  match after_first (Ascii.ascii_of_nat 91) s with
  | Some rest => before_last (Ascii.ascii_of_nat 93) rest
  | None => None
  end.

Definition nl : string :=
  Eval cbv in String (Ascii.ascii_of_nat 10) EmptyString.

Section Netdata.

Context (penv : ProcessEnv) (net : Network) (rt : Runtime).

(** [room.alarmCounter?.warning || 0] and the like. *)
Definition warningOf (room : RoomAlarm.t) : nat :=
  default 0 (RoomAlarm.alarmCounter room ≫= AlarmCounter.warning).

Definition criticalOf (room : RoomAlarm.t) : nat :=
  default 0 (RoomAlarm.alarmCounter room ≫= AlarmCounter.critical).

Definition unreachableOf (room : RoomAlarm.t) : nat :=
  default 0 (RoomAlarm.unreachableCount room).

(** The alarms of one agent reply whose status is CRITICAL. *)
Definition criticalAlertsOf (node : Node.t) (room : RoomData.t)
    (alarms : list (string * Alarm.t)) : list CriticalAlarm.t :=
  omap (fun '(alarmKey, alarm) =>
          if Js.truthy (Alarm.status alarm) &&
             String.eqb (toUpperCase rt (default "" (Alarm.status alarm)))
                        "CRITICAL"
          then Some {|
            CriticalAlarm.host := Node.name node;
            CriticalAlarm.alertName := Js.or_else (Alarm.name alarm) alarmKey;
            CriticalAlarm.status := default "" (Alarm.status alarm);
            CriticalAlarm.description :=
              Js.or_else (Alarm.info alarm) "Critical alert detected";
            CriticalAlarm.chart := Js.or_else (Alarm.chart alarm) "Unknown";
            CriticalAlarm.room := RoomData.roomName room |}
          else None)
       alarms.

(** The inner loop of [getCriticalAlarmDetails]: one node, unreachable nodes
    are skipped. *)
Definition nodeCriticalAlerts (room : RoomData.t) (node : Node.t)
  : M (list CriticalAlarm.t) :=
  try_catch
    (let* alarms :=
       axios_get AgentGet (agent_alarms net)
         ("http://" +:+ Node.name node +:+ ":19999/api/v1/alarms?active=true")
     in ret (criticalAlertsOf node room (default [] alarms)))
    (fun nodeError => ret []).

Definition nodeHasCriticals (node : Node.t) : bool :=
  match Node.alarmCounters node with
  | Some c => 0 <? default 0 (AlarmCounter.critical c)
  | None => false
  end.

(** The outer loop: one room, rooms that cannot be queried are skipped. *)
Definition roomCriticalAlerts (room : RoomData.t) : M (list CriticalAlarm.t) :=
  try_catch
    (let* nodesData :=
       makeCloudRequest penv (cloud_nodes net)
         ("/spaces/" +:+ spaceId (config penv) +:+ "/rooms/" +:+
          RoomData.roomID room +:+ "/nodes") in
     let* found :=
       mapM (nodeCriticalAlerts room) (List.filter nodeHasCriticals nodesData)
     in ret (concat found))
    (fun roomError => ret []).

(** Helper function to get critical alarm details from host agents *)
Definition getCriticalAlarmDetails (roomsWithCriticals : list RoomData.t)
  : M (list CriticalAlarm.t) :=
  let* found := mapM roomCriticalAlerts roomsWithCriticals in
  ret (concat found).

(** The callback of [roomAlarms.forEach], on the pair of lists it grows. *)
Definition trackRoom (roomIdToName : gmap string string)
    (acc : list RoomData.t * list RoomData.t) (room : RoomAlarm.t)
  : list RoomData.t * list RoomData.t :=
  let '(roomsWithAlarms, roomsWithCriticals) := acc in
  let warnings := warningOf room in
  let critical := criticalOf room in
  let unreachable := unreachableOf room in
  if ((0 <? warnings) || (0 <? critical) || (0 <? unreachable)) &&
     Js.truthy (roomIdToName !! RoomAlarm.roomID room)
  then
    let roomData := {|
      RoomData.roomID := RoomAlarm.roomID room;
      RoomData.roomName := default "" (roomIdToName !! RoomAlarm.roomID room);
      RoomData.warnings := warnings;
      RoomData.critical := critical;
      RoomData.unreachable := unreachable |} in
    if String.eqb (RoomData.roomName roomData) "All nodes"
    then (roomsWithAlarms ++ [roomData],
          if 0 <? critical then roomsWithCriticals ++ [roomData]
          else roomsWithCriticals)
    else acc
  else acc.

(** [Promise.all] of two requests: both are started; the first rejection to
    settle is the one thrown. *)
Definition promiseAll2 {A B} (p1 : M A) (p2 : M B) : M (A * B) :=
  fun t =>
    let '(o1, t1) := p1 t in
    let '(o2, t2) := p2 t1 in
    match o1, o2 with
    | Return a, Return b => (Return (a, b), t2)
    | Throw e, Return _ => (Throw e, t2)
    | Return _, Throw e => (Throw e, t2)
    | Throw e1, Throw e2 =>
        (Throw (if first_rejects net t2 then e1 else e2), t2)
    | OutOfFuel, _ | _, OutOfFuel => (OutOfFuel, t2)
    end.

Definition roomIdToNameOf (roomsData : list Room.t) : gmap string string :=
  Js.fromEntries (map (fun room => (Room.id room, Room.name room)) roomsData).

Definition sumOf (f : RoomData.t -> nat) (rooms : list RoomData.t) : nat :=
  foldl (fun sum room => sum + f room) 0 rooms.

(** The [try] block of [getNetDataAlarms] after the two fetches. *)
Definition summarizeAlarms (alarmsData : option (list RoomAlarm.t))
    (roomsData : list Room.t) : M NetDataAlarmData.t :=
  let roomAlarms := default [] alarmsData in
  let roomIdToName := roomIdToNameOf roomsData in
  let '(roomsWithAlarms, roomsWithCriticals) :=
    foldl (trackRoom roomIdToName) ([], []) roomAlarms in
  let* criticalAlarmDetails :=
    (if 0 <? length roomsWithCriticals
     then getCriticalAlarmDetails roomsWithCriticals
     else ret []) in
  ret {|
    NetDataAlarmData.totals := {|
      Totals.warnings := sumOf RoomData.warnings roomsWithAlarms;
      Totals.critical := sumOf RoomData.critical roomsWithAlarms;
      Totals.unreachable := sumOf RoomData.unreachable roomsWithAlarms;
      Totals.totalRooms := length roomAlarms;
      Totals.roomsWithIssues := length roomsWithAlarms |};
    NetDataAlarmData.roomsWithAlarms := roomsWithAlarms;
    NetDataAlarmData.criticalAlarmDetails := criticalAlarmDetails;
    NetDataAlarmData.allRooms := roomAlarms;
    NetDataAlarmData.error := None |}.

Definition fetchAlarms : M (option (list RoomAlarm.t)) :=
  makeCloudRequest penv (cloud_alarms net)
    ("/spaces/" +:+ spaceId (config penv) +:+ "/alarms").

Definition fetchRooms : M (list Room.t) :=
  makeCloudRequest penv (cloud_rooms net)
    ("/spaces/" +:+ spaceId (config penv) +:+ "/rooms").

(** Get NetData alarms data *)
Definition getNetDataAlarms : M NetDataAlarmData.t :=
  try_catch
    (let* fetched := promiseAll2 fetchAlarms fetchRooms in
     summarizeAlarms fetched.1 fetched.2)
    (fun error =>
       ret {|
         NetDataAlarmData.error := Some (message error);
         NetDataAlarmData.totals := {|
           Totals.warnings := 0; Totals.critical := 0;
           Totals.unreachable := 0; Totals.totalRooms := 0;
           Totals.roomsWithIssues := 0 |};
         NetDataAlarmData.roomsWithAlarms := [];
         NetDataAlarmData.criticalAlarmDetails := [];
         NetDataAlarmData.allRooms := [] |}).

End Netdata.

(** ** The NetData tools *)

Section NetdataTools.

Context (penv : ProcessEnv) (net : Network) (rt : Runtime).

(** [ROOM_IDS[room_name]] as the tools use it: [None] when the value is
    falsy, else its text in a template literal. *)
Definition roomIdOf (room_name : string) : option string :=
  match Js.get ROOM_IDS room_name with
  | Js.Own roomId => if String.eqb roomId "" then None else Some roomId
  | Js.Inherited member => Some (Js.show_inherited member)
  | Js.Undefined => None
  end.

Definition roomNotFound (room_name : string) : string :=
  "Room " +:+ Js.dquote +:+ room_name +:+ Js.dquote +:+
  " not found. Available rooms: " +:+ Js.join ", " (Js.keys ROOM_IDS).

Definition contextsOf (contextsData : ContextsData) : list string :=
  match contextsData with
  | ContextsResults results => results
  | ContextsBare contexts => contexts
  end.

Definition getRoomContexts (args : option ToolArgs) : M ToolResponse :=
  let room_name := room_name (default noArgs args) in
  try_catch
    (if negb (Js.truthy room_name)
     then ret (text_response "Error: room_name parameter is required")
     else
       let room_name := default "" room_name in
       match roomIdOf room_name with
       | None => ret (text_response (roomNotFound room_name))
       | Some roomId =>
           let endpoint :=
             "/spaces/" +:+ spaceId (config penv) +:+ "/rooms/" +:+ roomId +:+
             "/contexts" in
           let* contextsData :=
             makeCloudRequest penv (cloud_contexts net) endpoint in
           let contexts := contextsOf contextsData in
           ret (text_response
                  ("Room Contexts for " +:+ Js.dquote +:+ room_name +:+
                   Js.dquote +:+ " (" +:+ pretty (length contexts) +:+
                   " contexts found):" +:+ nl +:+
                   stringify_contexts rt contexts))
       end)
    (fun error =>
       ret (text_response ("Error getting room contexts: " +:+ message error))).

Definition getRoomNodes (args : option ToolArgs) : M ToolResponse :=
  let room_name := room_name (default noArgs args) in
  try_catch
    (if negb (Js.truthy room_name)
     then ret (text_response "Error: room_name parameter is required")
     else
       let room_name := default "" room_name in
       match roomIdOf room_name with
       | None => ret (text_response (roomNotFound room_name))
       | Some roomId =>
           let endpoint :=
             "/spaces/" +:+ spaceId (config penv) +:+ "/rooms/" +:+ roomId +:+
             "/nodes" in
           let* nodesData := makeCloudRequest penv (cloud_nodes net) endpoint in
           ret (text_response
                  ("Room Nodes for " +:+ Js.dquote +:+ room_name +:+
                   Js.dquote +:+ " (" +:+ pretty (length nodesData) +:+
                   " nodes found):" +:+ nl +:+ stringify_nodes rt nodesData))
       end)
    (fun error =>
       ret (text_response ("Error getting room nodes: " +:+ message error))).

(** [contextsResponse.content[0].text] *)
Definition firstText (response : ToolResponse) : exn + string :=
  match content response with
  | item :: _ => inr (text item)
  | [] => inl (Error "Cannot read properties of undefined (reading 'text')")
  end.

(** The two steps that recover the context list from the rendered text of
    [getRoomContexts]. *)
Definition parseContexts (contextsText : string) : exn + list string :=
  match matchBrackets contextsText with
  | None => inl (Error "Could not parse contexts from response")
  | Some inner => JSON_parse rt ("[" +:+ inner +:+ "]")
  end.

(** [(a / b * 100).toFixed(1)] on two counts. *)
Definition percentage (a b : nat) : string :=
  Js.toFixed1 (NumberToString rt)
    (Js.mul (Js.div (Js.of_nat a) (Js.of_nat b)) (Js.of_nat 100)).

Definition inactiveSection (inactive : list MetricResult.t) : string :=
  if 0 <? length inactive then
    "INACTIVE METRICS (" +:+ pretty (length inactive) +:+ "):" +:+ nl +:+
    Js.join nl (map (fun m => "❌ " +:+ MetricResult.context m)
                    (Js.slice inactive 0 20)) +:+
    (if 20 <? length inactive
     then nl +:+ "... and " +:+ pretty (length inactive - 20) +:+ " more"
     else "")
  else "".

Definition errorsSection (errors : list MetricResult.t) : string :=
  if 0 <? length errors then
    "ERRORS (" +:+ pretty (length errors) +:+ "):" +:+ nl +:+
    Js.join nl (map (fun m => "⚠️ " +:+ MetricResult.context m +:+ ": " +:+
                              default "" (MetricResult.error m)) errors)
  else "".

(** The report of [testCategoryMetricsActivity], trimmed. *)
Definition categoryReport (room_name category date : string)
    (results : MetricTestResults.t) : string :=
  let s := MetricTestResults.summary results in
  let host := sandboxHost (config penv) in
  Js.join nl [
    "METRIC ACTIVITY ANALYSIS - " +:+ toUpperCase rt category +:+
      " CATEGORY";
    "Room: " +:+ room_name +:+ " (analyzed via sandbox host extrapolation)";
    "Sandbox Host: " +:+ host;
    "Analysis Method: Direct agent queries on representative infrastructure";
    "Date: " +:+ date;
    "";
    "SUMMARY:";
    "- Total " +:+ category +:+ " contexts: " +:+ pretty (Summary.total s);
    "- Active metrics: " +:+ pretty (Summary.activeCount s);
    "- Inactive metrics: " +:+ pretty (Summary.inactiveCount s);
    "- Errors: " +:+ pretty (Summary.errorCount s);
    "- Success rate: " +:+
      percentage (Summary.activeCount s) (Summary.tested s) +:+ "%";
    "";
    "ACTIVE METRICS (" +:+
      pretty (length (MetricTestResults.active results)) +:+ "):";
    Js.join nl
      (map (fun m => "✅ " +:+ MetricResult.context m +:+ " (" +:+
                     pretty (MetricResult.dataPoints m) +:+ " data points)")
           (MetricTestResults.active results));
    "";
    inactiveSection (MetricTestResults.inactive results);
    "";
    errorsSection (MetricTestResults.errors results);
    "";
    "METHODOLOGY:";
    "- Infrastructure Assumption: Uniform configuration across all nodes";
    "- Representative Testing: Sandbox host (" +:+ host +:+
      ") as safe test target  ";
    "- Extrapolation: Results apply to all infrastructure due to identical setup";
    "- Safety: Zero impact on production systems";
    "";
    "This analysis bypassed Cloud API limitations using direct agent queries";
    "for accurate metric activity detection."
  ].

(** The arguments [{ room_name }] of the inner call of [getRoomContexts]. *)
Definition onlyRoom (room_name : option string) : option ToolArgs :=
  Some {| room_name := room_name; category := None; sample_size := None;
          query := None; page_name := None |}.

(** The contexts of a room, recovered from the text of [getRoomContexts]. *)
Definition roomContextsViaText (room_name : option string)
  : M (list string) :=
  let* contextsResponse := getRoomContexts (onlyRoom room_name) in
  let* contextsText := lift (firstText contextsResponse) in
  lift (parseContexts contextsText).

Definition testCategoryMetricsActivity (args : option ToolArgs)
  : M ToolResponse :=
  let a := default noArgs args in
  if negb (Js.truthy (room_name a)) || negb (Js.truthy (category a))
  then ret (text_response "Error: room_name and category are required")
  else
    let room := default "" (room_name a) in
    let category := default "" (category a) in
    try_catch
      (let* allContexts := roomContextsViaText (room_name a) in
       let* categoryContexts :=
         lift (filterContextsByCategory allContexts category) in
       if length categoryContexts =? 0
       then ret (text_response
                   ("No " +:+ category +:+ " contexts found in room " +:+
                    Js.dquote +:+ room +:+ Js.dquote))
       else
         let* results :=
           testMetricsInBatches penv net (S (length categoryContexts))
             categoryContexts 5 in
         fun t =>
           (Return (text_response
                      (categoryReport room category (now rt t) results)), t))
      (fun error =>
         ret (text_response
                ("Error testing " +:+ category +:+ " metrics activity: " +:+
                 message error))).

Definition testNetworkMetricsActivity (args : option ToolArgs)
  : M ToolResponse :=
  let a := default noArgs args in
  if negb (Js.truthy (room_name a))
  then ret (text_response "Error: room_name is required")
  else
    testCategoryMetricsActivity
      (Some {| room_name := room_name a; category := Some "network";
               sample_size := None; query := None; page_name := None |}).

End NetdataTools.

(** ** [get_active_metrics_summary] *)

(** One value of [categoryResults]. *)
Module CategoryStats.
Record t := {
  totalAvailable : nat;
  tested : nat;
  active : nat;
  activeRate : string;
  error : option string
}.
End CategoryStats.

(** The variables the category loop updates; [categoryResults] keeps its
    keys in the order of assignment. *)
Module Sampling.
Record t := {
  categoryResults : list (string * CategoryStats.t);
  totalActive : nat;
  totalTested : nat
}.
End Sampling.

Fixpoint foldM {A B} (f : B -> A -> M B) (xs : list A) (b : B) : M B :=
  match xs with
  | [] => ret b
  | x :: xs' => let* b' := f b x in foldM f xs' b'
  end.

Section ActiveMetricsSummary.

Context (penv : ProcessEnv) (net : Network) (rt : Runtime).

(** The body of the loop over [Object.entries(METRIC_CATEGORIES)]. *)
Definition sampleCategory (allContexts : list string) (sample_size : Z)
    (acc : Sampling.t) (entry : string * list string) : M Sampling.t :=
  let categoryName := entry.1 in
  try_catch
    (let* categoryContexts :=
       lift (filterContextsByCategory allContexts categoryName) in
     if 0 <? length categoryContexts then
       let sample := Js.slice categoryContexts 0 sample_size in
       let* results :=
         testMetricsInBatches penv net (S (length sample)) sample 5 in
       let s := MetricTestResults.summary results in
       let stats := {|
         CategoryStats.totalAvailable := length categoryContexts;
         CategoryStats.tested := Summary.tested s;
         CategoryStats.active := Summary.activeCount s;
         CategoryStats.activeRate :=
           percentage rt (Summary.activeCount s) (Summary.tested s);
         CategoryStats.error := None |} in
       let* _ := sleep (rateLimitDelay (config penv)) in
       ret {|
         Sampling.categoryResults :=
           Sampling.categoryResults acc ++ [(categoryName, stats)];
         Sampling.totalActive :=
           Sampling.totalActive acc + Summary.activeCount s;
         Sampling.totalTested :=
           Sampling.totalTested acc + Summary.tested s |}
     else ret acc)
    (fun error =>
       ret {|
         Sampling.categoryResults :=
           Sampling.categoryResults acc ++
           [(categoryName,
             {| CategoryStats.totalAvailable := 0;
                CategoryStats.tested := 0;
                CategoryStats.active := 0;
                CategoryStats.activeRate := "0.0";
                CategoryStats.error := Some (message error) |})];
         Sampling.totalActive := Sampling.totalActive acc;
         Sampling.totalTested := Sampling.totalTested acc |}).

(** The whole loop, from empty [categoryResults] and zero totals. *)
Definition sampleCategories (allContexts : list string) (sample_size : Z)
  : M Sampling.t :=
  foldM (sampleCategory allContexts sample_size) METRIC_CATEGORIES
    {| Sampling.categoryResults := [];
       Sampling.totalActive := 0;
       Sampling.totalTested := 0 |}.

(** One line of CATEGORY BREAKDOWN. *)
Definition breakdownLine (entry : string * CategoryStats.t) : string :=
  let '(category, stats) := entry in
  Js.padEnd category 15 +:+ ": " +:+
  pretty (CategoryStats.active stats) +:+ "/" +:+
  pretty (CategoryStats.tested stats) +:+ " active (" +:+
  CategoryStats.activeRate stats +:+ "%) of " +:+
  pretty (CategoryStats.totalAvailable stats) +:+ " available" +:+
  (if Js.truthy (CategoryStats.error stats)
   then " [ERROR: " +:+ default "" (CategoryStats.error stats) +:+ "]"
   else "").

Definition insight (categoryResults : list (string * CategoryStats.t))
    (key missing : string) : string :=
  match Js.own categoryResults key with
  | Some stats => CategoryStats.activeRate stats +:+ "% active"
  | None => missing
  end.

(** The report of [getActiveMetricsSummary], trimmed. *)
Definition summaryReport (room_name date : string) (sample_size : Z)
    (allContexts : list string) (sampled : Sampling.t) : string :=
  let host := sandboxHost (config penv) in
  let categoryResults := Sampling.categoryResults sampled in
  let overallActiveRate :=
    if 0 <? Sampling.totalTested sampled
    then percentage rt (Sampling.totalActive sampled)
                    (Sampling.totalTested sampled)
    else "0.0" in
  Js.join nl [
    "COMPREHENSIVE METRIC ACTIVITY SUMMARY";
    "Room: " +:+ room_name +:+ " (analyzed via sandbox host extrapolation)";
    "Analysis Method: Intelligent sampling via sandbox host (" +:+ host +:+ ")";
    "Sample Size: Up to " +:+ pretty sample_size +:+ " metrics per category";
    "Infrastructure Assumption: Uniform configuration across all nodes";
    "Date: " +:+ date;
    "";
    "OVERALL SUMMARY:";
    "- Total contexts available: " +:+ pretty (length allContexts);
    "- Total tested: " +:+ pretty (Sampling.totalTested sampled);
    "- Total active: " +:+ pretty (Sampling.totalActive sampled);
    "- Overall activity rate: " +:+ overallActiveRate +:+ "%";
    "";
    "CATEGORY BREAKDOWN:";
    Js.join nl (map breakdownLine categoryResults);
    "";
    "KEY INSIGHTS:";
    "- Network monitoring: " +:+
      insight categoryResults "network" "No network contexts found";
    "- System monitoring: " +:+
      insight categoryResults "system" "No system contexts found";
    "- Application monitoring: " +:+
      insight categoryResults "applications" "No application contexts found";
    "";
    "METHODOLOGY NOTES:";
    "- Uses sandbox host (" +:+ host +:+
      ") for safe, non-production testing";
    "- Extrapolates results to entire infrastructure based on uniform configuration";
    "- Bypasses Cloud API limitations with direct agent queries";
    "- Results representative of all infrastructure due to identical node setup";
    "";
    "For detailed analysis of specific categories, use test_category_metrics_activity."
  ].

(** The [try] block of [getActiveMetricsSummary] up to the end of the
    category loop: the contexts it parsed and what the loop computed. *)
Definition activeMetricsSampling (room_name : option string)
    (sample_size : Z) : M (list string * Sampling.t) :=
  let* allContexts := roomContextsViaText penv net rt room_name in
  let* sampled := sampleCategories allContexts sample_size in
  ret (allContexts, sampled).

Definition getActiveMetricsSummary (args : option ToolArgs)
  : M ToolResponse :=
  let a := default noArgs args in
  let sample_size := default 10%Z (sample_size a) in
  if negb (Js.truthy (room_name a))
  then ret (text_response "Error: room_name is required")
  else
    try_catch
      (let* computed := activeMetricsSampling (room_name a) sample_size in
       fun t =>
         (Return (text_response
                    (summaryReport (default "" (room_name a)) (now rt t)
                       sample_size computed.1 computed.2)), t))
      (fun error =>
         ret (text_response
                ("Error generating active metrics summary: " +:+
                 message error))).

End ActiveMetricsSummary.

(* ===================================================================== *)
(** * [services/akash.ts]: the CPU and memory reports *)
(* ===================================================================== *)

Section Akash.

Context (net : Network) (rt : Runtime).

Definition truthyField (v : option NumOrStr) : bool :=
  match v with
  | Some (Num x) => Js.truthyNumber x
  | Some (Str s) => negb (String.eqb s "")
  | None => false
  end.

(** [Number(v)] *)
Definition Number (v : option NumOrStr) : Js.number :=
  match v with
  | Some (Num n) => n
  | Some (Str s) => StringToNumber rt s
  | None => Js.NaN
  end.

(** A field in a template literal, with its fallback: [v || fallback]. *)
Definition showField (v : option NumOrStr) (fallback : string) : string :=
  if truthyField v then
    match v with
    | Some (Num n) => NumberToString rt n
    | Some (Str s) => s
    | None => fallback
    end
  else fallback.

(** [node.host || node.provider] in a template literal. *)
Definition hostOf (node : AkashProvider.t) : string :=
  if Js.truthy (AkashProvider.host node)
  then default "" (AkashProvider.host node)
  else default "undefined" (AkashProvider.provider node).

(** The Utilization entry of a CPU or memory issue. *)
Definition utilization (node : AkashProvider.t) : string :=
  if truthyField (AkashProvider.allocated node) &&
     truthyField (AkashProvider.allocatable node)
  then
    Js.toFixed1 (NumberToString rt)
      (Js.mul (Js.div (Number (AkashProvider.allocated node))
                      (Number (AkashProvider.allocatable node)))
              (Js.of_nat 100)) +:+ "%"
  else "Unknown".

(** The Utilization line of a block of DETAILED BREAKDOWN. *)
Definition utilizationLine (node : AkashProvider.t) : string :=
  "   • Utilization: " +:+ utilization node.

(** One block of DETAILED BREAKDOWN; [issue] is the last line's text. *)
Definition issueBlock (issue : string) (node : AkashProvider.t) : string :=
  Js.join nl [
    "";
    "🔴 HOST: " +:+ hostOf node;
    "   • Node: " +:+ Js.or_else (AkashProvider.node node) "N/A";
    "   • Allocatable: " +:+
      showField (AkashProvider.allocatable node) "Unknown";
    "   • Allocated: " +:+
      showField (AkashProvider.allocated node) "Unknown";
    utilizationLine node;
    "   • Issue: " +:+ issue;
    ""
  ].

Definition cpuIssuesReport (nodes : list AkashProvider.t) : string :=
  Js.join nl [
    "⚠️ AKASH CPU ALLOCATION ISSUES";
    "";
    "CPU Issues Detected: " +:+ pretty (length nodes);
    "";
    "DETAILED BREAKDOWN:";
    Js.join nl (map (issueBlock "CPU over-allocation detected") nodes);
    "";
    "SUMMARY:";
    "- Total nodes with CPU issues: " +:+ pretty (length nodes);
    "- Issue type: CPU allocation exceeding allocatable limits";
    "- Impact: May affect deployment scheduling and performance";
    "";
    "These CPU allocation issues require immediate attention."
  ].

Definition memoryIssuesReport (nodes : list AkashProvider.t) : string :=
  Js.join nl [
    "⚠️ AKASH MEMORY ALLOCATION ISSUES";
    "";
    "Memory Issues Detected: " +:+ pretty (length nodes);
    "";
    "DETAILED BREAKDOWN:";
    Js.join nl (map (issueBlock "Memory over-allocation detected") nodes);
    "";
    "SUMMARY:";
    "- Total nodes with memory issues: " +:+ pretty (length nodes);
    "- Issue type: Memory allocation exceeding allocatable limits";
    "- Impact: May affect deployment scheduling and performance";
    "";
    "These memory allocation issues require immediate attention."
  ].

Definition getAkashCpuIssues (args : option ToolArgs) : M ToolResponse :=
  try_catch
    (let* nodes_with_issues :=
       makeAkashRequest (provider_issues net) "/issues/res/cpu" in
     match nodes_with_issues with
     | None | Some [] =>
         ret (text_response
                "✅ No CPU allocation issues detected across Akash provider network.")
     | Some nodes => ret (text_response (cpuIssuesReport nodes))
     end)
    (fun error =>
       ret (text_response ("Error fetching CPU issues: " +:+ message error))).

Definition getAkashMemoryIssues (args : option ToolArgs) : M ToolResponse :=
  try_catch
    (let* nodes_with_issues :=
       makeAkashRequest (provider_issues net) "/issues/res/memory" in
     match nodes_with_issues with
     | None | Some [] =>
         ret (text_response
                "✅ No memory allocation issues detected across Akash provider network.")
     | Some nodes => ret (text_response (memoryIssuesReport nodes))
     end)
    (fun error =>
       ret (text_response
              ("Error fetching memory issues: " +:+ message error))).

End Akash.

(* ===================================================================== *)
(** * Tool routing: the three services, [services/index.ts], [index.ts] *)
(* ===================================================================== *)

(** Handlers whose [try] block is not embedded above: what the block does
    (the text it returns, or what it throws), and the text that the [catch]
    of [testDirectRoomContexts] builds from the error. *)
Record Blocks := {
  tryBlock : string -> option ToolArgs -> M string;
  failedText : exn -> string
}.

Section Routing.

Context (penv : ProcessEnv) (net : Network) (rt : Runtime) (blocks : Blocks).

(** [try { return text(block) } catch (error) { return text(onError(error)) }] *)
Definition guarded (block : M string) (onError : exn -> string)
  : M ToolResponse :=
  try_catch
    (let* body := block in ret (text_response body))
    (fun error => ret (text_response (onError error))).

Definition failing (label : string) (error : exn) : string :=
  label +:+ message error.

(** *** NetData *)

Definition getSpaceInfo (args : option ToolArgs) : M ToolResponse :=
  guarded (tryBlock blocks "get_space_info" args)
          (failing "Error fetching space info: ").

Definition getNodesInfo (args : option ToolArgs) : M ToolResponse :=
  guarded (tryBlock blocks "get_nodes_info" args)
          (failing "Error fetching nodes info: ").

Definition getInfrastructureOverview (args : option ToolArgs)
  : M ToolResponse :=
  guarded (tryBlock blocks "get_infrastructure_overview" args)
          (failing "Error analyzing infrastructure: ").

Definition showBool (b : bool) : string := if b then "true" else "false".

Definition testRoomParameter (args : option ToolArgs) : M ToolResponse :=
  let room_name := room_name (default noArgs args) in
  let key := default "undefined" room_name in
  ret (text_response
         ("Parameter test successful!" +:+ nl +:+ nl +:+
          "Room name received: " +:+ key +:+ nl +:+
          "Room ID lookup: " +:+ default "Not found" (roomIdOf key) +:+ nl +:+
          "API token present: " +:+
            showBool (Js.truthy (apiToken (config penv))) +:+ nl +:+ nl +:+
          "This confirms parameter passing works with enhanced pattern.")).

Definition debugApiCall (args : option ToolArgs) : M ToolResponse :=
  ret (text_response
         ("Debug Info: spaceId=" +:+ spaceId (config penv) +:+
          ", tokenPresent=" +:+
            showBool (Js.truthy (apiToken (config penv))) +:+
          ", baseUrl=" +:+ cloudBaseUrl (config penv) +:+
          ", sandboxHost=" +:+ sandboxHost (config penv) +:+
          ", akashApiUrl=" +:+ providerApiUrl akashConfig)).

Definition testDirectRoomContexts (args : option ToolArgs) : M ToolResponse :=
  guarded (tryBlock blocks "test_direct_room_contexts" args)
          (failedText blocks).

Definition netdataToolNames : list string := [
  "get_space_info"; "get_nodes_info"; "get_infrastructure_overview";
  "get_room_contexts"; "get_room_nodes"; "test_room_parameter";
  "debug_api_call"; "test_direct_room_contexts";
  "test_category_metrics_activity"; "test_network_metrics_activity";
  "get_active_metrics_summary"
].

(** Route tool calls to appropriate handlers ([netdata.ts]) *)
Definition netdataHandleToolCall (name : string) (args : option ToolArgs)
  : M ToolResponse :=
  if String.eqb name "get_space_info" then getSpaceInfo args
  else if String.eqb name "get_nodes_info" then getNodesInfo args
  else if String.eqb name "get_infrastructure_overview"
  then getInfrastructureOverview args
  else if String.eqb name "get_room_contexts"
  then getRoomContexts penv net rt args
  else if String.eqb name "get_room_nodes" then getRoomNodes penv net rt args
  else if String.eqb name "test_room_parameter" then testRoomParameter args
  else if String.eqb name "debug_api_call" then debugApiCall args
  else if String.eqb name "test_direct_room_contexts"
  then testDirectRoomContexts args
  else if String.eqb name "test_category_metrics_activity"
  then testCategoryMetricsActivity penv net rt args
  else if String.eqb name "test_network_metrics_activity"
  then testNetworkMetricsActivity penv net rt args
  else if String.eqb name "get_active_metrics_summary"
  then getActiveMetricsSummary penv net rt args
  else throw (Error ("Unknown NetData tool: " +:+ name)).

(** *** Akash *)

Definition akashToolNames : list string := [
  "get_akash_providers_down"; "get_akash_gpu_issues"; "get_akash_cpu_issues";
  "get_akash_memory_issues"; "get_akash_partial_failures";
  "get_akash_all_issues_report"
].

Definition getAkashProvidersDown (args : option ToolArgs) : M ToolResponse :=
  guarded (tryBlock blocks "get_akash_providers_down" args)
          (failing "Error fetching down providers: ").

Definition getAkashGpuIssues (args : option ToolArgs) : M ToolResponse :=
  guarded (tryBlock blocks "get_akash_gpu_issues" args)
          (failing "Error fetching GPU issues: ").

Definition getAkashPartialFailures (args : option ToolArgs)
  : M ToolResponse :=
  guarded (tryBlock blocks "get_akash_partial_failures" args)
          (failing "Error fetching partial failures: ").

Definition getAkashAllIssuesReport (args : option ToolArgs)
  : M ToolResponse :=
  guarded (tryBlock blocks "get_akash_all_issues_report" args)
          (failing "Error generating comprehensive issues report: ").

(** Route tool calls to appropriate handlers ([akash.ts]) *)
Definition akashHandleToolCall (name : string) (args : option ToolArgs)
  : M ToolResponse :=
  if String.eqb name "get_akash_providers_down"
  then getAkashProvidersDown args
  else if String.eqb name "get_akash_gpu_issues" then getAkashGpuIssues args
  else if String.eqb name "get_akash_cpu_issues"
  then getAkashCpuIssues net rt args
  else if String.eqb name "get_akash_memory_issues"
  then getAkashMemoryIssues net rt args
  else if String.eqb name "get_akash_partial_failures"
  then getAkashPartialFailures args
  else if String.eqb name "get_akash_all_issues_report"
  then getAkashAllIssuesReport args
  else throw (Error ("Unknown Akash tool: " +:+ name)).

(** *** GitHub wiki *)

Definition githubToolNames : list string := [
  "search_wiki"; "get_wiki_page"; "list_rpc_nodes"; "get_wiki_pages_list"
].

(** [const { query } = args;] when [args] is undefined. *)
Definition cannotDestructure (field : string) : exn :=
  Error ("Cannot destructure property '" +:+ field +:+
         "' of 'args' as it is undefined.").

Definition searchWiki (args : option ToolArgs) : M ToolResponse :=
  match args with
  | None => throw (cannotDestructure "query")
  | Some a =>
      if negb (Js.truthy (query a))
      then ret (text_response "Error: query parameter is required")
      else guarded (tryBlock blocks "search_wiki" args)
                   (failing "Error searching wiki: ")
  end.

Definition getWikiPage (args : option ToolArgs) : M ToolResponse :=
  match args with
  | None => throw (cannotDestructure "page_name")
  | Some a =>
      if negb (Js.truthy (page_name a))
      then ret (text_response "Error: page_name parameter is required")
      else guarded (tryBlock blocks "get_wiki_page" args)
                   (failing "Error getting wiki page: ")
  end.

Definition listRpcNodes (args : option ToolArgs) : M ToolResponse :=
  guarded (tryBlock blocks "list_rpc_nodes" args)
          (failing "Error extracting RPC nodes: ").

Definition getWikiPagesList (args : option ToolArgs) : M ToolResponse :=
  guarded (tryBlock blocks "get_wiki_pages_list" args)
          (fun error =>
             "Error listing wiki pages: " +:+ message error +:+ nl +:+ nl +:+
             "Try common pages: Home, Overview, DevOps-Phone-Numbers").

(** Route tool calls to appropriate handlers ([github.ts]) *)
Definition githubHandleToolCall (name : string) (args : option ToolArgs)
  : M ToolResponse :=
  if String.eqb name "search_wiki" then searchWiki args
  else if String.eqb name "get_wiki_page" then getWikiPage args
  else if String.eqb name "list_rpc_nodes" then listRpcNodes args
  else if String.eqb name "get_wiki_pages_list" then getWikiPagesList args
  else throw (Error ("Unknown GitHub tool: " +:+ name)).

(** *** [services/index.ts] *)

(** [names.includes(name)] *)
Definition includesName (names : list string) (name : string) : bool :=
  existsb (String.eqb name) names.

(** Route tool calls to appropriate service *)
Definition handleToolCall (name : string) (args : option ToolArgs)
  : M ToolResponse :=
  if includesName netdataToolNames name
  then netdataHandleToolCall name args
  else if includesName akashToolNames name
  then akashHandleToolCall name args
  else if includesName githubToolNames name
  then githubHandleToolCall name args
  else throw (McpError MethodNotFound ("Unknown tool: " +:+ name)).

(** *** [index.ts] *)

(** The handler of [CallToolRequestSchema]: what it throws is the protocol's
    error reply. *)
Definition callTool (name : string) (args : option ToolArgs)
  : M ToolResponse :=
  try_catch
    (handleToolCall name args)
    (fun error =>
       match error with
       | McpError _ _ => throw error
       | Error errorMessage =>
           throw (McpError InternalError
                    ("Error executing tool " +:+ name +:+ ": " +:+
                     errorMessage))
       end).

End Routing.

(** The registered names: the union of the three services' tables. *)
Definition registeredToolNames : list string :=
  netdataToolNames ++ akashToolNames ++ githubToolNames.

(* ===================================================================== *)
(** * Notions of the specification *)
(* ===================================================================== *)

(** Consecutive chunks of [n] elements; the last one may be shorter. *)
Fixpoint chunksAux {A} (fuel n : nat) (xs : list A) : list (list A) :=
  match fuel with
  | O => []
  | S fuel' =>
      match xs with
      | [] => []
      | _ :: _ => take n xs :: chunksAux fuel' n (drop n xs)
      end
  end.

Definition chunks {A} (n : nat) (xs : list A) : list (list A) :=
  chunksAux (length xs) n xs.

(** The requests of a batch, in the order of the batch. *)
Definition probes (penv : ProcessEnv) (batch : list string) : trace :=
  map (fun context => AgentGet (agentMetricUrl penv context (-300))) batch.

(** What the prober does for a list of batches: the probes of each batch,
    and a pause after every batch but the last. *)
Fixpoint schedule (penv : ProcessEnv) (batches : list (list string)) : trace :=
  match batches with
  | [] => []
  | batch :: rest =>
      probes penv batch ++
      match rest with
      | [] => []
      | _ :: _ => Sleep (rateLimitDelay (config penv)) :: schedule penv rest
      end
  end.

(** A probe result as [queryAgentMetric] settles it for [context]: either
    the reply was read (no error), or the call failed (inactive, with the
    failure's message). *)
Definition settled (context : string) (r : MetricResult.t) : Prop :=
  MetricResult.context r = context ∧
  (MetricResult.error r = None ∨
   (MetricResult.active r = Flag false ∧ is_Some (MetricResult.error r))).

(** The three classes of the prober. *)
Definition errored (r : MetricResult.t) : bool :=
  Js.truthy (MetricResult.error r).

Definition foundActive (r : MetricResult.t) : bool :=
  negb (errored r) &&
  match MetricResult.active r with Flag true => true | _ => false end.

Definition foundInactive (r : MetricResult.t) : bool :=
  negb (errored r) &&
  match MetricResult.active r with Flag true => false | _ => true end.

(** The three counters of an entry of the cloud's alarm list, read off its
    fields: a counter that is missing counts as zero. *)
Definition warningCount (room : RoomAlarm.t) : nat :=
  match RoomAlarm.alarmCounter room with
  | Some {| AlarmCounter.warning := Some n |} => n
  | _ => 0
  end.

Definition criticalCount (room : RoomAlarm.t) : nat :=
  match RoomAlarm.alarmCounter room with
  | Some {| AlarmCounter.critical := Some n |} => n
  | _ => 0
  end.

Definition unreachableCount (room : RoomAlarm.t) : nat :=
  match RoomAlarm.unreachableCount room with
  | Some n => n
  | None => 0
  end.

(** An alarm-counter entry that the alarm summary keeps, in the words of the
    specification: some counter is nonzero, the room is in the lookup, and
    its name there is the sentinel. *)
Definition retained (roomIdToName : gmap string string) (room : RoomAlarm.t)
  : bool :=
  bool_decide (warningCount room ≠ 0 ∨ criticalCount room ≠ 0 ∨
               unreachableCount room ≠ 0) &&
  bool_decide (is_Some (roomIdToName !! RoomAlarm.roomID room)) &&
  bool_decide (roomIdToName !! RoomAlarm.roomID room = Some "All nodes").

(** The record kept for a retained entry. *)
Definition roomDataOf (roomName : string) (room : RoomAlarm.t) : RoomData.t := {|
  RoomData.roomID := RoomAlarm.roomID room;
  RoomData.roomName := roomName;
  RoomData.warnings := warningCount room;
  RoomData.critical := criticalCount room;
  RoomData.unreachable := unreachableCount room
|}.

(** The URLs of the agent requests of a trace. *)
Definition agentGets (t : trace) : list string :=
  omap (fun e => match e with AgentGet url => Some url | _ => None end) t.

(** The sample that [getActiveMetricsSummary] probes for one category. *)
Definition sampleOf (allContexts : list string) (sample_size : Z)
    (entry : string * list string) : list string :=
  let categoryContexts := List.filter (matchesSome entry.2) allContexts in
  if 0 <? length categoryContexts
  then Js.slice categoryContexts 0 sample_size else [].

(** What the category loop records for one category when the sample size
    is zero: an entry only if some context matches, with nothing tested. *)
Definition zeroSampleStats (allContexts : list string)
    (entry : string * list string) : option (string * CategoryStats.t) :=
  let categoryContexts := List.filter (matchesSome entry.2) allContexts in
  if 0 <? length categoryContexts
  then Some (entry.1,
             {| CategoryStats.totalAvailable := length categoryContexts;
                CategoryStats.tested := 0;
                CategoryStats.active := 0;
                CategoryStats.activeRate := "NaN";
                CategoryStats.error := None |})
  else None.

(** A computation that never ends in an exception. *)
Definition neverThrows {A} (m : M A) : Prop :=
  ∀ t e, (m t).1 ≠ Throw e.

(** ** Concrete worlds, for the examples *)

Definition noEnv : ProcessEnv := {|
  NETDATA_CLOUD_URL := None; NETDATA_SPACE_ID := None;
  NETDATA_API_TOKEN := None
|}.

Definition tokenEnv : ProcessEnv := {|
  NETDATA_CLOUD_URL := None; NETDATA_SPACE_ID := None;
  NETDATA_API_TOKEN := Some "secret"
|}.

(** Every request is rejected with [msg]. *)
Definition rejecting (msg : string) : Network := {|
  agent_data := fun _ _ => Rejected msg;
  agent_alarms := fun _ _ => Rejected msg;
  cloud_alarms := fun _ _ => Rejected msg;
  cloud_rooms := fun _ _ => Rejected msg;
  cloud_nodes := fun _ _ => Rejected msg;
  cloud_contexts := fun _ _ => Rejected msg;
  provider_issues := fun _ _ => Rejected msg;
  first_rejects := fun _ => true
|}.


(** Agents answer every probe with one data row; the cloud knows the rooms
    in [rooms], the alarm counters in [alarms] and the contexts in
    [contexts]. *)
Definition answering (alarms : list RoomAlarm.t) (rooms : list Room.t)
    (contexts : list string) : Network := {|
  agent_data := fun _ _ =>
    Resolved (Body {| AgentData.data := DataRows [[1; 2]%Z];
                      AgentData.labels := Some ["time"; "value"] |});
  agent_alarms := fun _ _ => Resolved None;
  cloud_alarms := fun _ _ => Resolved (Some alarms);
  cloud_rooms := fun _ _ => Resolved rooms;
  cloud_nodes := fun _ _ => Resolved [];
  cloud_contexts := fun _ _ => Resolved (ContextsResults contexts);
  provider_issues := fun _ _ => Resolved None;
  first_rejects := fun _ => true
|}.

(** The texts between the commas of [s], after [cur]. *)
Fixpoint splitCommas (cur s : string) : list string :=
  match s with
  | EmptyString => [cur]
  | String c s' =>
      if Ascii.eqb c (Ascii.ascii_of_nat 44)
      then cur :: splitCommas "" s'
      else splitCommas (cur +:+ String c EmptyString) s'
  end.

(** The value of a string of decimal digits. *)
Fixpoint digitsValue (acc : N) (s : string) : option N :=
  match s with
  | EmptyString => Some acc
  | String c s' =>
      let n := Ascii.N_of_ascii c in
      if ((48 <=? n) && (n <=? 57))%N
      then digitsValue (acc * 10 + (n - 48))%N s'
      else None
  end.

(** [Number(s)] on the strings of decimal digits and the empty string; any
    other text is taken for non-numeric. *)
Definition plainNumber (s : string) : Js.number :=
  match digitsValue 0 s with
  | Some n => Js.of_Z (Z.of_N n)
  | None => Js.NaN
  end.

(** A runtime that prints a context list as its names between brackets,
    separated by commas, and reads it back; numbers print with one
    decimal, and letters have their ASCII upper case. *)
Definition plainRuntime : Runtime := {|
  now := fun _ => "2024-01-01T00:00:00.000Z";
  stringify_contexts := fun contexts => "[" +:+ Js.join "," contexts +:+ "]";
  stringify_nodes := fun _ => "[]";
  JSON_parse := fun s =>
    match matchBrackets s with
    | Some "" => inr []
    | Some inner => inr (splitCommas "" inner)
    | None => inl (Error "Unexpected token")
    end;
  StringToNumber := plainNumber;
  NumberToString := Js.toFixed1 (fun _ => "1e+21");
  toUpperCase := upperCaseAscii
|}.

(** Blocks that return a fixed text. *)
Definition plainBlocks : Blocks := {|
  tryBlock := fun _ _ => ret "ok";
  failedText := message
|}.





(** A provider record whose resource fields hold text that is not a number. *)
Definition textualNode : AkashProvider.t := {|
  AkashProvider.host := Some "provider.example.com";
  AkashProvider.provider := None;
  AkashProvider.node := Some "node1";
  AkashProvider.allocatable := Some (Str "n/a");
  AkashProvider.allocated := Some (Str "unknown");
  AkashProvider.capacity := None;
  AkashProvider.issue := None;
  AkashProvider.issue_type := None;
  AkashProvider.severity := None;
  AkashProvider.failureDuration := None;
  AkashProvider.failures := None;
  AkashProvider.failed_ips := None
|}.

(** Arguments of [get_active_metrics_summary] with a sample size of zero. *)
Definition zeroSampleArgs : ToolArgs := {|
  room_name := Some "all-nodes"; category := None; sample_size := Some 0%Z;
  query := None; page_name := None
|}.

(** ** Further notions *)

(** The number of pauses in a trace. *)
Definition pauses (t : trace) : nat :=
  length (List.filter (fun e => match e with Sleep _ => true | _ => false end)
                      t).


(** The URL that the alarm drill-down asks of a node's agent. *)
Definition nodeAlarmsUrl (node : Node.t) : string :=
  "http://" +:+ Node.name node +:+ ":19999/api/v1/alarms?active=true".

(** The character [c] does not occur in [s]. *)
Definition lacks (c : Ascii.ascii) (s : string) : Prop :=
  after_first c s = None.

(** The URL of a cloud endpoint. *)
Definition cloudUrl (penv : ProcessEnv) (endpoint : string) : string :=
  cloudBaseUrl (config penv) +:+ "/api/v2" +:+ endpoint.









(** A falsy field of a provider record: missing, the empty text, or a
    number that is zero (of either sign) or NaN. *)
Definition falsyField (v : option NumOrStr) : Prop :=
  v = None ∨ v = Some (Str "") ∨
  ∃ x, v = Some (Num x) ∧
       (PrimFloat.eqb x 0 = true ∨ PrimFloat.eqb x x = false).

(** The order of bytes on two texts.  On texts of ASCII characters it is
    the order of [a > b] on two JavaScript strings. *)
Definition byteGreater (a b : string) : bool := String.ltb b a.

(** A down provider with the duration "9m". *)
Definition nineMinutes : AkashProvider.t := {|
  AkashProvider.host := Some "a.example.com";
  AkashProvider.provider := None; AkashProvider.node := None;
  AkashProvider.allocatable := None; AkashProvider.allocated := None;
  AkashProvider.capacity := None; AkashProvider.issue := None;
  AkashProvider.issue_type := None;
  AkashProvider.severity := Some "Critical";
  AkashProvider.failureDuration := Some "9m";
  AkashProvider.failures := Some 3;
  AkashProvider.failed_ips := None |}.

(** Two down providers: nine minutes and ten hours. *)
Definition outages : list AkashProvider.t :=
  [ nineMinutes;
    {| AkashProvider.host := Some "b.example.com";
       AkashProvider.provider := None; AkashProvider.node := None;
       AkashProvider.allocatable := None; AkashProvider.allocated := None;
       AkashProvider.capacity := None; AkashProvider.issue := None;
       AkashProvider.issue_type := None;
       AkashProvider.severity := Some "critical";
       AkashProvider.failureDuration := Some "10h";
       AkashProvider.failures := None;
       AkashProvider.failed_ips := None |} ].

(** The contexts endpoint of the room [all-nodes]. *)
Definition allNodesContextsUrl : string :=
  "https://app.netdata.cloud/api/v2/spaces/4e5af321-fd71-4cd7-8456-aa96d7029ab8/rooms/93e19508-b494-4999-957f-802b48a2ba0d/contexts".

(** Four contexts: three of the category network ([system.net] is one of
    them) and one of the category system. *)
Definition mixedContexts : list string :=
  ["net.eth0"; "net.eth1"; "system.net"; "system.cpu"].

Definition categoryArgs (room category : string) : ToolArgs := {|
  room_name := Some room; category := Some category; sample_size := None;
  query := None; page_name := None
|}.


(** A handler whose every response is the plain envelope. *)
Definition returnsText (m : M ToolResponse) : Prop :=
  ∀ t r t', m t = (Return r, t') → ∃ s, r = text_response s.

(* ===================================================================== *)
(** * [services/akash.ts]: down providers and partial failures *)
(* ===================================================================== *)


Section ProviderLists.

(** The replies of the two endpoints (the list-valued field of the body),
    [n.toLocaleString()], and [a > b] on two texts. *)
Context (down_providers partial_failures
           : trace -> string -> reply (option (list AkashProvider.t)))
        (toLocaleString : nat -> string)
        (greaterThan : string -> string -> bool).


(** [p.failureDuration || '0'] *)
Definition durationOf (p : AkashProvider.t) : string :=
  Js.or_else (AkashProvider.failureDuration p) "0".

(** The [reduce] of "Longest outage". *)
Definition longestOutage (providers : list AkashProvider.t) : string :=
  fold_left
    (fun max p => if greaterThan (durationOf p) max then durationOf p else max)
    providers "0".









End ProviderLists.

(* ===================================================================== *)
(** * Properties *)
(* ===================================================================== *)

(** ** The runtime on small inputs *)

Example slice_negative_end : Js.slice [1; 2; 3] 0 (-1) = [1; 2].
Proof. reflexivity. Qed.

Example slice_past_the_end : Js.slice [1; 2; 3] 2 7 = [3].
Proof. reflexivity. Qed.

Example slice_backwards : Js.slice [1; 2; 3] (-1) (-2) = [].
Proof. reflexivity. Qed.

Example percentage_of_nothing : percentage plainRuntime 0 0 = "NaN".
Proof. reflexivity. Qed.

Example percentage_one_third : percentage plainRuntime 1 3 = "33.3".
Proof. reflexivity. Qed.

(** The quotient is a double: 23 / 80 * 100 is a little less than 28.75. *)
Example percentage_of_a_double : percentage plainRuntime 23 80 = "28.7".
Proof. reflexivity. Qed.

Example toFixed1_small_negative :
  Js.toFixed1 (NumberToString plainRuntime)
    (Js.div (Js.of_Z (-1)) (Js.of_Z 25)) = "-0.0".
Proof. reflexivity. Qed.

Example matchBrackets_outermost :
  matchBrackets "Room (2 contexts found): [a[0],b] end" = Some "a[0],b".
Proof. reflexivity. Qed.

Example ROOM_IDS_inherits_constructor :
  Js.get ROOM_IDS "constructor" = Js.Inherited "constructor" ∧
  Js.get ROOM_IDS "nope" = Js.Undefined ∧
  Js.get ROOM_IDS "all-nodes" = Js.Own "93e19508-b494-4999-957f-802b48a2ba0d".
Proof. repeat split. Qed.

(** ** The batched prober *)

Section ProberFacts.
Context (penv : ProcessEnv) (net : Network).

Lemma queryAgentMetric_run context afterSeconds t :
  ∃ r, queryAgentMetric penv net context afterSeconds t
       = (Return r, t ++ [AgentGet (agentMetricUrl penv context afterSeconds)])
       ∧ settled context r.
Proof.
  unfold queryAgentMetric, try_catch, bind, axios_get.
  destruct (agent_data net t _) as [msg|[|body]]; simpl.
  - eexists; split; [reflexivity|]. split; [done|]. right.
    split; [done|]. by eexists.
  - eexists; split; [reflexivity|]. split; [done|]. right.
    split; [done|]. by eexists.
  - eexists; split; [reflexivity|]. split; [done|]. by left.
Qed.

Lemma mapM_queryAgentMetric batch t :
  ∃ rs, mapM (fun context => queryAgentMetric penv net context (-300)) batch t
        = (Return rs, t ++ probes penv batch)
        ∧ Forall2 settled batch rs.
Proof.
  revert t. induction batch as [|c batch IH]; intros t; simpl.
  - exists []. rewrite app_nil_r. split; [reflexivity | constructor].
  - destruct (queryAgentMetric_run c (-300) t) as (r & Hr & Hs).
    destruct (IH (t ++ [AgentGet (agentMetricUrl penv c (-300))]))
      as (rs & Hrs & Hss).
    exists (r :: rs). split; [| by constructor].
    unfold bind at 1. rewrite Hr. unfold bind at 1. rewrite Hrs.
    unfold ret. by rewrite <- app_assoc.
Qed.

End ProberFacts.

Lemma slice_batch {A} (xs : list A) (k : nat) (bs : Z) :
  (0 < bs)%Z → k < length xs →
  Js.slice xs (Z.of_nat k) (Z.of_nat k + bs) = take (Z.to_nat bs) (drop k xs).
Proof.
  intros Hbs Hk. unfold Js.slice.
  destruct (Z.ltb_spec (Z.of_nat k) 0) as [?|_]; [lia|].
  destruct (Z.ltb_spec (Z.of_nat k + bs) 0) as [?|_]; [lia|].
  rewrite (Z.min_l (Z.of_nat k)) by lia. rewrite Nat2Z.id.
  destruct (Z.le_ge_cases (Z.of_nat k + bs) (Z.of_nat (length xs)))
    as [Hle|Hge].
  - rewrite Z.min_l by lia. f_equal. lia.
  - rewrite Z.min_r by lia.
    rewrite !take_ge; [done | |]; rewrite length_drop; lia.
Qed.

Lemma chunksAux_fuel {A} (n : nat) :
  0 < n → ∀ f1 f2 (xs : list A),
  length xs ≤ f1 → length xs ≤ f2 → chunksAux f1 n xs = chunksAux f2 n xs.
Proof.
  intros Hn. induction f1 as [|f1 IH]; intros f2 xs H1 H2.
  - destruct xs; [|simpl in H1; lia]. by destruct f2.
  - destruct xs as [|x xs]; [by destruct f2|].
    destruct f2 as [|f2]; [simpl in H2; lia|]. simpl. f_equal.
    destruct n as [|n]; [lia|]. simpl in *.
    apply IH; rewrite length_drop; lia.
Qed.

Lemma chunks_nil {A} (n : nat) : chunks n (@nil A) = [].
Proof. reflexivity. Qed.

Lemma chunks_cons {A} (n : nat) (xs : list A) :
  0 < n → xs ≠ [] → chunks n xs = take n xs :: chunks n (drop n xs).
Proof.
  intros Hn Hxs. unfold chunks. destruct xs as [|x xs]; [done|].
  change (length (x :: xs)) with (S (length xs)).
  cbn [chunksAux]. f_equal. apply chunksAux_fuel; [done| |done].
  destruct n; [lia|]. simpl. rewrite length_drop. lia.
Qed.

Lemma chunks_concat {A} (n : nat) (xs : list A) :
  0 < n → concat (chunks n xs) = xs.
Proof.
  intros Hn. remember (length xs) as m eqn:Hm. revert xs Hm.
  induction m as [m IH] using lt_wf_ind. intros xs ->.
  destruct xs as [|x xs]; [done|].
  rewrite chunks_cons by done. simpl concat.
  rewrite (IH (length (drop n (x :: xs)))); [apply take_drop| |done].
  rewrite length_drop. simpl. lia.
Qed.

Lemma chunks_full {A} (n : nat) (xs : list A) batch rest :
  0 < n → chunks n xs = batch :: rest → rest ≠ [] → length batch = n.
Proof.
  intros Hn Hc Hrest. destruct xs as [|x xs]; [done|].
  rewrite chunks_cons in Hc by done. injection Hc as <- <-.
  rewrite length_take. destruct (decide (n ≤ length (x :: xs))); [lia|].
  exfalso. apply Hrest. rewrite drop_ge by lia. reflexivity.
Qed.

Section LoopFacts.
Context (penv : ProcessEnv) (net : Network).

Lemma categorize_all rs : ∀ r0,
  let r := foldl categorize r0 rs in
  MetricTestResults.active r
    = MetricTestResults.active r0 ++ List.filter foundActive rs ∧
  MetricTestResults.inactive r
    = MetricTestResults.inactive r0 ++ List.filter foundInactive rs ∧
  MetricTestResults.errors r
    = MetricTestResults.errors r0 ++ List.filter errored rs ∧
  Summary.total (MetricTestResults.summary r)
    = Summary.total (MetricTestResults.summary r0) ∧
  Summary.tested (MetricTestResults.summary r)
    = Summary.tested (MetricTestResults.summary r0) + length rs ∧
  Summary.activeCount (MetricTestResults.summary r)
    = Summary.activeCount (MetricTestResults.summary r0)
      + length (List.filter foundActive rs) ∧
  Summary.inactiveCount (MetricTestResults.summary r)
    = Summary.inactiveCount (MetricTestResults.summary r0)
      + length (List.filter foundInactive rs) ∧
  Summary.errorCount (MetricTestResults.summary r)
    = Summary.errorCount (MetricTestResults.summary r0)
      + length (List.filter errored rs).
Proof.
  induction rs as [|x rs IH]; intros r0; simpl.
  - rewrite !app_nil_r. repeat split; lia.
  - destruct (IH (categorize r0 x))
      as (Ha & Hi & He & Ht & Hn & Hac & Hic & Hec).
    rewrite Ha, Hi, He, Ht, Hn, Hac, Hic, Hec. clear.
    unfold categorize, foundActive, foundInactive, errored.
    destruct (Js.truthy (MetricResult.error x)); simpl;
      [| destruct (MetricResult.active x) as [v|[|]]; simpl ];
      rewrite <- ?app_assoc; simpl; repeat split; lia.
Qed.

Lemma batchLoop_run contexts batchSize :
  (0 < batchSize)%Z → ∀ fuel k results t,
  length contexts - k < fuel →
  ∃ settledResults,
    batchLoop penv net fuel contexts batchSize (Z.of_nat k) results t
    = (Return (foldl categorize results settledResults),
       t ++ schedule penv (chunks (Z.to_nat batchSize) (drop k contexts)))
    ∧ Forall2 settled (drop k contexts) settledResults.
Proof.
  intros Hbs. set (n := Z.to_nat batchSize). assert (0 < n) as Hn by lia.
  induction fuel as [|fuel IH]; intros k results t Hfuel; [lia|].
  cbn [batchLoop].
  destruct (Z.ltb_spec (Z.of_nat k) (Z.of_nat (length contexts))) as [Hlt|Hge].
  - rewrite slice_batch by lia. fold n.
    destruct (mapM_queryAgentMetric penv net (take n (drop k contexts)) t)
      as (rs & Hrs & Hss).
    unfold bind at 1. rewrite Hrs.
    assert (drop k contexts ≠ []) as Hne.
    { intros E. apply (f_equal length) in E. rewrite length_drop in E.
      simpl in E. lia. }
    rewrite (chunks_cons n (drop k contexts)) by done.
    rewrite drop_drop. cbn [schedule].
    replace (Z.of_nat k + batchSize)%Z with (Z.of_nat (k + n)) by lia.
    destruct (Z.ltb_spec (Z.of_nat (k + n)) (Z.of_nat (length contexts)))
      as [Hmore|Hlast].
    + destruct (IH (k + n) (foldl categorize results rs)
                  ((t ++ probes penv (take n (drop k contexts)))
                     ++ [Sleep (rateLimitDelay (config penv))]))
        as (rest & Hrest & Hsrest); [lia|].
      exists (rs ++ rest). split.
      * unfold bind at 1. unfold sleep at 1. rewrite Hrest.
        rewrite foldl_app. f_equal.
        assert (drop (k + n) contexts ≠ []) as Hne'.
        { intros E. apply (f_equal length) in E. rewrite length_drop in E.
          simpl in E. lia. }
        destruct (drop (k + n) contexts) as [|c cs] eqn:Hd; [done|].
        rewrite (chunks_cons n (c :: cs)) by done.
        rewrite <- !app_assoc. reflexivity.
      * rewrite <- (take_drop n (drop k contexts)). rewrite drop_drop.
        by apply Forall2_app.
    + destruct (IH (k + n) (foldl categorize results rs)
                  (t ++ probes penv (take n (drop k contexts))))
        as (rest & Hrest & Hsrest); [lia|].
      exists (rs ++ rest). split.
      * unfold bind at 1. unfold ret at 1. rewrite Hrest.
        rewrite foldl_app. f_equal.
        rewrite (drop_ge contexts (k + n)) by lia.
        rewrite chunks_nil. simpl. by rewrite !app_nil_r.
      * rewrite <- (take_drop n (drop k contexts)). rewrite drop_drop.
        by apply Forall2_app.
  - exists []. rewrite drop_ge by lia. rewrite chunks_nil. simpl.
    rewrite app_nil_r. split; [reflexivity | constructor].
Qed.

Lemma batchLoop_stuck contexts batchSize :
  (batchSize ≤ 0)%Z → contexts ≠ [] → ∀ fuel i results t,
  (i ≤ 0)%Z →
  (batchLoop penv net fuel contexts batchSize i results t).1 = OutOfFuel.
Proof.
  intros Hbs Hne. induction fuel as [|fuel IH]; intros i results t Hi; [done|].
  cbn [batchLoop].
  assert (0 < length contexts) by (destruct contexts; [done | simpl; lia]).
  destruct (Z.ltb_spec i (Z.of_nat (length contexts))) as [_|?]; [|lia].
  destruct (mapM_queryAgentMetric penv net
              (Js.slice contexts i (i + batchSize)) t) as (rs & Hrs & _).
  unfold bind at 1. rewrite Hrs.
  destruct (i + batchSize <? Z.of_nat (length contexts))%Z.
  - unfold bind at 1, sleep at 1. apply IH. lia.
  - unfold bind at 1, ret at 1. apply IH. lia.
Qed.

End LoopFacts.



Lemma elem_of_filter_bool {A} (p : A → bool) (xs : list A) (x : A) :
  x ∈ List.filter p xs ↔ x ∈ xs ∧ p x = true.
Proof. rewrite !list_elem_of_In. apply filter_In. Qed.

(** Claim C1, as the code has it.  With a positive [batchSize] and enough
    fuel, [testMetricsInBatches] returns: the requests it makes are those of
    the consecutive chunks of [batchSize] identifiers, with a pause after
    every chunk but the last, and [summary.tested] is the length of the
    input.  An empty input gives the zero-filled summary whatever
    [batchSize] is.  For [batchSize <= 0] and a non-empty input there is no
    single-batch fallback: the loop does not end, whatever the fuel. *)
Theorem testMetricsInBatches_batches penv net contexts batchSize fuel t :
  ((0 < batchSize)%Z → length contexts < fuel →
   ∃ results,
     testMetricsInBatches penv net fuel contexts batchSize t
     = (Return results,
        t ++ schedule penv (chunks (Z.to_nat batchSize) contexts)) ∧
     Summary.tested (MetricTestResults.summary results) = length contexts) ∧
  (contexts = [] → 0 < fuel →
   testMetricsInBatches penv net fuel contexts batchSize t
   = (Return (emptyResults []), t)) ∧
  ((batchSize ≤ 0)%Z → contexts ≠ [] →
   (testMetricsInBatches penv net fuel contexts batchSize t).1 = OutOfFuel).
Proof.
  split; [|split].
  - intros Hbs Hfuel. unfold testMetricsInBatches.
    destruct (batchLoop_run penv net contexts batchSize Hbs fuel 0
                (emptyResults contexts) t) as (rs & Hrun & Hrs); [lia|].
    rewrite drop_0 in Hrun, Hrs. eexists. split; [exact Hrun|].
    destruct (categorize_all rs (emptyResults contexts))
      as (_ & _ & _ & _ & -> & _).
    simpl. by rewrite (Forall2_length _ _ _ Hrs).
  - intros -> Hfuel. destruct fuel; [lia|]. reflexivity.
  - intros Hbs Hne. by apply batchLoop_stuck.
Qed.


(** The specification's scenario: six identifiers in batches of two. *)
Lemma testMetricsInBatches_batches_witness :
  ∃ results,
    testMetricsInBatches noEnv (answering [] [] []) 7
      ["a"; "b"; "c"; "d"; "e"; "f"] 2 []
    = (Return results,
       [] ++ schedule noEnv
               (chunks (Z.to_nat 2) ["a"; "b"; "c"; "d"; "e"; "f"])) ∧
    Summary.tested (MetricTestResults.summary results)
    = length ["a"; "b"; "c"; "d"; "e"; "f"].
Proof.
  apply (testMetricsInBatches_batches noEnv (answering [] [] [])
           ["a"; "b"; "c"; "d"; "e"; "f"] 2 7 []); [lia | simpl; lia].
Defined.

Example schedule_six_by_two :
  schedule noEnv (chunks 2 ["a"; "b"; "c"; "d"; "e"; "f"])
  = [ AgentGet (agentMetricUrl noEnv "a" (-300));
      AgentGet (agentMetricUrl noEnv "b" (-300));
      Sleep 100;
      AgentGet (agentMetricUrl noEnv "c" (-300));
      AgentGet (agentMetricUrl noEnv "d" (-300));
      Sleep 100;
      AgentGet (agentMetricUrl noEnv "e" (-300));
      AgentGet (agentMetricUrl noEnv "f" (-300)) ].
Proof. reflexivity. Qed.

(** Against C1 as stated: with [batchSize = 0] the counter never moves, and
    with [batchSize = -1] it moves backwards after a first batch that leaves
    out the last identifier; in both cases no amount of fuel gives a
    result. *)
Lemma testMetricsInBatches_nonpositive_never_returns :
  ¬ (∃ fuel results t',
       testMetricsInBatches noEnv (answering [] [] []) fuel ["a"] 0 []
       = (Return results, t')) ∧
  ¬ (∃ fuel results t',
       testMetricsInBatches noEnv (answering [] [] []) fuel
         ["a"; "b"; "c"] (-1) []
       = (Return results, t')).
Proof.
  split; intros (fuel & results & t' & Hrun).
  - pose proof (batchLoop_stuck noEnv (answering [] [] []) ["a"] 0
                  ltac:(lia) ltac:(done) fuel 0%Z (emptyResults ["a"]) []
                  ltac:(lia)) as Hstuck.
    unfold testMetricsInBatches in Hrun. rewrite Hrun in Hstuck. discriminate.
  - pose proof (batchLoop_stuck noEnv (answering [] [] []) ["a"; "b"; "c"] (-1)
                  ltac:(lia) ltac:(done) fuel 0%Z
                  (emptyResults ["a"; "b"; "c"]) [] ltac:(lia)) as Hstuck.
    unfold testMetricsInBatches in Hrun. rewrite Hrun in Hstuck. discriminate.
Qed.



(** ** The alarm aggregator *)

(** ** Generic facts about the monad *)

Lemma mapM_returns {A B} (f : A → M B) (xs : list A) :
  (∀ x t, ∃ y t', f x t = (Return y, t')) →
  ∀ t, ∃ ys t', mapM f xs t = (Return ys, t').
Proof.
  intros Hf. induction xs as [|x xs IH]; intros t; simpl.
  - by eexists _, _.
  - destruct (Hf x t) as (y & t1 & Hy). destruct (IH t1) as (ys & t2 & Hys).
    exists (y :: ys), t2. unfold bind at 1. rewrite Hy.
    unfold bind at 1. by rewrite Hys.
Qed.

Lemma filter_sublist {A} (p : A → bool) (xs : list A) :
  sublist (List.filter p xs) xs.
Proof.
  induction xs as [|x xs IH]; simpl; [constructor|].
  destruct (p x); by constructor.
Qed.

Section AlarmFacts.
Context (penv : ProcessEnv) (net : Network) (rt : Runtime).

Lemma makeCloudRequest_outcome {A} (oracle : trace → string → reply A)
    endpoint t :
  (∃ a t', makeCloudRequest penv oracle endpoint t = (Return a, t')) ∨
  (∃ msg t', makeCloudRequest penv oracle endpoint t = (Throw (Error msg), t')
             ∧ msg ≠ "").
Proof.
  unfold makeCloudRequest.
  destruct (negb (Js.truthy (apiToken (config penv)))).
  - right. by eexists _, _.
  - unfold try_catch, axios_get. destruct (oracle t _) as [msg|a].
    + right. by eexists _, _.
    + left. by eexists _, _.
Qed.

Lemma nodeCriticalAlerts_returns room node t :
  ∃ found t', nodeCriticalAlerts net rt room node t = (Return found, t').
Proof.
  unfold nodeCriticalAlerts, try_catch, bind, axios_get.
  destruct (agent_alarms net t _); by eexists _, _.
Qed.

Lemma roomCriticalAlerts_returns room t :
  ∃ found t', roomCriticalAlerts penv net rt room t = (Return found, t').
Proof.
  unfold roomCriticalAlerts, try_catch. unfold bind at 1.
  destruct (makeCloudRequest_outcome (cloud_nodes net)
              ("/spaces/" +:+ spaceId (config penv) +:+ "/rooms/" +:+
               RoomData.roomID room +:+ "/nodes") t)
    as [(nodes & t1 & ->)|(msg & t1 & -> & _)].
  - destruct (mapM_returns (nodeCriticalAlerts net rt room)
                (List.filter nodeHasCriticals nodes)
                (nodeCriticalAlerts_returns room) t1) as (ys & t2 & Hys).
    unfold bind. rewrite Hys. by eexists _, _.
  - by eexists _, _.
Qed.

Lemma getCriticalAlarmDetails_returns rooms t :
  ∃ found t', getCriticalAlarmDetails penv net rt rooms t = (Return found, t').
Proof.
  unfold getCriticalAlarmDetails.
  destruct (mapM_returns (roomCriticalAlerts penv net rt) rooms
              roomCriticalAlerts_returns t) as (ys & t' & Hys).
  unfold bind. rewrite Hys. by eexists _, _.
Qed.

Lemma counters_read room :
  warningOf room = warningCount room ∧
  criticalOf room = criticalCount room ∧
  unreachableOf room = unreachableCount room.
Proof.
  unfold warningOf, criticalOf, unreachableOf, warningCount, criticalCount,
    unreachableCount.
  destruct room as [roomID [[[w|] [c|]]|] [u|]]; by cbn.
Qed.

Lemma trackRoom_retained (m : gmap string string) room acc :
  trackRoom m acc room
  = (acc.1 ++ (if retained m room then [roomDataOf "All nodes" room] else []),
     acc.2 ++ (if retained m room && (0 <? criticalCount room)
               then [roomDataOf "All nodes" room] else [])).
Proof.
  destruct acc as [withAlarms withCriticals].
  destruct (counters_read room) as (Hw & Hc & Hu).
  unfold trackRoom, retained, roomDataOf. cbn [fst snd].
  rewrite Hw, Hc, Hu.
  replace (bool_decide (warningCount room ≠ 0 ∨ criticalCount room ≠ 0 ∨
                        unreachableCount room ≠ 0))
    with ((0 <? warningCount room) || (0 <? criticalCount room)
          || (0 <? unreachableCount room)).
  2:{ destruct (warningCount room), (criticalCount room),
        (unreachableCount room); cbn;
        first [ by rewrite bool_decide_eq_false_2 by (intros [|[|]]; done)
              | by rewrite bool_decide_eq_true_2 by (by right; right)
              | by rewrite bool_decide_eq_true_2 by (by right; left)
              | by rewrite bool_decide_eq_true_2 by (by left) ]. }
  destruct ((0 <? warningCount room) || (0 <? criticalCount room)
            || (0 <? unreachableCount room)); cbn [andb];
    [| by rewrite !app_nil_r].
  destruct (m !! RoomAlarm.roomID room) as [name|] eqn:Hname; cbn;
    [| by rewrite !app_nil_r].
  destruct (String.eqb_spec name "All nodes") as [->|Hne].
  - cbn. rewrite bool_decide_eq_true_2 by done. cbn.
    destruct (criticalCount room); by rewrite ?app_nil_r.
  - rewrite (bool_decide_eq_false_2 (Some name = Some "All nodes"))
      by congruence.
    cbn. replace (String.eqb name "All nodes") with false
      by (symmetry; by apply String.eqb_neq).
    destruct (negb (String.eqb name "")); by rewrite !app_nil_r.
Qed.

Lemma trackRoom_fold (m : gmap string string) rooms : ∀ acc,
  foldl (trackRoom m) acc rooms
  = (acc.1 ++ map (roomDataOf "All nodes") (List.filter (retained m) rooms),
     acc.2 ++ map (roomDataOf "All nodes")
                (List.filter (fun room => retained m room
                                          && (0 <? criticalCount room)) rooms)).
Proof.
  induction rooms as [|room rooms IH]; intros acc; simpl.
  - rewrite !app_nil_r. by destruct acc.
  - rewrite IH, trackRoom_retained. cbn [fst snd].
    destruct (retained m room); cbn [andb];
      [destruct (0 <? criticalCount room)|];
      cbn; by rewrite <- ?app_assoc, ?app_nil_r.
Qed.

Lemma sumOf_sum_list (f : RoomData.t → nat) rooms :
  sumOf f rooms = sum_list (map f rooms).
Proof.
  unfold sumOf.
  assert (∀ a, foldl (fun sum room => sum + f room) a rooms
               = a + sum_list (map f rooms)) as H.
  { induction rooms as [|r rooms IH]; intros a; simpl; [lia|].
    rewrite IH. lia. }
  apply H.
Qed.

End AlarmFacts.

(** The lookup is built entry by entry, a later one overwriting. *)
Lemma fromEntries_snoc entries k v :
  Js.fromEntries (entries ++ [(k, v)]) = <[k := v]> (Js.fromEntries entries).
Proof. unfold Js.fromEntries. by rewrite foldl_app. Qed.

Section AlarmSummary.
Context (penv : ProcessEnv) (net : Network) (rt : Runtime).

Lemma summarizeAlarms_run alarmsData roomsData t :
  let roomAlarms := default [] alarmsData in
  let kept := List.filter (retained (roomIdToNameOf roomsData)) roomAlarms in
  ∃ details t',
    summarizeAlarms penv net rt alarmsData roomsData t
    = (Return {|
         NetDataAlarmData.totals := {|
           Totals.warnings := sum_list (map warningCount kept);
           Totals.critical := sum_list (map criticalCount kept);
           Totals.unreachable := sum_list (map unreachableCount kept);
           Totals.totalRooms := length roomAlarms;
           Totals.roomsWithIssues := length kept |};
         NetDataAlarmData.roomsWithAlarms :=
           map (roomDataOf "All nodes") kept;
         NetDataAlarmData.criticalAlarmDetails := details;
         NetDataAlarmData.allRooms := roomAlarms;
         NetDataAlarmData.error := None |}, t').
Proof.
  intros roomAlarms kept. unfold summarizeAlarms. fold roomAlarms.
  rewrite trackRoom_fold. cbn [fst snd app]. fold kept.
  rewrite !sumOf_sum_list, !map_map, !length_map.
  cbn [roomDataOf RoomData.warnings RoomData.critical RoomData.unreachable].
  match goal with
  | |- context [ if ?c then getCriticalAlarmDetails penv net rt ?rooms
                 else _ ] =>
      destruct (getCriticalAlarmDetails_returns penv net rt rooms t)
        as (found & t1 & Hfound);
      destruct c
  end.
  - unfold bind. rewrite Hfound. by eexists _, _.
  - unfold bind, ret. by eexists _, _.
Qed.


(** Claim C3.  [getNetDataAlarms] always returns a summary; when the alarm
    fetch or the room fetch fails, the totals are all zero, the lists are
    empty and [error] is a non-empty message. *)
Theorem getNetDataAlarms_never_raises t :
  ∃ d t',
    getNetDataAlarms penv net rt t = (Return d, t') ∧
    (((∃ e, (fetchAlarms penv net t).1 = Throw e) ∨
      (∃ e, (fetchRooms penv net (fetchAlarms penv net t).2).1 = Throw e)) →
     NetDataAlarmData.totals d
     = {| Totals.warnings := 0; Totals.critical := 0;
          Totals.unreachable := 0; Totals.totalRooms := 0;
          Totals.roomsWithIssues := 0 |} ∧
     NetDataAlarmData.roomsWithAlarms d = [] ∧
     NetDataAlarmData.criticalAlarmDetails d = [] ∧
     NetDataAlarmData.allRooms d = [] ∧
     ∃ msg, NetDataAlarmData.error d = Some msg ∧ msg ≠ "").
Proof.
  unfold getNetDataAlarms, try_catch. unfold bind at 1. unfold promiseAll2.
  unfold fetchAlarms, fetchRooms.
  destruct (makeCloudRequest_outcome penv (cloud_alarms net)
              ("/spaces/" +:+ spaceId (config penv) +:+ "/alarms") t)
    as [(alarmsData & t1 & ->)|(msg1 & t1 & -> & Hmsg1)]; cbn [fst snd];
  destruct (makeCloudRequest_outcome penv (cloud_rooms net)
              ("/spaces/" +:+ spaceId (config penv) +:+ "/rooms") t1)
    as [(roomsData & t2 & ->)|(msg2 & t2 & -> & Hmsg2)]; cbn [fst snd].
  - destruct (summarizeAlarms_run alarmsData roomsData t2)
      as (details & t' & ->).
    eexists _, _. split; [reflexivity|].
    intros [[e He]|[e He]]; discriminate.
  - eexists _, _. split; [reflexivity|]. intros _. cbn. eauto 10.
  - eexists _, _. split; [reflexivity|]. intros _. cbn. eauto 10.
  - eexists _, _. split; [reflexivity|]. intros _. cbn.
    do 4 (split; [reflexivity|]).
    destruct (first_rejects net t2); eauto.
Qed.

End AlarmSummary.




(** Without a token both fetches fail before any request. *)
Lemma getNetDataAlarms_never_raises_witness :
  ∃ d t',
    getNetDataAlarms noEnv (rejecting "Network Error") plainRuntime []
    = (Return d, t') ∧
    NetDataAlarmData.roomsWithAlarms d = [] ∧
    Totals.roomsWithIssues (NetDataAlarmData.totals d) = 0 ∧
    ∃ msg, NetDataAlarmData.error d = Some msg ∧ msg ≠ "".
Proof.
  destruct (getNetDataAlarms_never_raises noEnv (rejecting "Network Error")
              plainRuntime [])
    as (d & t' & Hrun & Hfail).
  destruct Hfail as (Htotals & Hrooms & _ & _ & Hmsg).
  { left. eexists. reflexivity. }
  exists d, t'. split; [exact Hrun|]. split; [exact Hrooms|].
  split; [by rewrite Htotals | exact Hmsg].
Defined.

Example getNetDataAlarms_without_token :
  getNetDataAlarms noEnv (rejecting "Network Error") plainRuntime []
  = (Return {|
       NetDataAlarmData.totals := {|
         Totals.warnings := 0; Totals.critical := 0; Totals.unreachable := 0;
         Totals.totalRooms := 0; Totals.roomsWithIssues := 0 |};
       NetDataAlarmData.roomsWithAlarms := [];
       NetDataAlarmData.criticalAlarmDetails := [];
       NetDataAlarmData.allRooms := [];
       NetDataAlarmData.error := Some "NetData API token is not configured"
     |}, []).
Proof. reflexivity. Qed.

Example getNetDataAlarms_rooms_rejected :
  (getNetDataAlarms tokenEnv (rejecting "timeout of 5000ms exceeded")
     plainRuntime []).1
  = Return {|
      NetDataAlarmData.totals := {|
        Totals.warnings := 0; Totals.critical := 0; Totals.unreachable := 0;
        Totals.totalRooms := 0; Totals.roomsWithIssues := 0 |};
      NetDataAlarmData.roomsWithAlarms := [];
      NetDataAlarmData.criticalAlarmDetails := [];
      NetDataAlarmData.allRooms := [];
      NetDataAlarmData.error :=
        Some "NetData Cloud API error: timeout of 5000ms exceeded"
    |}.
Proof. reflexivity. Qed.

(** ** The category filter *)

(** ** Strings *)

Lemma prefix_app_iff (p s : string) :
  String.prefix p s = true ↔ ∃ rest, s = p +:+ rest.
Proof.
  revert s. induction p as [|a p IH]; intros s.
  - split; [intros _; exists s; reflexivity | intros _; by destruct s].
  - destruct s as [|b s]; simpl.
    + split; [done | intros [? ?]; discriminate].
    + destruct (Ascii.ascii_dec a b) as [->|Hne].
      * rewrite IH. split; intros [rest H]; exists rest.
        -- change (String b s = String b (p +:+ rest)). by rewrite H.
        -- change (String b s = String b (p +:+ rest)) in H. congruence.
      * split; [done|]. intros [rest H].
        change (String b s = String a (p +:+ rest)) in H. congruence.
Qed.

Lemma startsWith_spec (s p : string) :
  Js.startsWith s p = true ↔ ∃ rest, s = p +:+ rest.
Proof. apply prefix_app_iff. Qed.

Lemma includes_unfold (s sub : string) :
  Js.includes s sub
  = String.prefix sub s ||
    match s with
    | EmptyString => false
    | String _ s' => Js.includes s' sub
    end.
Proof. by destruct s. Qed.

Lemma includes_here (sub rest : string) :
  Js.includes (sub +:+ rest) sub = true.
Proof.
  rewrite includes_unfold.
  replace (String.prefix sub (sub +:+ rest)) with true; [done|].
  symmetry. apply prefix_app_iff. by exists rest.
Qed.

Lemma includes_app_r (a b sub : string) :
  Js.includes b sub = true → Js.includes (a +:+ b) sub = true.
Proof.
  intros H. induction a as [|c a IH]; [done|].
  simpl. rewrite IH. apply orb_true_r.
Qed.

Lemma append_assoc (a b c : string) : (a +:+ b) +:+ c = a +:+ (b +:+ c).
Proof.
  induction a as [|x a IH]; [done|].
  change (String x ((a +:+ b) +:+ c) = String x (a +:+ (b +:+ c))).
  by rewrite IH.
Qed.

Lemma append_nil_r (a : string) : a +:+ "" = a.
Proof.
  induction a as [|x a IH]; [done|].
  change (String x (a +:+ "") = String x a). by rewrite IH.
Qed.

Lemma includes_spec (s sub : string) :
  Js.includes s sub = true ↔ ∃ before after, s = before +:+ sub +:+ after.
Proof.
  split.
  - induction s as [|c s IH]; rewrite includes_unfold; intros H;
      apply orb_prop in H as [H|H]; try discriminate H.
    + apply prefix_app_iff in H as [rest ->]. by exists "", rest.
    + apply prefix_app_iff in H as [rest ->]. by exists "", rest.
    + destruct (IH H) as (before & after & ->).
      by exists (String c before), after.
  - intros (before & after & ->).
    apply includes_app_r, includes_here.
Qed.

Lemma includes_app_l (a b sub : string) :
  Js.includes a sub = true → Js.includes (a +:+ b) sub = true.
Proof.
  rewrite !includes_spec. intros (before & after & ->).
  exists before, (after +:+ b). by rewrite !append_assoc.
Qed.

Lemma includes_trans (a b c : string) :
  Js.includes a b = true → Js.includes b c = true → Js.includes a c = true.
Proof.
  rewrite !includes_spec. intros (p & q & ->) (p' & q' & ->).
  exists (p +:+ p'), (q' +:+ q). by rewrite !append_assoc.
Qed.

Lemma includes_join (sep : string) (xs : list string) (x : string) :
  x ∈ xs → Js.includes (Js.join sep xs) x = true.
Proof.
  unfold Js.join. induction xs as [|y xs IH]; intros Hin.
  - by apply elem_of_nil in Hin.
  - apply elem_of_cons in Hin as [->|Hin].
    + destruct xs as [|z xs]; cbn [String.concat].
      * apply includes_spec. exists "", "".
        change (y = y +:+ ""). by rewrite append_nil_r.
      * apply includes_here.
    + destruct xs as [|z xs]; [by apply elem_of_nil in Hin|].
      cbn [String.concat]. do 2 apply includes_app_r. by apply IH.
Qed.

Lemma own_in {V} (o : list (string * V)) k v :
  NoDup (Js.keys o) → (k, v) ∈ o → Js.own o k = Some v.
Proof.
  unfold Js.keys. induction o as [|[k' v'] o IH]; intros Hnd Hin.
  - by apply elem_of_nil in Hin.
  - simpl in *. apply NoDup_cons in Hnd as [Hk' Hnd].
    apply elem_of_cons in Hin as [[= -> ->]|Hin].
    + by rewrite String.eqb_refl.
    + destruct (String.eqb_spec k' k) as [->|_]; [|by apply IH].
      exfalso. apply Hk'. apply list_elem_of_fmap. by exists (k, v).
Qed.

Lemma own_not_key {V} (o : list (string * V)) k :
  k ∉ Js.keys o → Js.own o k = None.
Proof.
  unfold Js.keys. induction o as [|[k' v'] o IH]; intros Hk; [done|].
  simpl in *. apply not_elem_of_cons in Hk as [Hne Hk].
  destruct (String.eqb_spec k' k); [congruence | by apply IH].
Qed.

Lemma METRIC_CATEGORIES_keys : NoDup (Js.keys METRIC_CATEGORIES).
Proof. apply (bool_decide_unpack _). by vm_compute. Qed.

(** Claim C5.  For a registered category, [filterContextsByCategory]
    returns exactly the identifiers that begin with one of the category's
    prefixes, as a subsequence of the input. *)
Theorem filterContextsByCategory_exact contexts category prefixes :
  (category, prefixes) ∈ METRIC_CATEGORIES →
  ∃ result,
    filterContextsByCategory contexts category = inr result ∧
    (∀ context, context ∈ result ↔
       context ∈ contexts ∧
       ∃ prefix rest, prefix ∈ prefixes ∧ context = prefix +:+ rest) ∧
    sublist result contexts.
Proof.
  intros Hin. unfold filterContextsByCategory, Js.get.
  rewrite (own_in _ _ _ METRIC_CATEGORIES_keys Hin).
  eexists. split; [reflexivity|]. split; [|apply filter_sublist].
  intros context. rewrite elem_of_filter_bool. unfold matchesSome.
  rewrite existsb_exists. split.
  - intros [Hc (prefix & Hp & Hs)]. split; [done|].
    apply startsWith_spec in Hs as [rest ->].
    exists prefix, rest. by rewrite list_elem_of_In.
  - intros [Hc (prefix & rest & Hp & ->)]. split; [done|].
    exists prefix. rewrite <- list_elem_of_In. split; [done|].
    apply startsWith_spec. by exists rest.
Qed.

(** ** Room lookup and utilization *)

(** Four identifiers against the network category. *)
Lemma filterContextsByCategory_exact_witness :
  ∃ result,
    filterContextsByCategory
      ["net.eth0"; "disk.sda"; "system.net"; "ipv4.tcp"] "network"
    = inr result ∧
    sublist result ["net.eth0"; "disk.sda"; "system.net"; "ipv4.tcp"].
Proof.
  destruct (filterContextsByCategory_exact
              ["net.eth0"; "disk.sda"; "system.net"; "ipv4.tcp"] "network"
              ["net."; "ip."; "ipv4."; "ipv6."; "system.net"; "netfilter.";
               "k8s.cgroup.net_"; "netdata.network"]
              ltac:(apply list_elem_of_here))
    as (result & Hrun & _ & Hsub).
  exists result. by split.
Defined.

Example filterContextsByCategory_network :
  filterContextsByCategory
    ["net.eth0"; "disk.sda"; "system.net"; "ipv4.tcp"] "network"
  = inr ["net.eth0"; "system.net"; "ipv4.tcp"].
Proof. reflexivity. Qed.

Section RoomLookup.
Context (penv : ProcessEnv) (net : Network) (rt : Runtime).

Lemma roomIdOf_unknown name :
  name ∉ Js.keys ROOM_IDS → name ∉ Js.Object_prototype →
  roomIdOf name = None.
Proof.
  intros Hkey Hproto. unfold roomIdOf, Js.get.
  rewrite own_not_key by done. by rewrite bool_decide_eq_false_2.
Qed.

(** Claim C6, as the code has it.  For a room name that is not empty, not a
    key of [ROOM_IDS] and not a member of [Object.prototype], both room
    tools return the "not found" text with all registered room names,
    and leave the trace as it was: no request is made. *)
Theorem room_lookup_not_found name (a : ToolArgs) t :
  room_name a = Some name →
  name ≠ "" → name ∉ Js.keys ROOM_IDS → name ∉ Js.Object_prototype →
  let reply :=
    "Room " +:+ Js.dquote +:+ name +:+ Js.dquote +:+
    " not found. Available rooms: " +:+ Js.join ", " (Js.keys ROOM_IDS) in
  getRoomContexts penv net rt (Some a) t = (Return (text_response reply), t) ∧
  getRoomNodes penv net rt (Some a) t = (Return (text_response reply), t) ∧
  Js.includes reply "not found" = true ∧
  Forall (fun room => Js.includes reply room = true) (Js.keys ROOM_IDS).
Proof.
  intros Hname Hne Hkey Hproto reply.
  assert (Js.truthy (Some name) = true) as Htruthy.
  { simpl. by destruct (String.eqb_spec name ""). }
  split; [|split; [|split]].
  - unfold getRoomContexts, try_catch. cbn [from_option id].
    rewrite Hname, Htruthy. cbn [negb from_option id].
    by rewrite roomIdOf_unknown.
  - unfold getRoomNodes, try_catch. cbn [from_option id].
    rewrite Hname, Htruthy. cbn [negb from_option id].
    by rewrite roomIdOf_unknown.
  - unfold reply. do 4 apply includes_app_r. by vm_compute.
  - unfold reply. apply Forall_forall. intros room Hroom.
    do 5 apply includes_app_r. revert room Hroom. apply Forall_forall.
    apply (bool_decide_unpack _). by vm_compute.
Qed.

End RoomLookup.

(** The specification's scenario: the room "nope". *)
Lemma room_lookup_not_found_witness :
  getRoomContexts noEnv (rejecting "Network Error") plainRuntime
    (onlyRoom (Some "nope")) []
  = (Return (text_response
       ("Room " +:+ Js.dquote +:+ "nope" +:+ Js.dquote +:+
        " not found. Available rooms: " +:+ Js.join ", " (Js.keys ROOM_IDS))),
     []).
Proof.
  apply (room_lookup_not_found noEnv (rejecting "Network Error") plainRuntime
           "nope" {| room_name := Some "nope"; category := None;
                     sample_size := None; query := None; page_name := None |}
           []); [reflexivity | done | | ].
  - apply (bool_decide_unpack _). by vm_compute.
  - apply (bool_decide_unpack _). by vm_compute.
Defined.

(** Against C6 as stated: the empty room name is not in the table and gets
    the "required" text, which has no "not found" in it; the name
    "constructor" is not in the table either, and a request goes out. *)
Lemma room_lookup_other_replies :
  (getRoomContexts noEnv (rejecting "Network Error") plainRuntime
     (onlyRoom (Some "")) []
   = (Return (text_response "Error: room_name parameter is required"), []) ∧
   Js.includes "Error: room_name parameter is required" "not found" = false) ∧
  (getRoomNodes tokenEnv (rejecting "Network Error") plainRuntime
     (onlyRoom (Some "constructor")) []
   = (Return (text_response
        "Error getting room nodes: NetData Cloud API error: Network Error"),
      [CloudGet ("https://app.netdata.cloud/api/v2/spaces/" +:+
                 "4e5af321-fd71-4cd7-8456-aa96d7029ab8/rooms/" +:+
                 "function Object() { [native code] }/nodes")])).
Proof. repeat split. Qed.

Section Utilization.
Context (rt : Runtime).

(** Claim C7, as the code has it.  When [allocated] and [allocatable] are
    non-empty strings that [Number] maps to NaN, the utilization entry is
    "NaN%". *)
Theorem utilization_of_non_numeric_text (node : AkashProvider.t) a b :
  AkashProvider.allocated node = Some (Str a) →
  AkashProvider.allocatable node = Some (Str b) →
  a ≠ "" → b ≠ "" →
  StringToNumber rt a = Js.NaN → StringToNumber rt b = Js.NaN →
  utilization rt node = "NaN%" ∧
  utilizationLine rt node = "   • Utilization: NaN%".
Proof.
  intros Ha Hb Hane Hbne HaN HbN.
  assert (utilization rt node = "NaN%") as Hu.
  { unfold utilization, truthyField, Number. rewrite Ha, Hb, HaN, HbN.
    destruct (String.eqb_spec a ""); [done|].
    destruct (String.eqb_spec b ""); [done|]. reflexivity. }
  split; [exact Hu|]. unfold utilizationLine. by rewrite Hu.
Qed.

End Utilization.


(** A record with the texts "unknown" and "n/a". *)
Lemma utilization_of_non_numeric_text_witness :
  utilization plainRuntime textualNode = "NaN%" ∧
  utilizationLine plainRuntime textualNode = "   • Utilization: NaN%".
Proof.
  apply (utilization_of_non_numeric_text plainRuntime textualNode
           "unknown" "n/a"); done.
Defined.

(** Against C7 as stated: both fields are present and not numeric, and the
    utilization entry is not "Unknown". *)
Lemma utilization_not_Unknown :
  AkashProvider.allocated textualNode = Some (Str "unknown") ∧
  AkashProvider.allocatable textualNode = Some (Str "n/a") ∧
  StringToNumber plainRuntime "unknown" = Js.NaN ∧
  StringToNumber plainRuntime "n/a" = Js.NaN ∧
  utilization plainRuntime textualNode ≠ "Unknown".
Proof. repeat split. by vm_compute. Qed.

(** ** Which agents the activity tools probe *)


Lemma agentGets_app t1 t2 :
  agentGets (t1 ++ t2) = agentGets t1 ++ agentGets t2.
Proof. apply omap_app. Qed.

Lemma agentGets_probes penv batch :
  agentGets (probes penv batch)
  = map (fun context => agentMetricUrl penv context (-300)) batch.
Proof. induction batch as [|c batch IH]; [done|]. simpl. by rewrite <- IH. Qed.

Lemma agentGets_schedule penv batches :
  agentGets (schedule penv batches)
  = map (fun context => agentMetricUrl penv context (-300)) (concat batches).
Proof.
  induction batches as [|batch rest IH]; [done|].
  cbn [schedule concat]. rewrite agentGets_app, agentGets_probes, map_app.
  f_equal. destruct rest; [done|]. exact IH.
Qed.

Section TraceFacts.
Context (penv : ProcessEnv) (net : Network) (rt : Runtime).

Lemma makeCloudRequest_quiet {A} (oracle : trace → string → reply A)
    endpoint t :
  ∃ out t', makeCloudRequest penv oracle endpoint t = (out, t') ∧
            out ≠ OutOfFuel ∧ agentGets t' = agentGets t.
Proof.
  unfold makeCloudRequest.
  destruct (negb (Js.truthy (apiToken (config penv)))).
  - by eexists _, _.
  - unfold try_catch, axios_get. destruct (oracle t _);
      eexists _, _; (split; [reflexivity|]); split; try done;
      rewrite agentGets_app; simpl; by rewrite app_nil_r.
Qed.

Lemma getRoomContexts_quiet args t :
  ∃ response t', getRoomContexts penv net rt args t = (Return response, t') ∧
                 agentGets t' = agentGets t.
Proof.
  unfold getRoomContexts, try_catch.
  destruct (negb (Js.truthy (room_name (default noArgs args))));
    [by eexists _, _|].
  destruct (roomIdOf _) as [roomId|]; [|by eexists _, _].
  unfold bind.
  match goal with
  | |- context [ makeCloudRequest penv ?o ?e t ] =>
      destruct (makeCloudRequest_quiet o e t) as (out & t' & -> & Hout & Hq)
  end.
  destruct out; [| |done]; by eexists _, _.
Qed.

Lemma roomContextsViaText_quiet room t :
  ∃ out t', roomContextsViaText penv net rt room t = (out, t') ∧
            out ≠ OutOfFuel ∧ agentGets t' = agentGets t.
Proof.
  unfold roomContextsViaText. unfold bind at 1.
  destruct (getRoomContexts_quiet (onlyRoom room) t)
    as (response & t' & -> & Hq).
  unfold bind, lift.
  destruct (firstText response) as [e|contextsText]; [by eexists _, _|].
  unfold ret. destruct (parseContexts rt contextsText); by eexists _, _.
Qed.

Lemma testMetricsInBatches_default contexts t :
  ∃ results,
    testMetricsInBatches penv net (S (length contexts)) contexts 5 t
    = (Return results, t ++ schedule penv (chunks 5 contexts)) ∧
    Summary.tested (MetricTestResults.summary results) = length contexts ∧
    Summary.activeCount (MetricTestResults.summary results) ≤ length contexts.
Proof.
  unfold testMetricsInBatches.
  destruct (batchLoop_run penv net contexts 5 eq_refl (S (length contexts))
              0 (emptyResults contexts) t) as (rs & Hrun & Hrs); [lia|].
  rewrite drop_0 in Hrun, Hrs. eexists. split; [exact Hrun|].
  destruct (categorize_all rs (emptyResults contexts))
    as (_ & _ & _ & _ & -> & -> & _).
  simpl. rewrite (Forall2_length _ _ _ Hrs). split; [done|].
  clear. induction rs as [|r rs IH]; simpl; [lia|].
  destruct (foundActive r); simpl; lia.
Qed.

Lemma testMetricsInBatches_total contexts results t t' :
  testMetricsInBatches penv net (S (length contexts)) contexts 5 t
  = (Return results, t') →
  Summary.total (MetricTestResults.summary results) = length contexts.
Proof.
  unfold testMetricsInBatches.
  destruct (batchLoop_run penv net contexts 5 eq_refl (S (length contexts))
              0 (emptyResults contexts) t) as (rs & Hrun & Hrs); [lia|].
  change (Z.of_nat 0) with 0%Z in Hrun. rewrite Hrun. intros [= <- _].
  by destruct (categorize_all rs (emptyResults contexts))
    as (_ & _ & _ & -> & _).
Qed.

Lemma agentGets_batches contexts t :
  agentGets (t ++ schedule penv (chunks 5 contexts))
  = agentGets t
    ++ map (fun context => agentMetricUrl penv context (-300)) contexts.
Proof.
  rewrite agentGets_app, agentGets_schedule, chunks_concat by lia. done.
Qed.

End TraceFacts.

Lemma filterContextsByCategory_registered allContexts name prefixes :
  (name, prefixes) ∈ METRIC_CATEGORIES →
  filterContextsByCategory allContexts name
  = inr (List.filter (matchesSome prefixes) allContexts).
Proof.
  intros Hin. unfold filterContextsByCategory, Js.get.
  by rewrite (own_in _ _ _ METRIC_CATEGORIES_keys Hin).
Qed.

Section ActivityFacts.
Context (penv : ProcessEnv) (net : Network) (rt : Runtime).

Local Abbreviation url := (fun context => agentMetricUrl penv context (-300)).

Lemma testCategoryMetricsActivity_probes args t :
  ∃ response t' probed,
    testCategoryMetricsActivity penv net rt args t = (Return response, t') ∧
    agentGets t' = agentGets t ++ map url probed.
Proof.
  unfold testCategoryMetricsActivity.
  destruct (_ || _).
  { exists (text_response "Error: room_name and category are required"), t, [].
    by rewrite app_nil_r. }
  unfold try_catch. unfold bind at 1.
  destruct (roomContextsViaText_quiet penv net rt
              (room_name (default noArgs args)) t)
    as (out & t1 & -> & Hout & Hq).
  destruct out as [allContexts|e|]; [| |done].
  - unfold bind, lift.
    destruct (filterContextsByCategory allContexts _)
      as [e|categoryContexts].
    { unfold throw, ret. eexists _, t1, []. by rewrite app_nil_r. }
    unfold ret at 1.
    destruct (length categoryContexts =? 0).
    { unfold ret. eexists _, t1, []. by rewrite app_nil_r. }
    destruct (testMetricsInBatches_default penv net categoryContexts t1)
      as (results & -> & _).
    eexists _, _, categoryContexts. split; [reflexivity|].
    by rewrite agentGets_batches, Hq.
  - unfold ret. eexists _, t1, []. by rewrite app_nil_r.
Qed.

Lemma sampleCategory_run allContexts sample_size acc name prefixes t :
  (name, prefixes) ∈ METRIC_CATEGORIES →
  let categoryContexts := List.filter (matchesSome prefixes) allContexts in
  let sample := sampleOf allContexts sample_size (name, prefixes) in
  ∃ acc' t',
    sampleCategory penv net rt allContexts sample_size acc (name, prefixes) t
    = (Return acc', t') ∧
    agentGets t' = agentGets t ++ map url sample ∧
    ((categoryContexts = [] ∧ acc' = acc) ∨
     (categoryContexts ≠ [] ∧
      ∃ activeCount,
        activeCount ≤ length sample ∧
        acc' = {|
          Sampling.categoryResults :=
            Sampling.categoryResults acc ++
            [(name, {| CategoryStats.totalAvailable := length categoryContexts;
                       CategoryStats.tested := length sample;
                       CategoryStats.active := activeCount;
                       CategoryStats.activeRate :=
                         percentage rt activeCount (length sample);
                       CategoryStats.error := None |})];
          Sampling.totalActive := Sampling.totalActive acc + activeCount;
          Sampling.totalTested := Sampling.totalTested acc + length sample
        |})).
Proof.
  intros Hin categoryContexts sample. unfold sampleCategory, try_catch.
  cbn [fst]. rewrite (filterContextsByCategory_registered _ _ _ Hin).
  unfold bind at 1, lift, ret at 1. fold categoryContexts.
  unfold sample, sampleOf. cbn [snd]. fold categoryContexts.
  destruct categoryContexts as [|c cs] eqn:Hcc.
  { cbn. eexists _, _. split; [reflexivity|]. rewrite app_nil_r.
    split; [done|]. by left. }
  cbn [length Nat.ltb Nat.leb].
  set (picked := Js.slice (c :: cs) 0 sample_size).
  destruct (testMetricsInBatches_default penv net picked t)
    as (results & Hrun & Htested & Hactive).
  unfold bind at 1. rewrite Hrun. unfold bind, sleep, ret.
  eexists _, _. split; [reflexivity|]. split.
  - rewrite agentGets_app, agentGets_batches. simpl. by rewrite app_nil_r.
  - right. split; [done|].
    exists (Summary.activeCount (MetricTestResults.summary results)).
    split; [done|]. by rewrite Htested.
Qed.

Lemma sampleCategories_probes allContexts sample_size : ∀ cats acc t,
  Forall (fun entry => entry ∈ METRIC_CATEGORIES) cats →
  ∃ acc' t',
    foldM (sampleCategory penv net rt allContexts sample_size) cats acc t
    = (Return acc', t') ∧
    agentGets t'
    = agentGets t
      ++ map url (concat (map (sampleOf allContexts sample_size) cats)).
Proof.
  induction cats as [|[name prefixes] cats IH]; intros acc t Hcats.
  - eexists _, _. split; [reflexivity|]. by rewrite app_nil_r.
  - apply Forall_cons in Hcats as [Hin Hcats]. cbn [foldM].
    destruct (sampleCategory_run allContexts sample_size acc name prefixes t
                Hin) as (acc1 & t1 & Hrun & Hq & _).
    destruct (IH acc1 t1 Hcats) as (acc' & t' & Hrest & Hq').
    exists acc', t'. unfold bind. rewrite Hrun. split; [exact Hrest|].
    rewrite Hq', Hq. cbn [map concat]. by rewrite map_app, app_assoc.
Qed.

Lemma sampleCategories_zero allContexts : ∀ cats acc t,
  Forall (fun entry => entry ∈ METRIC_CATEGORIES) cats →
  ∃ t',
    foldM (sampleCategory penv net rt allContexts 0) cats acc t
    = (Return {|
         Sampling.categoryResults :=
           Sampling.categoryResults acc
           ++ omap (zeroSampleStats allContexts) cats;
         Sampling.totalActive := Sampling.totalActive acc;
         Sampling.totalTested := Sampling.totalTested acc |}, t') ∧
    agentGets t' = agentGets t.
Proof.
  induction cats as [|[name prefixes] cats IH]; intros acc t Hcats.
  - exists t. cbn. rewrite app_nil_r. by destruct acc.
  - apply Forall_cons in Hcats as [Hin Hcats]. cbn [foldM].
    destruct (sampleCategory_run allContexts 0 acc name prefixes t Hin)
      as (acc1 & t1 & Hrun & Hq & Hacc).
    destruct (IH acc1 t1 Hcats) as (t' & Hrest & Hq').
    exists t'. unfold bind. rewrite Hrun, Hrest.
    assert (sampleOf allContexts 0 (name, prefixes) = []) as Hnone.
    { unfold sampleOf. destruct (0 <? _); [|done].
      unfold Js.slice. cbv zeta. by rewrite Z.sub_diag. }
    rewrite Hnone in Hq, Hacc. simpl in Hq. rewrite app_nil_r in Hq.
    split; [|congruence].
    f_equal. cbn [omap list_omap]. unfold zeroSampleStats at 2. cbn [fst snd].
    destruct Hacc as [[Hnil ->]|[Hne (n & Hn & ->)]].
    + rewrite Hnil. reflexivity.
    + destruct (List.filter (matchesSome prefixes) allContexts) as [|c cs];
        [done|].
      cbn [length] in *. assert (n = 0) as -> by lia.
      cbn. rewrite <- app_assoc, !Nat.add_0_r. reflexivity.
Qed.

End ActivityFacts.

Section ActivityTheorems.
Context (penv : ProcessEnv) (net : Network) (rt : Runtime).

Lemma getActiveMetricsSummary_probes args t :
  ∃ response t' probed,
    getActiveMetricsSummary penv net rt args t = (Return response, t') ∧
    agentGets t'
    = agentGets t
      ++ map (fun context => agentMetricUrl penv context (-300)) probed.
Proof.
  unfold getActiveMetricsSummary.
  destruct (negb _).
  { exists (text_response "Error: room_name is required"), t, [].
    by rewrite app_nil_r. }
  unfold try_catch, activeMetricsSampling, bind.
  destruct (roomContextsViaText_quiet penv net rt
              (room_name (default noArgs args)) t)
    as (out & t1 & -> & Hout & Hq).
  destruct out as [allContexts|e|]; [| |done].
  - unfold sampleCategories.
    destruct (sampleCategories_probes penv net rt allContexts
                (default 10%Z (sample_size (default noArgs args)))
                METRIC_CATEGORIES
                {| Sampling.categoryResults := [];
                   Sampling.totalActive := 0;
                   Sampling.totalTested := 0 |} t1)
      as (sampled & t' & -> & Hq').
    { by apply Forall_forall. }
    unfold ret. eexists _, t', _. split; [reflexivity|].
    rewrite Hq', Hq. reflexivity.
  - unfold ret. eexists _, t1, []. by rewrite app_nil_r.
Qed.

(** Claim C9.  The URL of a probe is built from the context, [afterSeconds]
    and the fixed sandbox host; [queryAgentMetric] makes exactly that
    request.  Every agent request of [testCategoryMetricsActivity] and of
    [getActiveMetricsSummary] is such a probe of some context, whatever the
    room: the room only decides which contexts are probed. *)
Theorem agent_probes_target_sandbox_host :
  (∀ context afterSeconds t,
     agentMetricUrl penv context afterSeconds
     = "http://216.153.63.25:19999/api/v1/data?context=" +:+ context +:+
       "&after=" +:+ pretty afterSeconds +:+ "&before=0" ∧
     ∃ result,
       queryAgentMetric penv net context afterSeconds t
       = (Return result,
          t ++ [AgentGet (agentMetricUrl penv context afterSeconds)])) ∧
  (∀ args t, ∃ response t' probed,
     testCategoryMetricsActivity penv net rt args t = (Return response, t') ∧
     agentGets t'
     = agentGets t
       ++ map (fun context => agentMetricUrl penv context (-300)) probed) ∧
  (∀ args t, ∃ response t' probed,
     getActiveMetricsSummary penv net rt args t = (Return response, t') ∧
     agentGets t'
     = agentGets t
       ++ map (fun context => agentMetricUrl penv context (-300)) probed).
Proof.
  split; [|split].
  - intros context afterSeconds t. split; [reflexivity|].
    destruct (queryAgentMetric_run penv net context afterSeconds t)
      as (r & Hr & _). by exists r.
  - apply testCategoryMetricsActivity_probes.
  - apply getActiveMetricsSummary_probes.
Qed.

(** Claim C10.  With [sample_size = 0], once the contexts of the room are
    read, the category loop of [getActiveMetricsSummary] records for every
    category with at least one matching context an entry with [tested = 0]
    and [activeRate = "NaN"] (and no error), and probes no agent; the text
    that is returned holds, for each such category, the line
    "0/0 active (NaN%)" with the number of its contexts, and reports
    0 tested and an overall rate of 0.0%. *)
Theorem zero_sample_size_reports_NaN (a : ToolArgs) name allContexts t t1 :
  room_name a = Some name → name ≠ "" → sample_size a = Some 0%Z →
  roomContextsViaText penv net rt (Some name) t = (Return allContexts, t1) →
  ∃ sampled t',
    let said :=
      summaryReport penv rt name (now rt t') 0 allContexts sampled in
    activeMetricsSampling penv net rt (Some name) 0 t
    = (Return (allContexts, sampled), t') ∧
    getActiveMetricsSummary penv net rt (Some a) t
    = (Return (text_response said), t') ∧
    Sampling.categoryResults sampled
    = omap (zeroSampleStats allContexts) METRIC_CATEGORIES ∧
    (∀ category prefixes context,
       (category, prefixes) ∈ METRIC_CATEGORIES →
       context ∈ allContexts → matchesSome prefixes context = true →
       ∃ stats, (category, stats) ∈ Sampling.categoryResults sampled) ∧
    Forall (fun entry =>
              CategoryStats.tested entry.2 = 0 ∧
              CategoryStats.activeRate entry.2 = "NaN" ∧
              CategoryStats.error entry.2 = None ∧
              breakdownLine entry
              = Js.padEnd entry.1 15 +:+ ": 0/0 active (NaN%) of " +:+
                pretty (CategoryStats.totalAvailable entry.2) +:+
                " available" ∧
              Js.includes said
                (Js.padEnd entry.1 15 +:+ ": 0/0 active (NaN%) of " +:+
                 pretty (CategoryStats.totalAvailable entry.2) +:+
                 " available") = true)
           (Sampling.categoryResults sampled) ∧
    Js.includes said "- Total tested: 0" = true ∧
    Js.includes said "- Overall activity rate: 0.0%" = true ∧
    agentGets t' = agentGets t.
Proof.
  intros Hroom Hne Hsize Hcontexts.
  destruct (sampleCategories_zero penv net rt allContexts METRIC_CATEGORIES
              {| Sampling.categoryResults := [];
                 Sampling.totalActive := 0;
                 Sampling.totalTested := 0 |} t1) as (t' & Hrun & Hq).
  { by apply Forall_forall. }
  cbn [Sampling.categoryResults Sampling.totalActive Sampling.totalTested app]
    in Hrun.
  assert (activeMetricsSampling penv net rt (Some name) 0 t
          = (Return (allContexts,
                     {| Sampling.categoryResults :=
                          omap (zeroSampleStats allContexts)
                               METRIC_CATEGORIES;
                        Sampling.totalActive := 0;
                        Sampling.totalTested := 0 |}), t')) as Hsampling.
  { unfold activeMetricsSampling, bind. rewrite Hcontexts.
    unfold sampleCategories. rewrite Hrun. reflexivity. }
  assert (Forall (fun entry =>
              CategoryStats.tested entry.2 = 0 ∧
              CategoryStats.activeRate entry.2 = "NaN" ∧
              CategoryStats.error entry.2 = None ∧
              breakdownLine entry
              = Js.padEnd entry.1 15 +:+ ": 0/0 active (NaN%) of " +:+
                pretty (CategoryStats.totalAvailable entry.2) +:+
                " available")
            (omap (zeroSampleStats allContexts) METRIC_CATEGORIES))
    as Hentries.
  { apply Forall_forall.
    intros [category stats] Hin. apply list_elem_of_omap in Hin
      as ([category' prefixes] & _ & Hstats).
    unfold zeroSampleStats in Hstats. destruct (0 <? _); [|done].
    injection Hstats as <- <-. by repeat split. }
  eexists _, t'. cbv zeta.
  split; [exact Hsampling|].
  split; [|split; [|split; [|split; [|split; [|split]]]]].
  - unfold getActiveMetricsSummary. cbn [from_option id].
    rewrite Hroom, Hsize. cbn [from_option id].
    replace (Js.truthy (Some name)) with true
      by (simpl; by destruct (String.eqb_spec name "")).
    cbn [negb]. unfold try_catch, bind. rewrite Hsampling. reflexivity.
  - reflexivity.
  - intros category prefixes context Hin Hcontext Hmatch.
    cbn [Sampling.categoryResults].
    assert (context ∈ List.filter (matchesSome prefixes) allContexts) as Hc
      by by apply elem_of_filter_bool.
    assert (is_Some (zeroSampleStats allContexts (category, prefixes)))
      as [[category' stats] Hstats].
    { unfold zeroSampleStats. cbn [snd].
      destruct (List.filter (matchesSome prefixes) allContexts);
        [by apply elem_of_nil in Hc | by eexists]. }
    assert (category' = category) as ->.
    { unfold zeroSampleStats in Hstats. destruct (0 <? _); [|done].
      by injection Hstats as <- _. }
    exists stats. apply list_elem_of_omap. by exists (category, prefixes).
  - cbn [Sampling.categoryResults]. apply Forall_forall. intros entry Hin.
    destruct (proj1 (Forall_forall _ _) Hentries entry Hin)
      as (Htested & Hrate & Herror & Hline).
    do 4 (split; [done|]). rewrite <- Hline.
    apply (includes_trans _
             (Js.join nl
                (map breakdownLine
                   (omap (zeroSampleStats allContexts) METRIC_CATEGORIES)))).
    + unfold summaryReport. cbn [Sampling.categoryResults].
      apply includes_join. repeat (first [by left | right]).
    + apply includes_join, list_elem_of_fmap. by exists entry.
  - unfold summaryReport.
    apply (includes_trans _ ("- Total tested: " +:+ pretty 0));
      [|reflexivity].
    apply includes_join. cbn [Sampling.totalTested].
    repeat (first [by left | right]).
  - unfold summaryReport.
    apply (includes_trans _ ("- Overall activity rate: " +:+ "0.0" +:+ "%"));
      [|reflexivity].
    apply includes_join.
    cbn [Sampling.totalTested Nat.ltb Nat.leb].
    repeat (first [by left | right]).
  - rewrite Hq.
    destruct (roomContextsViaText_quiet penv net rt (Some name) t)
      as (out & t1' & Heq & _ & Hq1).
    rewrite Hcontexts in Heq. by injection Heq as <- <-.
Qed.

End ActivityTheorems.

(** ** Tool routing *)


(** A room with two network contexts and one disk context. *)
Lemma zero_sample_size_reports_NaN_witness :
  ∃ said t',
    getActiveMetricsSummary tokenEnv
      (answering [] [] ["net.eth0"; "disk.sda"; "net.lo"]) plainRuntime
      (Some zeroSampleArgs) []
    = (Return (text_response said), t') ∧
    Js.includes said "network        : 0/0 active (NaN%) of 2 available"
    = true ∧
    Js.includes said "disk           : 0/0 active (NaN%) of 1 available"
    = true ∧
    Js.includes said "- Overall activity rate: 0.0%" = true.
Proof.
  destruct (zero_sample_size_reports_NaN tokenEnv
              (answering [] [] ["net.eth0"; "disk.sda"; "net.lo"])
              plainRuntime zeroSampleArgs "all-nodes"
              ["net.eth0"; "disk.sda"; "net.lo"] []
              [CloudGet "https://app.netdata.cloud/api/v2/spaces/4e5af321-fd71-4cd7-8456-aa96d7029ab8/rooms/93e19508-b494-4999-957f-802b48a2ba0d/contexts"]
              ltac:(reflexivity) ltac:(done) ltac:(reflexivity)
              ltac:(vm_compute; reflexivity))
    as (sampled & t' & _ & Hrun & Hresults & _ & Hlines & _ & Hrate & _).
  eexists _, t'. split; [exact Hrun|].
  rewrite Hresults in Hlines.
  apply Forall_cons in Hlines as [(_ & _ & _ & _ & Hnetwork) Hlines].
  apply Forall_cons in Hlines as [(_ & _ & _ & _ & Hdisk) _].
  split; [exact Hnetwork|]. split; [exact Hdisk | exact Hrate].
Defined.

Section RoutingFacts.
Context (penv : ProcessEnv) (net : Network) (rt : Runtime) (blocks : Blocks).

Lemma includesName_elem names name :
  includesName names name = true ↔ name ∈ names.
Proof.
  unfold includesName. rewrite existsb_exists. split.
  - intros (x & Hx & Heq). apply String.eqb_eq in Heq as ->.
    by apply list_elem_of_In.
  - intros Hin. exists name. split; [by apply list_elem_of_In|].
    apply String.eqb_refl.
Qed.

(** The unknown-tool fault is raised for the unregistered names. *)
Lemma unregistered_is_unknown_tool name args t :
  name ∉ registeredToolNames →
  callTool penv net rt blocks name args t
  = (Throw (McpError MethodNotFound ("Unknown tool: " +:+ name)), t).
Proof.
  intros Hname. unfold registeredToolNames in Hname.
  rewrite !not_elem_of_app in Hname. destruct Hname as (Hn & Ha & Hg).
  unfold callTool, try_catch, handleToolCall.
  rewrite <- includesName_elem in Hn, Ha, Hg.
  apply not_true_is_false in Hn, Ha, Hg. by rewrite Hn, Ha, Hg.
Qed.

(** Claim C4, where the code departs from it.  [search_wiki] is a registered
    tool, yet a call without arguments raises a protocol-level fault: the
    handler destructures [args] before its [try] block, and the server turns
    the TypeError into an InternalError. *)
Theorem search_wiki_without_arguments_faults t :
  callTool penv net rt blocks "search_wiki" None t
  = (Throw (McpError InternalError
       ("Error executing tool search_wiki: " +:+
        "Cannot destructure property 'query' of 'args' as it is undefined.")),
     t).
Proof. reflexivity. Qed.

Lemma get_wiki_page_without_arguments_faults t :
  callTool penv net rt blocks "get_wiki_page" None t
  = (Throw (McpError InternalError
       ("Error executing tool get_wiki_page: " +:+
        "Cannot destructure property 'page_name' of 'args' as it is undefined.")),
     t).
Proof. reflexivity. Qed.

(** The sibling path: the NetData room tools guard the same destructuring. *)
Lemma get_room_contexts_without_arguments t :
  callTool penv net rt blocks "get_room_contexts" None t
  = (Return (text_response "Error: room_name parameter is required"), t).
Proof. reflexivity. Qed.

End RoutingFacts.


Lemma ret_neverThrows {A} (a : A) : neverThrows (ret a).
Proof. by intros t e. Qed.

Lemma try_catch_neverThrows {A} (body : M A) (handler : exn → M A) :
  (∀ e, neverThrows (handler e)) → neverThrows (try_catch body handler).
Proof.
  intros Hh t e. unfold try_catch.
  destruct (body t) as [[a|e'|] t']; [done | apply Hh | done].
Qed.

Ltac caught :=
  apply try_catch_neverThrows; intros ?; apply ret_neverThrows.

Section HandlerFacts.
Context (penv : ProcessEnv) (net : Network) (rt : Runtime) (blocks : Blocks).

Lemma guarded_neverThrows block onError :
  neverThrows (guarded block onError).
Proof. unfold guarded. caught. Qed.

Lemma getRoomContexts_neverThrows args :
  neverThrows (getRoomContexts penv net rt args).
Proof. unfold getRoomContexts. caught. Qed.

Lemma getRoomNodes_neverThrows args :
  neverThrows (getRoomNodes penv net rt args).
Proof. unfold getRoomNodes. caught. Qed.

Lemma testCategoryMetricsActivity_neverThrows args :
  neverThrows (testCategoryMetricsActivity penv net rt args).
Proof.
  unfold testCategoryMetricsActivity.
  destruct (_ || _); [apply ret_neverThrows | caught].
Qed.

Lemma testNetworkMetricsActivity_neverThrows args :
  neverThrows (testNetworkMetricsActivity penv net rt args).
Proof.
  unfold testNetworkMetricsActivity.
  destruct (negb _);
    [apply ret_neverThrows | apply testCategoryMetricsActivity_neverThrows].
Qed.

Lemma getActiveMetricsSummary_neverThrows args :
  neverThrows (getActiveMetricsSummary penv net rt args).
Proof.
  unfold getActiveMetricsSummary.
  destruct (negb _); [apply ret_neverThrows | caught].
Qed.

Lemma netdataHandleToolCall_neverThrows name args :
  includesName netdataToolNames name = true →
  neverThrows (netdataHandleToolCall penv net rt blocks name args).
Proof.
  unfold includesName, netdataToolNames, netdataHandleToolCall.
  cbn [existsb].
  repeat match goal with
         | |- context [ String.eqb name ?s ] =>
             destruct (String.eqb name s)
         end;
    intros H; try discriminate H;
    first [ apply guarded_neverThrows
          | apply getRoomContexts_neverThrows
          | apply getRoomNodes_neverThrows
          | apply testCategoryMetricsActivity_neverThrows
          | apply testNetworkMetricsActivity_neverThrows
          | apply getActiveMetricsSummary_neverThrows
          | apply ret_neverThrows ].
Qed.

Lemma akashHandleToolCall_neverThrows name args :
  includesName akashToolNames name = true →
  neverThrows (akashHandleToolCall net rt blocks name args).
Proof.
  unfold includesName, akashToolNames, akashHandleToolCall.
  cbn [existsb].
  repeat match goal with
         | |- context [ String.eqb name ?s ] =>
             destruct (String.eqb name s)
         end;
    intros H; try discriminate H;
    first [ apply guarded_neverThrows
          | unfold getAkashCpuIssues; caught
          | unfold getAkashMemoryIssues; caught ].
Qed.

Lemma githubHandleToolCall_neverThrows name a :
  includesName githubToolNames name = true →
  neverThrows (githubHandleToolCall blocks name (Some a)).
Proof.
  unfold includesName, githubToolNames, githubHandleToolCall.
  cbn [existsb].
  repeat match goal with
         | |- context [ String.eqb name ?s ] =>
             destruct (String.eqb name s)
         end;
    intros H; try discriminate H;
    first [ apply guarded_neverThrows
          | unfold searchWiki; destruct (negb _);
            [apply ret_neverThrows | apply guarded_neverThrows]
          | unfold getWikiPage; destruct (negb _);
            [apply ret_neverThrows | apply guarded_neverThrows] ].
Qed.

(** With arguments present, no registered tool raises a fault; the NetData
    and Akash tools do not even need the arguments. *)
Lemma registered_with_arguments_never_faults name a :
  name ∈ registeredToolNames →
  neverThrows (callTool penv net rt blocks name (Some a)).
Proof.
  intros Hname t e. unfold callTool, try_catch.
  assert (∀ e', (handleToolCall penv net rt blocks name (Some a) t).1
                ≠ Throw e') as Hcall.
  { unfold handleToolCall.
    destruct (includesName netdataToolNames name) eqn:Hn;
      [by apply netdataHandleToolCall_neverThrows|].
    destruct (includesName akashToolNames name) eqn:Ha;
      [by apply akashHandleToolCall_neverThrows|].
    destruct (includesName githubToolNames name) eqn:Hg;
      [by apply githubHandleToolCall_neverThrows|].
    exfalso. unfold registeredToolNames in Hname.
    rewrite !elem_of_app, <- !includesName_elem in Hname.
    destruct Hname as [?|[?|?]]; congruence. }
  destruct (handleToolCall penv net rt blocks name (Some a) t)
    as [[r|e'|] t']; [done | by destruct (Hcall e') | done].
Qed.

Lemma registered_never_unknown_tool name args t msg :
  name ∈ registeredToolNames →
  (callTool penv net rt blocks name args t).1
  ≠ Throw (McpError MethodNotFound msg).
Proof.
  intros Hname. destruct args as [a|].
  { apply registered_with_arguments_never_faults. exact Hname. }
  unfold callTool, try_catch, handleToolCall.
  destruct (includesName netdataToolNames name) eqn:Hn.
  { pose proof (netdataHandleToolCall_neverThrows name None Hn t) as H.
    destruct (netdataHandleToolCall penv net rt blocks name None t)
      as [[r|e'|] t']; [done | by destruct (H e') | done]. }
  destruct (includesName akashToolNames name) eqn:Ha.
  { pose proof (akashHandleToolCall_neverThrows name None Ha t) as H.
    destruct (akashHandleToolCall net rt blocks name None t)
      as [[r|e'|] t']; [done | by destruct (H e') | done]. }
  destruct (includesName githubToolNames name) eqn:Hg.
  - unfold githubHandleToolCall, searchWiki, getWikiPage, listRpcNodes,
      getWikiPagesList.
    repeat match goal with
           | |- context [ String.eqb name ?s ] =>
               destruct (String.eqb name s)
           end; try (simpl; discriminate);
      match goal with
      | |- context [ guarded ?b ?h t ] =>
          pose proof (guarded_neverThrows b h t) as H;
          destruct (guarded b h t) as [[r|e'|] t'];
          [done | by destruct (H e') | done]
      end.
  - exfalso. unfold registeredToolNames in Hname.
    rewrite !elem_of_app, <- !includesName_elem in Hname.
    destruct Hname as [?|[?|?]]; congruence.
Qed.

End HandlerFacts.

Example search_wiki_with_query :
  callTool noEnv (rejecting "Network Error") plainRuntime plainBlocks
    "search_wiki"
    (Some {| room_name := None; category := None; sample_size := None;
             query := Some "rpc"; page_name := None |}) []
  = (Return (text_response "ok"), []).
Proof. reflexivity. Qed.

Example unknown_tool_call :
  callTool noEnv (rejecting "Network Error") plainRuntime plainBlocks
    "no_such_tool" None []
  = (Throw (McpError MethodNotFound "Unknown tool: no_such_tool"), []).
Proof. reflexivity. Qed.

(* ===================================================================== *)
(** * Further properties *)
(* ===================================================================== *)

(** ** The prober *)

Lemma settled_contexts contexts rs :
  Forall2 settled contexts rs → map MetricResult.context rs = contexts.
Proof.
  induction 1 as [|c r cs rs [Hc _] _ IH]; [done|]. simpl. by rewrite Hc, IH.
Qed.

Lemma map_filter_sublist {A B} (f : A → B) (p : A → bool) (xs : list A) :
  sublist (map f (List.filter p xs)) (map f xs).
Proof.
  induction xs as [|x xs IH]; simpl; [constructor|].
  destruct (p x); simpl; by constructor.
Qed.

(** With a positive batch size the prober returns; [summary.total] is the
    number of identifiers it was given, and each of the lists [active],
    [inactive] and [errors] holds its results in the order of the input. *)
Theorem testMetricsInBatches_keeps_order penv net contexts batchSize fuel t :
  (0 < batchSize)%Z → length contexts < fuel →
  ∃ results t',
    testMetricsInBatches penv net fuel contexts batchSize t
    = (Return results, t') ∧
    Summary.total (MetricTestResults.summary results) = length contexts ∧
    sublist (map MetricResult.context (MetricTestResults.active results))
            contexts ∧
    sublist (map MetricResult.context (MetricTestResults.inactive results))
            contexts ∧
    sublist (map MetricResult.context (MetricTestResults.errors results))
            contexts.
Proof.
  intros Hbs Hfuel. unfold testMetricsInBatches.
  destruct (batchLoop_run penv net contexts batchSize Hbs fuel 0
              (emptyResults contexts) t) as (rs & Hrun & Hrs); [lia|].
  rewrite drop_0 in Hrun, Hrs. eexists _, _. split; [exact Hrun|].
  destruct (categorize_all rs (emptyResults contexts))
    as (-> & -> & -> & -> & _).
  simpl. rewrite <- (settled_contexts _ _ Hrs).
  repeat split; apply map_filter_sublist.
Qed.

Lemma pauses_app t1 t2 : pauses (t1 ++ t2) = pauses t1 + pauses t2.
Proof. unfold pauses. by rewrite List.filter_app, length_app. Qed.

Lemma pauses_probes penv batch : pauses (probes penv batch) = 0.
Proof. induction batch; [done|]. exact IHbatch. Qed.

Lemma pauses_schedule penv batches :
  pauses (schedule penv batches) = length batches - 1.
Proof.
  induction batches as [|batch rest IH]; [done|].
  cbn [schedule]. rewrite pauses_app, pauses_probes.
  destruct rest as [|batch' rest]; [done|].
  change (pauses (Sleep (rateLimitDelay (config penv))
                  :: schedule penv (batch' :: rest)))
    with (S (pauses (schedule penv (batch' :: rest)))).
  rewrite IH. simpl. lia.
Qed.

Lemma chunks_length {A} (n : nat) (xs : list A) :
  0 < n → length (chunks n xs) - 1 = (length xs - 1) / n ∧
          (xs ≠ [] → 0 < length (chunks n xs)).
Proof.
  intros Hn. remember (length xs) as m eqn:Hm. revert xs Hm.
  induction m as [m IH] using lt_wf_ind. intros xs ->.
  destruct xs as [|x xs]; [split; [by rewrite Nat.Div0.div_0_l|done]|].
  rewrite chunks_cons by done. split; [|simpl; lia].
  cbn [length]. destruct (decide (length (x :: xs) ≤ n)) as [Hle|Hgt].
  - rewrite drop_ge by done. rewrite chunks_nil. simpl in Hle.
    rewrite Nat.div_small by lia. simpl. lia.
  - destruct (IH (length (drop n (x :: xs)))
                ltac:(rewrite length_drop; simpl; lia)
                (drop n (x :: xs)) eq_refl) as [Hlen Hpos].
    assert (drop n (x :: xs) ≠ []) as Hne.
    { intros E. apply (f_equal length) in E. rewrite length_drop in E.
      simpl in *. lia. }
    specialize (Hpos Hne). rewrite length_drop in Hlen. simpl in Hlen, Hgt.
    replace (S (length xs) - 1) with ((S (length xs) - n - 1) + 1 * n) by lia.
    rewrite Nat.div_add by lia. lia.
Qed.

Lemma chunks_bounded {A} (n : nat) (xs : list A) :
  0 < n → Forall (fun batch => 0 < length batch ≤ n) (chunks n xs).
Proof.
  intros Hn. remember (length xs) as m eqn:Hm. revert xs Hm.
  induction m as [m IH] using lt_wf_ind. intros xs ->.
  destruct xs as [|x xs]; [constructor|].
  rewrite chunks_cons by done. constructor.
  - rewrite length_take. simpl. lia.
  - apply (IH (length (drop n (x :: xs)))); [|done].
    rewrite length_drop. simpl. lia.
Qed.

(** With a positive batch size a run asks the agent once for every
    identifier, in the order of the input, and pauses
    [(length contexts - 1) / batchSize] times (never after the last batch);
    no batch is empty and none is longer than [batchSize]. *)
Theorem testMetricsInBatches_pacing penv net contexts batchSize fuel t :
  (0 < batchSize)%Z → length contexts < fuel →
  ∃ results made,
    testMetricsInBatches penv net fuel contexts batchSize t
    = (Return results, t ++ made) ∧
    agentGets made
    = map (fun context => agentMetricUrl penv context (-300)) contexts ∧
    pauses made = (length contexts - 1) / Z.to_nat batchSize ∧
    made = schedule penv (chunks (Z.to_nat batchSize) contexts) ∧
    Forall (fun batch => 0 < length batch ≤ Z.to_nat batchSize)
           (chunks (Z.to_nat batchSize) contexts).
Proof.
  intros Hbs Hfuel. unfold testMetricsInBatches.
  destruct (batchLoop_run penv net contexts batchSize Hbs fuel 0
              (emptyResults contexts) t) as (rs & Hrun & Hrs); [lia|].
  rewrite drop_0 in Hrun. eexists _, _. split; [exact Hrun|].
  assert (0 < Z.to_nat batchSize) as Hn by lia.
  split; [by rewrite agentGets_schedule, chunks_concat|].
  split; [|split; [done | by apply chunks_bounded]].
  rewrite pauses_schedule. by apply chunks_length.
Qed.

(** Seven identifiers in batches of three: two pauses. *)
Lemma testMetricsInBatches_pacing_witness :
  ∃ results made,
    testMetricsInBatches noEnv (answering [] [] []) 8
      ["a"; "b"; "c"; "d"; "e"; "f"; "g"] 3 []
    = (Return results, [] ++ made) ∧
    pauses made = 2.
Proof.
  destruct (testMetricsInBatches_pacing noEnv (answering [] [] [])
              ["a"; "b"; "c"; "d"; "e"; "f"; "g"] 3 8 []
              ltac:(lia) ltac:(simpl; lia))
    as (results & made & Hrun & _ & Hp & _).
  exists results, made. split; [exact Hrun|]. rewrite Hp. reflexivity.
Defined.

(** Three identifiers in batches of two. *)
Lemma testMetricsInBatches_keeps_order_witness :
  ∃ results t',
    testMetricsInBatches noEnv (answering [] [] []) 4 ["a"; "b"; "c"] 2 []
    = (Return results, t') ∧
    Summary.total (MetricTestResults.summary results) = 3.
Proof.
  destruct (testMetricsInBatches_keeps_order noEnv (answering [] [] [])
              ["a"; "b"; "c"] 2 4 [] ltac:(lia) ltac:(simpl; lia))
    as (results & t' & Hrun & Htotal & _).
  exists results, t'. by split.
Defined.

(** A probe makes one request and always returns a result for its
    context.  A rejected request gives the inactive result without data,
    labels or last value, with the rejection's message as error; so does a
    body that is [null], with the message of the TypeError.  Any other body
    gives a result without error: with [active = true], the number of rows
    and the first row when [data] is a non-empty array; with
    [active = false] when it is an empty array, [false] or a truthy value
    that is no array; and with the falsy value of [data] itself as [active]
    otherwise.  In every case [active] is true exactly when there are data
    points, which is exactly when there is a last value. *)
Theorem queryAgentMetric_result penv net context afterSeconds t :
  let url := agentMetricUrl penv context afterSeconds in
  let failed msg := {|
    MetricResult.context := context; MetricResult.active := Flag false;
    MetricResult.dataPoints := 0; MetricResult.labels := [];
    MetricResult.lastValue := None; MetricResult.error := Some msg |} in
  ∃ r,
    queryAgentMetric penv net context afterSeconds t
    = (Return r, t ++ [AgentGet url]) ∧
    MetricResult.context r = context ∧
    (MetricResult.active r = Flag true ↔ 0 < MetricResult.dataPoints r) ∧
    (MetricResult.active r = Flag true
     ↔ is_Some (MetricResult.lastValue r)) ∧
    match agent_data net t url with
    | Rejected msg => r = failed msg
    | Resolved NullBody =>
        r = failed "Cannot read properties of null (reading 'data')"
    | Resolved (Body body) =>
        MetricResult.error r = None ∧
        MetricResult.labels r = default [] (AgentData.labels body) ∧
        match AgentData.data body with
        | DataRows (row :: rows) =>
            MetricResult.active r = Flag true ∧
            MetricResult.dataPoints r = S (length rows) ∧
            MetricResult.lastValue r = Some row
        | DataRows [] | DataOther =>
            MetricResult.active r = Flag false ∧
            MetricResult.dataPoints r = 0 ∧
            MetricResult.lastValue r = None
        | DataFalsy v =>
            MetricResult.active r = Cut v ∧
            MetricResult.dataPoints r = 0 ∧
            MetricResult.lastValue r = None
        end
    end.
Proof.
  cbv zeta. unfold queryAgentMetric, try_catch, bind, axios_get.
  destruct (agent_data net t _) as [msg|[|body]] eqn:Hreply; simpl.
  - eexists. split; [reflexivity|]. simpl.
    repeat split; try done; try lia; by intros [? ?].
  - eexists. split; [reflexivity|]. simpl.
    repeat split; try done; try lia; by intros [? ?].
  - eexists. split; [reflexivity|]. simpl. unfold hasData, rowsOf.
    destruct (AgentData.data body) as [v| |[|row rows]]; simpl;
      repeat split; try done; try lia; try (by intros [? ?]); eauto.
Qed.

(** A category that is neither in the table nor a property of every object
    is refused with the list of the known ones. *)
Lemma filterContextsByCategory_unknown contexts category :
  category ∉ Js.keys METRIC_CATEGORIES → category ∉ Js.Object_prototype →
  filterContextsByCategory contexts category
  = inl (Error ("Unknown category: " +:+ category +:+ ". Available: " +:+
                "network, system, disk, memory, docker, kubernetes, " +:+
                "applications, sensors, nvidia, netdata_internal")).
Proof.
  intros Hkey Hproto. unfold filterContextsByCategory, Js.get.
  rewrite own_not_key by done. by rewrite bool_decide_eq_false_2.
Qed.


Section AlarmExtras.
Context (penv : ProcessEnv) (net : Network) (rt : Runtime).

Lemma criticalAlertsOf_critical node room alarms :
  Forall (fun alert =>
            toUpperCase rt (CriticalAlarm.status alert) = "CRITICAL" ∧
            CriticalAlarm.host alert = Node.name node ∧
            CriticalAlarm.room alert = RoomData.roomName room)
         (criticalAlertsOf rt node room alarms).
Proof.
  unfold criticalAlertsOf. induction alarms as [|[alarmKey alarm] rest IH];
    [constructor|].
  cbn [omap list_omap].
  destruct (Js.truthy (Alarm.status alarm) && _) eqn:Hcond; [|exact IH].
  constructor; [|exact IH]. cbn.
  apply andb_prop in Hcond as [_ Hcond]. by apply String.eqb_eq in Hcond.
Qed.

Lemma nodeCriticalAlerts_run room node t :
  ∃ found,
    nodeCriticalAlerts net rt room node t
    = (Return found, t ++ [AgentGet (nodeAlarmsUrl node)]) ∧
    Forall (fun alert =>
              toUpperCase rt (CriticalAlarm.status alert) = "CRITICAL" ∧
              CriticalAlarm.host alert = Node.name node ∧
              CriticalAlarm.room alert = RoomData.roomName room) found.
Proof.
  unfold nodeCriticalAlerts, try_catch, bind, axios_get, nodeAlarmsUrl.
  destruct (agent_alarms net t _) as [msg|alarms].
  - eexists. split; [reflexivity | constructor].
  - eexists. split; [reflexivity | apply criticalAlertsOf_critical].
Qed.

Lemma nodesCriticalAlerts_run room nodes : ∀ t,
  ∃ founds,
    mapM (nodeCriticalAlerts net rt room) nodes t
    = (Return founds, t ++ map (fun node => AgentGet (nodeAlarmsUrl node)) nodes)
    ∧ Forall (fun alert =>
                toUpperCase rt (CriticalAlarm.status alert) = "CRITICAL" ∧
                (∃ node, node ∈ nodes ∧
                         CriticalAlarm.host alert = Node.name node) ∧
                CriticalAlarm.room alert = RoomData.roomName room)
             (concat founds).
Proof.
  induction nodes as [|node nodes IH]; intros t.
  - exists []. cbn. rewrite app_nil_r. by split.
  - destruct (nodeCriticalAlerts_run room node t) as (found & Hrun & Hfound).
    destruct (IH (t ++ [AgentGet (nodeAlarmsUrl node)]))
      as (founds & Hrest & Hfounds).
    exists (found :: founds). cbn [mapM]. unfold bind at 1. rewrite Hrun.
    unfold bind at 1. rewrite Hrest. unfold ret.
    split; [by rewrite <- app_assoc|].
    cbn [concat]. apply Forall_app. split.
    + eapply Forall_impl; [exact Hfound|]. intros alert (? & ? & ?).
      split; [done|]. split; [|done]. exists node. split; [left|done].
    + eapply Forall_impl; [exact Hfounds|].
      intros alert (? & (n & Hn & ?) & ?).
      split; [done|]. split; [|done]. exists n. split; [by right|done].
Qed.

Lemma roomCriticalAlerts_labelled room t :
  ∃ found t',
    roomCriticalAlerts penv net rt room t = (Return found, t') ∧
    Forall (fun alert =>
              toUpperCase rt (CriticalAlarm.status alert) = "CRITICAL" ∧
              CriticalAlarm.room alert = RoomData.roomName room) found.
Proof.
  destruct (makeCloudRequest_outcome penv (cloud_nodes net)
              ("/spaces/" +:+ spaceId (config penv) +:+ "/rooms/" +:+
               RoomData.roomID room +:+ "/nodes") t)
    as [(nodes & t1 & Hnodes)|(msg & t1 & Hnodes & _)].
  - unfold roomCriticalAlerts, try_catch. unfold bind at 1. rewrite Hnodes.
    destruct (nodesCriticalAlerts_run room
                (List.filter nodeHasCriticals nodes) t1)
      as (founds & Hrun & Hfounds).
    unfold bind. rewrite Hrun. unfold ret.
    eexists _, _. split; [reflexivity|].
    eapply Forall_impl; [exact Hfounds|]. by intros alert (? & _ & ?).
  - unfold roomCriticalAlerts, try_catch. unfold bind at 1. rewrite Hnodes.
    eexists _, _. split; [reflexivity | constructor].
Qed.


(** The drill-down never raises, and reports only alarms whose status reads
    CRITICAL, each under the name of one of the rooms it was given. *)
Theorem getCriticalAlarmDetails_only_critical rooms t :
  ∃ found t',
    getCriticalAlarmDetails penv net rt rooms t = (Return found, t') ∧
    Forall (fun alert =>
              toUpperCase rt (CriticalAlarm.status alert) = "CRITICAL" ∧
              ∃ room, room ∈ rooms ∧
                      CriticalAlarm.room alert = RoomData.roomName room)
           found.
Proof.
  unfold getCriticalAlarmDetails.
  assert (∀ t, ∃ founds t',
            mapM (roomCriticalAlerts penv net rt) rooms t = (Return founds, t') ∧
            Forall (fun alert =>
                      toUpperCase rt (CriticalAlarm.status alert) = "CRITICAL" ∧
                      ∃ room, room ∈ rooms ∧
                        CriticalAlarm.room alert = RoomData.roomName room)
                   (concat founds)) as Hloop.
  { clear t. induction rooms as [|room rooms IH]; intros t.
    - exists [], t. by split.
    - destruct (roomCriticalAlerts_labelled room t)
        as (found & t1 & Hrun & Hfound).
      destruct (IH t1) as (founds & t' & Hrest & Hfounds).
      exists (found :: founds), t'. cbn [mapM]. unfold bind at 1.
      rewrite Hrun. unfold bind at 1. rewrite Hrest. split; [done|].
      cbn [concat]. apply Forall_app. split.
      + eapply Forall_impl; [exact Hfound|]. intros alert (? & ?).
        split; [done|]. exists room. split; [left|done].
      + eapply Forall_impl; [exact Hfounds|]. intros alert (? & r & ? & ?).
        split; [done|]. exists r. split; [by right|done]. }
  destruct (Hloop t) as (founds & t' & Hrun & Hfounds).
  unfold bind. rewrite Hrun. by eexists _, _.
Qed.


(** Without a token nothing is asked of the cloud: the room tools leave the
    trace as it was, and the alarm summary returns zeros with the message
    that the token is not configured. *)
Theorem no_token_no_request args t :
  Js.truthy (NETDATA_API_TOKEN penv) = false →
  (getRoomContexts penv net rt args t).2 = t ∧
  (getRoomNodes penv net rt args t).2 = t ∧
  getNetDataAlarms penv net rt t
  = (Return {|
       NetDataAlarmData.totals := {|
         Totals.warnings := 0; Totals.critical := 0; Totals.unreachable := 0;
         Totals.totalRooms := 0; Totals.roomsWithIssues := 0 |};
       NetDataAlarmData.roomsWithAlarms := [];
       NetDataAlarmData.criticalAlarmDetails := [];
       NetDataAlarmData.allRooms := [];
       NetDataAlarmData.error := Some "NetData API token is not configured"
     |}, t).
Proof.
  intros Htoken.
  assert (∀ A (oracle : trace → string → reply A) endpoint t,
            makeCloudRequest penv oracle endpoint t
            = (Throw (Error "NetData API token is not configured"), t))
    as Hreq.
  { intros. unfold makeCloudRequest. cbn [config apiToken].
    by rewrite Htoken. }
  split; [|split].
  - unfold getRoomContexts, try_catch.
    destruct (negb _); [done|]. destruct (roomIdOf _); [|done].
    unfold bind. by rewrite Hreq.
  - unfold getRoomNodes, try_catch.
    destruct (negb _); [done|]. destruct (roomIdOf _); [|done].
    unfold bind. by rewrite Hreq.
  - unfold getNetDataAlarms, try_catch, bind, promiseAll2, fetchAlarms,
      fetchRooms. rewrite !Hreq. by destruct (first_rejects net t).
Qed.

End AlarmExtras.



(** An environment without a token. *)
Lemma no_token_no_request_witness :
  (getRoomContexts noEnv (answering [] [] ["net.eth0"]) plainRuntime
     (onlyRoom (Some "all-nodes")) []).2 = [].
Proof.
  apply (no_token_no_request noEnv (answering [] [] ["net.eth0"])
           plainRuntime (onlyRoom (Some "all-nodes")) []).
  reflexivity.
Defined.

(** ** The room tools *)

(** ** Texts without brackets *)

Lemma after_first_app c p r :
  lacks c p → after_first c (p +:+ r) = after_first c r.
Proof.
  unfold lacks. induction p as [|a p IH]; [done|].
  change (String a p +:+ r) with (String a (p +:+ r)). simpl.
  destruct (Ascii.eqb a c); [done | exact IH].
Qed.

Lemma after_first_pretty_N_go c x : ∀ s,
  (∀ d, pretty_N_char d ≠ c) →
  after_first c (pretty_N_go x s) = after_first c s.
Proof.
  induction (N.lt_wf_0 x) as [x _ IH]; intros s Hc.
  assert (x = 0 ∨ 0 < x)%N as [->|Hpos] by lia.
  - by rewrite pretty_N_go_0.
  - rewrite pretty_N_go_step by done. rewrite IH; [|by apply N.div_lt|done].
    simpl. destruct (Ascii.eqb_spec (pretty_N_char (x `mod` 10)) c) as [E|_];
      [by destruct (Hc _ E) | done].
Qed.

Lemma lacks_pretty_nat c (n : nat) :
  (∀ d, pretty_N_char d ≠ c) → lacks c (pretty n).
Proof.
  intros Hc. unfold lacks, pretty, pretty_nat, pretty, pretty_N.
  destruct (decide (N.of_nat n = 0%N)).
  - change (after_first c "0")
      with (if Ascii.eqb (pretty_N_char 0) c then Some EmptyString else None).
    destruct (Ascii.eqb_spec (pretty_N_char 0) c) as [E|_]; [|done].
    by destruct (Hc 0%N E).
  - by rewrite after_first_pretty_N_go.
Qed.

Lemma digits_are_not_brackets d : pretty_N_char d ≠ Ascii.ascii_of_nat 91.
Proof. unfold pretty_N_char. by repeat case_match. Qed.

Lemma before_last_snoc c s :
  before_last c (s +:+ String c EmptyString) = Some s.
Proof.
  induction s as [|a s IH].
  - simpl. by rewrite Ascii.eqb_refl.
  - change (String a s +:+ String c "") with (String a (s +:+ String c "")).
    simpl. by rewrite IH.
Qed.

(** ** Registered rooms *)

Lemma ROOM_IDS_keys : NoDup (Js.keys ROOM_IDS).
Proof. apply (bool_decide_unpack _). by vm_compute. Qed.

Lemma ROOM_IDS_entry name roomId :
  (name, roomId) ∈ ROOM_IDS →
  Js.truthy (Some name) = true ∧ roomIdOf name = Some roomId ∧
  lacks (Ascii.ascii_of_nat 91) name.
Proof.
  revert name roomId.
  assert (Forall (fun entry =>
            Js.truthy (Some entry.1) = true ∧
            roomIdOf entry.1 = Some entry.2 ∧
            after_first (Ascii.ascii_of_nat 91) entry.1 = None) ROOM_IDS)
    as Hall.
  { repeat constructor. }
  intros name roomId Hin.
  exact (proj1 (Forall_forall _ _) Hall (name, roomId) Hin).
Qed.

Section RoomExtras.
Context (penv : ProcessEnv) (net : Network) (rt : Runtime).

Lemma makeCloudRequest_run {A} (oracle : trace → string → reply A)
    endpoint t :
  Js.truthy (NETDATA_API_TOKEN penv) = true →
  makeCloudRequest penv oracle endpoint t
  = (match oracle t (cloudUrl penv endpoint) with
     | Rejected msg => Throw (Error ("NetData Cloud API error: " +:+ msg))
     | Resolved data => Return data
     end, t ++ [CloudGet (cloudUrl penv endpoint)]).
Proof.
  intros Htoken. unfold makeCloudRequest. cbn [config apiToken].
  rewrite Htoken. cbn [negb]. unfold try_catch, axios_get, cloudUrl.
  cbn [config cloudBaseUrl]. by destruct (oracle t _).
Qed.

Lemma getRoomContexts_registered name roomId (a : ToolArgs) t :
  (name, roomId) ∈ ROOM_IDS →
  Js.truthy (NETDATA_API_TOKEN penv) = true →
  room_name a = Some name →
  let contextsUrl :=
    cloudUrl penv ("/spaces/" +:+ spaceId (config penv) +:+ "/rooms/" +:+
                   roomId +:+ "/contexts") in
  getRoomContexts penv net rt (Some a) t
  = (Return (text_response
       match cloud_contexts net t contextsUrl with
       | Rejected msg =>
           "Error getting room contexts: NetData Cloud API error: " +:+ msg
       | Resolved contextsData =>
           "Room Contexts for " +:+ Js.dquote +:+ name +:+ Js.dquote +:+
           " (" +:+ pretty (length (contextsOf contextsData)) +:+
           " contexts found):" +:+ nl +:+
           stringify_contexts rt (contextsOf contextsData)
       end), t ++ [CloudGet contextsUrl]).
Proof.
  intros Hin Htoken Hname contextsUrl.
  destruct (ROOM_IDS_entry name roomId Hin) as (Htruthy & Hid & _).
  unfold getRoomContexts, try_catch. cbn [from_option id].
  rewrite Hname, Htruthy. cbn [negb from_option id]. rewrite Hid.
  unfold bind. rewrite (makeCloudRequest_run _ _ _ Htoken).
  fold contextsUrl. by destruct (cloud_contexts net t contextsUrl).
Qed.


(** The activity tools read the contexts back from the text that
    [get_room_contexts] renders.  For a registered room whose contexts print
    as one bracketed text that parses back to them, what is read back is the
    list the cloud sent: the heading (room name and count included) brings
    no bracket of its own. *)
Theorem roomContextsViaText_round_trip name roomId t contextsData body :
  (name, roomId) ∈ ROOM_IDS →
  Js.truthy (NETDATA_API_TOKEN penv) = true →
  let url :=
    cloudUrl penv ("/spaces/" +:+ spaceId (config penv) +:+ "/rooms/" +:+
                   roomId +:+ "/contexts") in
  cloud_contexts net t url = Resolved contextsData →
  stringify_contexts rt (contextsOf contextsData) = "[" +:+ body +:+ "]" →
  JSON_parse rt ("[" +:+ body +:+ "]") = inr (contextsOf contextsData) →
  roomContextsViaText penv net rt (Some name) t
  = (Return (contextsOf contextsData), t ++ [CloudGet url]).
Proof.
  intros Hin Htoken url Hreply Hshape Hparse.
  destruct (ROOM_IDS_entry name roomId Hin) as (_ & _ & Hlacks).
  unfold roomContextsViaText. unfold bind at 1.
  pose proof (getRoomContexts_registered name roomId
                {| room_name := Some name; category := None;
                   sample_size := None; query := None; page_name := None |}
                t Hin Htoken eq_refl) as Hrun. cbv zeta in Hrun.
  unfold onlyRoom. rewrite Hrun. fold url. rewrite Hreply, Hshape.
  unfold bind at 1. cbn [firstText content text_response lift ret text].
  unfold parseContexts, matchBrackets.
  rewrite (after_first_app _ "Room Contexts for ") by done.
  rewrite (after_first_app _ Js.dquote) by done.
  rewrite (after_first_app _ name) by done.
  rewrite (after_first_app _ Js.dquote) by done.
  rewrite (after_first_app _ " (") by done.
  rewrite (after_first_app _ (pretty _))
    by apply lacks_pretty_nat, digits_are_not_brackets.
  rewrite (after_first_app _ " contexts found):") by done.
  rewrite (after_first_app _ nl) by done.
  change ("[" +:+ body +:+ "]")
    with (String (Ascii.ascii_of_nat 91) (body +:+ "]")) at 1.
  cbn [after_first]. rewrite Ascii.eqb_refl, before_last_snoc.
  cbn [from_option id option_map mbind option_bind].
  rewrite Hparse. reflexivity.
Qed.

End RoomExtras.

(** ** The activity tools *)



Lemma METRIC_CATEGORIES_entry name prefixes :
  (name, prefixes) ∈ METRIC_CATEGORIES → Js.truthy (Some name) = true.
Proof.
  assert (Forall (fun entry => Js.truthy (Some entry.1) = true)
            METRIC_CATEGORIES) as Hall by repeat constructor.
  intros Hin. exact (proj1 (Forall_forall _ _) Hall (name, prefixes) Hin).
Qed.

Section ActivityExtras.
Context (penv : ProcessEnv) (net : Network) (rt : Runtime).

Local Abbreviation url := (fun context => agentMetricUrl penv context (-300)).

(** [test_category_metrics_activity] for a category of the table, once the
    room's contexts are read: with no matching context it answers that none
    was found and probes nothing; otherwise it probes exactly the matching
    contexts, in order, in batches of five, and reports on all of them: the
    text returned carries the number of matching contexts and, as success
    rate, the one-decimal text of the double [active / matching * 100]. *)
Theorem testCategoryMetricsActivity_report (a : ToolArgs) room name prefixes
    allContexts t t1 :
  room_name a = Some room → room ≠ "" →
  category a = Some name → (name, prefixes) ∈ METRIC_CATEGORIES →
  roomContextsViaText penv net rt (Some room) t = (Return allContexts, t1) →
  let categoryContexts := List.filter (matchesSome prefixes) allContexts in
  (categoryContexts = [] →
   testCategoryMetricsActivity penv net rt (Some a) t
   = (Return (text_response
                ("No " +:+ name +:+ " contexts found in room " +:+
                 Js.dquote +:+ room +:+ Js.dquote)), t1)) ∧
  (categoryContexts ≠ [] →
   ∃ results,
     let t' := t1 ++ schedule penv (chunks 5 categoryContexts) in
     testMetricsInBatches penv net (S (length categoryContexts))
       categoryContexts 5 t1
     = (Return results, t') ∧
     testCategoryMetricsActivity penv net rt (Some a) t
     = (Return (text_response
                  (categoryReport penv rt room name (now rt t') results)), t') ∧
     agentGets t' = agentGets t1 ++ map url categoryContexts ∧
     Summary.tested (MetricTestResults.summary results)
     = length categoryContexts ∧
     Summary.activeCount (MetricTestResults.summary results)
     ≤ length categoryContexts ∧
     Js.includes (categoryReport penv rt room name (now rt t') results)
       ("- Total " +:+ name +:+ " contexts: " +:+
        pretty (length categoryContexts)) = true ∧
     Js.includes (categoryReport penv rt room name (now rt t') results)
       ("- Success rate: " +:+
        Js.toFixed1 (NumberToString rt)
          (Js.mul
             (Js.div
                (Js.of_nat
                   (Summary.activeCount (MetricTestResults.summary results)))
                (Js.of_nat (length categoryContexts)))
             (Js.of_nat 100)) +:+ "%") = true).
Proof.
  intros Hroom Hne Hcat Hin Hctx categoryContexts.
  assert (Js.truthy (Some room) = true) as Htroom by by destruct room.
  pose proof (METRIC_CATEGORIES_entry _ _ Hin) as Htcat.
  unfold testCategoryMetricsActivity. cbn [from_option id].
  rewrite Hroom, Hcat, Htroom, Htcat. cbn [negb orb from_option id].
  unfold try_catch, bind. rewrite Hctx.
  rewrite (filterContextsByCategory_registered _ _ _ Hin).
  unfold lift, ret. cbv beta iota. fold categoryContexts.
  split; intros Hcc.
  - rewrite Hcc. reflexivity.
  - destruct (testMetricsInBatches_default penv net categoryContexts t1)
      as (results & Hrun & Htested & Hactive).
    exists results. cbv zeta.
    destruct (Nat.eqb_spec (length categoryContexts) 0) as [E|_].
    { by destruct categoryContexts. }
    pose proof (testMetricsInBatches_total penv net _ _ _ _ Hrun) as Htotal.
    split; [exact Hrun|].
    rewrite Hrun. split; [done|]. split; [apply agentGets_batches|].
    split; [done|]. split; [done|].
    unfold categoryReport. cbv zeta. rewrite Htotal, Htested.
    split; apply includes_join; repeat (first [by left | right]).
Qed.

(** A category that is not in the table is refused only after the room's
    contexts have been fetched and parsed. *)
Theorem testCategoryMetricsActivity_unknown_category (a : ToolArgs) room name
    allContexts t t1 :
  room_name a = Some room → room ≠ "" →
  category a = Some name → name ≠ "" →
  name ∉ Js.keys METRIC_CATEGORIES → name ∉ Js.Object_prototype →
  roomContextsViaText penv net rt (Some room) t = (Return allContexts, t1) →
  testCategoryMetricsActivity penv net rt (Some a) t
  = (Return (text_response
       ("Error testing " +:+ name +:+ " metrics activity: " +:+
        "Unknown category: " +:+ name +:+ ". Available: " +:+
        "network, system, disk, memory, docker, kubernetes, " +:+
        "applications, sensors, nvidia, netdata_internal")), t1).
Proof.
  intros Hroom Hne Hcat Hnec Hkey Hproto Hctx.
  assert (Js.truthy (Some room) = true) as Htroom by by destruct room.
  assert (Js.truthy (Some name) = true) as Htcat by by destruct name.
  unfold testCategoryMetricsActivity. cbn [from_option id].
  rewrite Hroom, Hcat, Htroom, Htcat. cbn [negb orb from_option id].
  unfold try_catch, bind. rewrite Hctx.
  rewrite (filterContextsByCategory_unknown allContexts name Hkey Hproto).
  reflexivity.
Qed.



End ActivityExtras.


(** The same room, read back. *)
Lemma roomContextsViaText_round_trip_witness :
  roomContextsViaText tokenEnv (answering [] [] mixedContexts) plainRuntime
    (Some "all-nodes") []
  = (Return mixedContexts, [CloudGet allNodesContextsUrl]).
Proof.
  exact (roomContextsViaText_round_trip tokenEnv
           (answering [] [] mixedContexts) plainRuntime "all-nodes"
           "93e19508-b494-4999-957f-802b48a2ba0d" []
           (ContextsResults mixedContexts)
           "net.eth0,net.eth1,system.net,system.cpu"
           ltac:(apply (bool_decide_unpack _); vm_compute; exact I)
           ltac:(reflexivity) ltac:(reflexivity) ltac:(reflexivity)
           ltac:(reflexivity)).
Defined.

(** Three of the four contexts are network contexts, and all three answer
    with data. *)
Lemma testCategoryMetricsActivity_report_witness :
  ∃ said t',
    testCategoryMetricsActivity tokenEnv (answering [] [] mixedContexts)
      plainRuntime (Some (categoryArgs "all-nodes" "network")) []
    = (Return (text_response said), t') ∧
    Js.includes said "- Total network contexts: 3" = true ∧
    Js.includes said "- Success rate: 100.0%" = true ∧
    agentGets t'
    = map (fun context => agentMetricUrl tokenEnv context (-300))
        ["net.eth0"; "net.eth1"; "system.net"].
Proof.
  destruct (testCategoryMetricsActivity_report tokenEnv
              (answering [] [] mixedContexts) plainRuntime
              (categoryArgs "all-nodes" "network") "all-nodes" "network"
              ["net."; "ip."; "ipv4."; "ipv6."; "system.net"; "netfilter.";
               "k8s.cgroup.net_"; "netdata.network"]
              mixedContexts [] [CloudGet allNodesContextsUrl]
              ltac:(reflexivity) ltac:(discriminate) ltac:(reflexivity)
              ltac:(apply (bool_decide_unpack _); vm_compute; exact I)
              ltac:(reflexivity)) as [_ Hsome].
  destruct (Hsome ltac:(discriminate))
    as (results & Hbatches & Hrun & Hq & _ & _ & Htotal & Hrate).
  eexists _, _. split; [exact Hrun|].
  vm_compute in Hbatches. injection Hbatches as <-.
  split; [exact Htotal|]. split; [exact Hrate | exact Hq].
Defined.

(** The category [gpu] is not in the table. *)
Lemma testCategoryMetricsActivity_unknown_category_witness :
  testCategoryMetricsActivity tokenEnv (answering [] [] mixedContexts)
    plainRuntime (Some (categoryArgs "all-nodes" "gpu")) []
  = (Return (text_response
       ("Error testing gpu metrics activity: Unknown category: gpu. " +:+
        "Available: network, system, disk, memory, docker, kubernetes, " +:+
        "applications, sensors, nvidia, netdata_internal")),
     [CloudGet allNodesContextsUrl]).
Proof.
  exact (testCategoryMetricsActivity_unknown_category tokenEnv
           (answering [] [] mixedContexts) plainRuntime
           (categoryArgs "all-nodes" "gpu") "all-nodes" "gpu" mixedContexts
           [] [CloudGet allNodesContextsUrl]
           ltac:(reflexivity) ltac:(discriminate) ltac:(reflexivity)
           ltac:(discriminate)
           ltac:(apply (bool_decide_unpack _); vm_compute; exact I)
           ltac:(apply (bool_decide_unpack _); vm_compute; exact I)
           ltac:(reflexivity)).
Defined.


Section MaskedErrors.
Context (penv : ProcessEnv) (net : Network) (rt : Runtime).


End MaskedErrors.


(** ** The outcomes of a tool call *)

Lemma returnsText_ret s : returnsText (ret (text_response s)).
Proof. intros t r t' [= <- <-]. by eexists. Qed.

Lemma returnsText_throw e : returnsText (throw e).
Proof. by intros t r t'. Qed.

Lemma returnsText_now (f : trace → string) :
  returnsText (fun t => (Return (text_response (f t)), t)).
Proof. intros t r t' [= <- <-]. by eexists. Qed.

Lemma returnsText_bind {A} (m : M A) (k : A → M ToolResponse) :
  (∀ a, returnsText (k a)) → returnsText (bind m k).
Proof.
  intros Hk t r t'. unfold bind. destruct (m t) as [[a|e|] t1]; [|done..].
  apply Hk.
Qed.

Lemma returnsText_try_catch (body : M ToolResponse) handler :
  returnsText body → (∀ e, returnsText (handler e)) →
  returnsText (try_catch body handler).
Proof.
  intros Hb Hh t r t'. unfold try_catch.
  destruct (body t) as [[a|e|] t1] eqn:E; [|apply Hh|done].
  intros [= <- <-]. by apply (Hb t a t1).
Qed.

Ltac texts :=
  repeat first
    [ apply returnsText_ret
    | apply returnsText_throw
    | apply returnsText_now
    | (apply returnsText_try_catch; [|intros ?])
    | (apply returnsText_bind; intros ?)
    | match goal with
      | |- returnsText (if ?c then _ else _) => destruct c
      | |- returnsText (match ?x with _ => _ end) => destruct x
      end ].

Section RoutingExtras.
Context (penv : ProcessEnv) (net : Network) (rt : Runtime) (blocks : Blocks).

Lemma guarded_returnsText block onError :
  returnsText (guarded block onError).
Proof. unfold guarded. texts. Qed.

Lemma testCategoryMetricsActivity_returnsText args :
  returnsText (testCategoryMetricsActivity penv net rt args).
Proof. unfold testCategoryMetricsActivity. cbv zeta. texts. Qed.

Lemma netdataHandleToolCall_returnsText name args :
  returnsText (netdataHandleToolCall penv net rt blocks name args).
Proof.
  unfold netdataHandleToolCall.
  repeat match goal with
         | |- context [ String.eqb name ?s ] => destruct (String.eqb name s)
         end;
    first [ apply guarded_returnsText
          | apply testCategoryMetricsActivity_returnsText
          | apply returnsText_throw
          | unfold getRoomContexts; cbv zeta; by texts
          | unfold getRoomNodes; cbv zeta; by texts
          | unfold testRoomParameter; cbv zeta; by texts
          | unfold debugApiCall; by texts
          | unfold testNetworkMetricsActivity; cbv zeta;
            destruct (negb _);
            [ apply returnsText_ret
            | apply testCategoryMetricsActivity_returnsText ]
          | unfold getActiveMetricsSummary; cbv zeta; by texts ].
Qed.

Lemma akashHandleToolCall_returnsText name args :
  returnsText (akashHandleToolCall net rt blocks name args).
Proof.
  unfold akashHandleToolCall.
  repeat match goal with
         | |- context [ String.eqb name ?s ] => destruct (String.eqb name s)
         end;
    first [ apply guarded_returnsText
          | apply returnsText_throw
          | unfold getAkashCpuIssues; by texts
          | unfold getAkashMemoryIssues; by texts ].
Qed.

Lemma githubHandleToolCall_returnsText name args :
  returnsText (githubHandleToolCall blocks name args).
Proof.
  unfold githubHandleToolCall.
  repeat match goal with
         | |- context [ String.eqb name ?s ] => destruct (String.eqb name s)
         end;
    first [ apply guarded_returnsText
          | apply returnsText_throw
          | unfold searchWiki; texts; apply guarded_returnsText
          | unfold getWikiPage; texts; apply guarded_returnsText ].
Qed.

Lemma handleToolCall_returnsText name args :
  returnsText (handleToolCall penv net rt blocks name args).
Proof.
  unfold handleToolCall.
  destruct (includesName netdataToolNames name);
    [apply netdataHandleToolCall_returnsText|].
  destruct (includesName akashToolNames name);
    [apply akashHandleToolCall_returnsText|].
  destruct (includesName githubToolNames name);
    [apply githubHandleToolCall_returnsText | apply returnsText_throw].
Qed.

Lemma handleToolCall_without_arguments name t e :
  name ∈ registeredToolNames →
  (handleToolCall penv net rt blocks name None t).1 = Throw e →
  (name = "search_wiki" ∧ e = cannotDestructure "query") ∨
  (name = "get_wiki_page" ∧ e = cannotDestructure "page_name").
Proof.
  intros Hname. unfold handleToolCall.
  destruct (includesName netdataToolNames name) eqn:Hn.
  { intros H. by destruct (netdataHandleToolCall_neverThrows penv net rt
                             blocks name None Hn t e). }
  destruct (includesName akashToolNames name) eqn:Ha.
  { intros H. by destruct (akashHandleToolCall_neverThrows net rt blocks
                             name None Ha t e). }
  destruct (includesName githubToolNames name) eqn:Hg.
  - unfold githubHandleToolCall.
    destruct (String.eqb_spec name "search_wiki") as [->|?].
    { intros [= <-]. by left. }
    destruct (String.eqb_spec name "get_wiki_page") as [->|?].
    { intros [= <-]. by right. }
    destruct (String.eqb_spec name "list_rpc_nodes") as [->|?].
    { intros H. by apply guarded_neverThrows in H. }
    destruct (String.eqb_spec name "get_wiki_pages_list") as [->|?].
    { intros H. by apply guarded_neverThrows in H. }
    apply includesName_elem in Hg. unfold githubToolNames in Hg.
    rewrite !elem_of_cons, elem_of_nil in Hg. destruct Hg as [|[|[|[|]]]]; first [done | congruence].
  - exfalso. unfold registeredToolNames in Hname.
    rewrite !elem_of_app, <- !includesName_elem in Hname.
    rewrite Hn, Ha, Hg in Hname. by destruct Hname as [|[|]].
Qed.

(** What a tool call can end in, when its arguments, if any, have the types
    of the input schemas (the record [ToolArgs]: texts and an integer
    [sample_size]).  A response comes only from a registered tool and is
    one text item with [isError] unset.  A fault is either the unknown-tool
    fault, for exactly the unregistered names, or the internal fault of
    [search_wiki] or [get_wiki_page] called without an arguments object;
    with arguments of these types no other registered tool faults. *)
Theorem callTool_outcomes name args t :
  match (callTool penv net rt blocks name args t).1 with
  | Return response =>
      name ∈ registeredToolNames ∧ (∃ s, response = text_response s)
  | Throw error =>
      ((name ∉ registeredToolNames) ∧
       error = McpError MethodNotFound ("Unknown tool: " +:+ name)) ∨
      (args = None ∧ name = "search_wiki" ∧
       error = McpError InternalError
                 ("Error executing tool search_wiki: " +:+
                  "Cannot destructure property 'query' of 'args' " +:+
                  "as it is undefined.")) ∨
      (args = None ∧ name = "get_wiki_page" ∧
       error = McpError InternalError
                 ("Error executing tool get_wiki_page: " +:+
                  "Cannot destructure property 'page_name' of 'args' " +:+
                  "as it is undefined."))
  | OutOfFuel => name ∈ registeredToolNames
  end.
Proof.
  destruct (decide (name ∈ registeredToolNames)) as [Hname|Hname].
  2:{ rewrite (unregistered_is_unknown_tool penv net rt blocks name args t
                 Hname). by left. }
  destruct (callTool penv net rt blocks name args t) as [out t'] eqn:Hrun.
  cbn [fst]. unfold callTool, try_catch in Hrun.
  destruct (handleToolCall penv net rt blocks name args t)
    as [[response|error|] t1] eqn:Hcall.
  - injection Hrun as <- <-. split; [exact Hname|].
    exact (handleToolCall_returnsText name args t response t1 Hcall).
  - destruct args as [a|].
    + pose proof (registered_with_arguments_never_faults penv net rt blocks
                    name a Hname t) as Hnever.
      unfold callTool, try_catch in Hnever. rewrite Hcall in Hnever.
      exfalso. destruct error; exact (Hnever _ eq_refl).
    + destruct (handleToolCall_without_arguments name t error Hname)
        as [[-> ->]|[-> ->]].
      { by rewrite Hcall. }
      * injection Hrun as <- <-. right. left. done.
      * injection Hrun as <- <-. right. right. done.
  - by injection Hrun as <- <-.
Qed.

End RoutingExtras.

(** ** Arguments and provider reports *)

Section ArgumentExtras.
Context (penv : ProcessEnv) (net : Network) (rt : Runtime) (blocks : Blocks).

(** A call of a room tool without a room name (no arguments, no
    [room_name], or the empty text) is answered with the tool's
    required-parameter text, and nothing is requested. *)
Theorem room_name_is_required args t :
  Js.truthy (room_name (default noArgs args)) = false →
  callTool penv net rt blocks "get_room_contexts" args t
  = (Return (text_response "Error: room_name parameter is required"), t) ∧
  callTool penv net rt blocks "get_room_nodes" args t
  = (Return (text_response "Error: room_name parameter is required"), t) ∧
  callTool penv net rt blocks "test_category_metrics_activity" args t
  = (Return (text_response "Error: room_name and category are required"),
     t) ∧
  callTool penv net rt blocks "test_network_metrics_activity" args t
  = (Return (text_response "Error: room_name is required"), t) ∧
  callTool penv net rt blocks "get_active_metrics_summary" args t
  = (Return (text_response "Error: room_name is required"), t).
Proof.
  intros Hroom. unfold callTool, try_catch, handleToolCall.
  change (includesName netdataToolNames "get_room_contexts") with true.
  change (includesName netdataToolNames "get_room_nodes") with true.
  change (includesName netdataToolNames "test_category_metrics_activity")
    with true.
  change (includesName netdataToolNames "test_network_metrics_activity")
    with true.
  change (includesName netdataToolNames "get_active_metrics_summary")
    with true.
  cbv iota. unfold netdataHandleToolCall.
  repeat match goal with
         | |- context [ String.eqb ?a ?b ] =>
             let r := eval vm_compute in (String.eqb a b) in
             change (String.eqb a b) with r
         end.
  cbv iota.
  unfold getRoomContexts, getRoomNodes, testNetworkMetricsActivity,
    testCategoryMetricsActivity, getActiveMetricsSummary, try_catch.
  cbv zeta. rewrite Hroom. cbn [negb orb]. done.
Qed.

End ArgumentExtras.

(** An empty room name. *)
Lemma room_name_is_required_witness :
  callTool tokenEnv (answering [] [] mixedContexts) plainRuntime plainBlocks
    "get_active_metrics_summary"
    (Some {| room_name := Some ""; category := Some "network";
             sample_size := None; query := None; page_name := None |}) []
  = (Return (text_response "Error: room_name is required"), []).
Proof.
  apply (room_name_is_required tokenEnv (answering [] [] mixedContexts)
           plainRuntime plainBlocks
           (Some {| room_name := Some ""; category := Some "network";
                    sample_size := None; query := None;
                    page_name := None |}) []).
  reflexivity.
Defined.

(** ** Utilization *)

Lemma percent_is_not_Unknown s : s +:+ "%" ≠ "Unknown".
Proof.
  intros H.
  do 7 (destruct s as [|? s]; [discriminate H|];
        change (String ?a s +:+ "%") with (String a (s +:+ "%")) in H;
        injection H as _ H).
  destruct s; discriminate H.
Qed.

Section UtilizationExtras.
Context (net : Network) (rt : Runtime).

Lemma truthyField_false v :
  truthyField v = false ↔ falsyField v.
Proof.
  unfold truthyField, falsyField, Js.truthyNumber.
  destruct v as [[x|s]|].
  - split.
    + intros H. right. right. exists x. split; [done|].
      destruct (PrimFloat.eqb x x), (PrimFloat.eqb x 0); cbn in H;
        first [discriminate H | by left | by right].
    + intros [H|[H|(y & [= <-] & [H|H])]]; try done; rewrite H;
        [apply andb_false_r | done].
  - destruct (String.eqb_spec s "") as [->|Hs]; cbn [negb]; split;
      intros H; try done; try tauto.
    destruct H as [H|[H|(y & H & _)]]; [done| |done].
    by injection H as ->.
  - split; [by left | done].
Qed.

(** The utilization entry reads Unknown exactly when [allocated] or
    [allocatable] is falsy: missing, the empty text, or a number that is
    zero (of either sign) or NaN.  In every other case it is the one-decimal
    text of the double [Number(allocated) / Number(allocatable) * 100]
    followed by a percent sign.  So a node whose [allocated] is the number
    0 is shown as Unknown, not as 0.0%. *)
Theorem utilization_Unknown_iff (node : AkashProvider.t) :
  let falsy (v : option NumOrStr) :=
    v = None ∨ v = Some (Str "") ∨
    ∃ x, v = Some (Num x) ∧
         (PrimFloat.eqb x 0 = true ∨ PrimFloat.eqb x x = false) in
  let value (v : NumOrStr) :=
    match v with Num x => x | Str s => StringToNumber rt s end in
  (utilization rt node = "Unknown"
   ↔ falsy (AkashProvider.allocated node) ∨
     falsy (AkashProvider.allocatable node)) ∧
  (∀ allocated allocatable,
     AkashProvider.allocated node = Some allocated →
     AkashProvider.allocatable node = Some allocatable →
     ¬ falsy (Some allocated) → ¬ falsy (Some allocatable) →
     utilization rt node
     = Js.toFixed1 (NumberToString rt)
         (PrimFloat.mul (PrimFloat.div (value allocated) (value allocatable))
                        (Js.of_Z 100)) +:+ "%") ∧
  (∀ negative,
     AkashProvider.allocated node
     = Some (Num (if negative : bool then PrimFloat.opp 0 else 0)%float) →
     utilization rt node = "Unknown").
Proof.
  cbv zeta.
  pose proof (truthyField_false (AkashProvider.allocated node)) as Ha.
  pose proof (truthyField_false (AkashProvider.allocatable node)) as Hb.
  unfold falsyField in Ha, Hb. unfold utilization.
  split; [|split].
  - destruct (truthyField (AkashProvider.allocated node));
      destruct (truthyField (AkashProvider.allocatable node)); cbn [andb].
    + split; [intros H; by apply percent_is_not_Unknown in H|].
      intros [H|H]; [by apply Ha in H | by apply Hb in H].
    + split; [|done]. intros _. right. by apply Hb.
    + split; [|done]. intros _. left. by apply Ha.
    + split; [|done]. intros _. left. by apply Ha.
  - intros allocated allocatable Hallocated Hallocatable Hna Hnb.
    rewrite Hallocated in Ha. rewrite Hallocatable in Hb.
    rewrite Hallocated, Hallocatable.
    destruct (truthyField (Some allocated)); [|by destruct Hna; apply Ha].
    destruct (truthyField (Some allocatable)); [|by destruct Hnb; apply Hb].
    cbn [andb]. unfold Number. by destruct allocated, allocatable.
  - intros negative Hallocated. rewrite Hallocated in Ha.
    assert (truthyField (AkashProvider.allocated node) = false) as ->;
      [|done].
    rewrite Hallocated. apply Ha. right. right. eexists. split; [done|].
    left. by destruct negative.
Qed.


End UtilizationExtras.

(** ** The order of texts *)

Lemma ascii_compare_Lt_trans a b c :
  Ascii.compare a b = Lt → Ascii.compare b c = Lt → Ascii.compare a c = Lt.
Proof.
  unfold Ascii.compare. rewrite !N.compare_lt_iff. lia.
Qed.

Lemma string_compare_Lt_trans : ∀ a b c,
  String.compare a b = Lt → String.compare b c = Lt →
  String.compare a c = Lt.
Proof.
  induction a as [|x a IH]; intros [|y b] [|z c]; cbn; try done.
  destruct (Ascii.compare x y) eqn:Hxy; [| |done].
  - apply Ascii.compare_eq_iff in Hxy as ->.
    destruct (Ascii.compare y z); [apply IH|done|done].
  - intros _. destruct (Ascii.compare y z) eqn:Hyz; [| |done].
    + apply Ascii.compare_eq_iff in Hyz as <-. by rewrite Hxy.
    + by rewrite (ascii_compare_Lt_trans _ _ _ Hxy Hyz).
Qed.

Lemma string_compare_refl a : String.compare a a = Eq.
Proof.
  induction a as [|x a IH]; [done|]. cbn.
  assert (Ascii.compare x x = Eq) as ->; [|exact IH].
  unfold Ascii.compare. apply N.compare_refl.
Qed.

(** The order of bytes is a strict total order. *)
Lemma byteGreater_irrefl a : byteGreater a a = false.
Proof. unfold byteGreater, String.ltb. by rewrite string_compare_refl. Qed.

Lemma byteGreater_asym a b :
  byteGreater a b = true → byteGreater b a = false.
Proof.
  unfold byteGreater, String.ltb. rewrite (String.compare_antisym a b).
  by destruct (String.compare b a).
Qed.

Lemma byteGreater_false_trans a b c :
  byteGreater a b = false → byteGreater b c = false →
  byteGreater a c = false.
Proof.
  unfold byteGreater, String.ltb. intros Hab Hbc.
  destruct (String.compare c a) eqn:Hca; try done. exfalso.
  destruct (String.compare b a) eqn:Hba; [|done|].
  - apply String.compare_eq_iff in Hba as ->. by rewrite Hca in Hbc.
  - rewrite String.compare_antisym in Hba.
    destruct (String.compare a b) eqn:Hab'; try done.
    by rewrite (string_compare_Lt_trans _ _ _ Hca Hab') in Hbc.
Qed.

Section TextOrder.
Context (greaterThan : string → string → bool).
Hypothesis greaterThan_irrefl : ∀ a, greaterThan a a = false.
Hypothesis greaterThan_asym :
  ∀ a b, greaterThan a b = true → greaterThan b a = false.
Hypothesis greaterThan_false_trans :
  ∀ a b c, greaterThan a b = false → greaterThan b c = false →
           greaterThan a c = false.

Lemma longestOutage_fold : ∀ providers start,
  let longest :=
    fold_left
      (fun max p =>
         if greaterThan (durationOf p) max then durationOf p else max)
      providers start in
  longest ∈ start :: map durationOf providers ∧
  greaterThan start longest = false ∧
  ∀ p, p ∈ providers → greaterThan (durationOf p) longest = false.
Proof.
  induction providers as [|q providers IH]; intros start longest.
  - split; [by left|]. split; [apply greaterThan_irrefl|].
    intros p Hp. by apply elem_of_nil in Hp.
  - cbn [fold_left] in longest.
    set (next := if greaterThan (durationOf q) start
                 then durationOf q else start) in *.
    destruct (IH next) as (Hin & Hnext & Hall). fold longest in Hin, Hnext, Hall.
    assert (greaterThan start next = false ∧
            greaterThan (durationOf q) next = false) as [Hs Hq].
    { unfold next. destruct (greaterThan (durationOf q) start) eqn:E.
      - split; [by apply greaterThan_asym | apply greaterThan_irrefl].
      - split; [apply greaterThan_irrefl|done]. }
    split; [|split].
    + cbn [map]. apply elem_of_cons in Hin as [Hin|Hin].
      * rewrite Hin. unfold next.
        destruct (greaterThan (durationOf q) start);
          [right; left | left]; done.
      * by do 2 right.
    + exact (greaterThan_false_trans _ _ _ Hs Hnext).
    + intros p Hp. apply elem_of_cons in Hp as [->|Hp].
      * exact (greaterThan_false_trans _ _ _ Hq Hnext).
      * by apply Hall.
Qed.

End TextOrder.

Lemma durationOf_read p :
  durationOf p
  = match AkashProvider.failureDuration p with
    | Some (String c s) => String c s
    | _ => "0"
    end.
Proof.
  unfold durationOf, Js.or_else.
  by destruct (AkashProvider.failureDuration p) as [[|c s]|].
Qed.


(** "Longest outage", for any comparison of texts that is a strict total
    order, as [a > b] on two JavaScript strings is (it orders them by their
    UTF-16 code units): the entry is "0" or the duration of one of the
    providers, and neither "0" nor the duration of any provider is greater
    than it; a provider without a duration, or with the empty text, counts
    as "0". *)
Theorem longestOutage_greatest (greaterThan : string → string → bool)
    providers :
  (∀ a, greaterThan a a = false) →
  (∀ a b, greaterThan a b = true → greaterThan b a = false) →
  (∀ a b c, greaterThan a b = false → greaterThan b c = false →
            greaterThan a c = false) →
  let shown (p : AkashProvider.t) :=
    match AkashProvider.failureDuration p with
    | Some (String c s) => String c s
    | _ => "0"
    end in
  longestOutage greaterThan providers ∈ "0" :: map shown providers ∧
  greaterThan "0" (longestOutage greaterThan providers) = false ∧
  ∀ p, p ∈ providers →
    greaterThan (shown p) (longestOutage greaterThan providers) = false.
Proof.
  intros Hirrefl Hasym Htrans shown.
  destruct (longestOutage_fold greaterThan Hirrefl Hasym Htrans providers "0")
    as (Hin & Hzero & Hall).
  assert (map durationOf providers = map shown providers) as Hmap.
  { apply map_ext. intros p. apply durationOf_read. }
  rewrite Hmap in Hin. split; [exact Hin|]. split; [exact Hzero|].
  intros p Hp. unfold shown. rewrite <- durationOf_read. by apply Hall.
Qed.

(** Durations of nine minutes and of ten hours, in the order of bytes. *)
Lemma longestOutage_greatest_witness :
  longestOutage byteGreater outages ∈ ["0"; "9m"; "10h"] ∧
  byteGreater "10h" (longestOutage byteGreater outages) = false.
Proof.
  destruct (longestOutage_greatest byteGreater outages byteGreater_irrefl
              byteGreater_asym byteGreater_false_trans)
    as (Hin & _ & Hall).
  split; [exact Hin|].
  apply (Hall (nth 1 outages nineMinutes)). by right; left.
Defined.


Section ProviderListExtras.
Context (penv : ProcessEnv) (net : Network) (rt : Runtime).
Context (down_providers partial_failures
           : trace → string → reply (option (list AkashProvider.t)))
        (toLocaleString : nat → string)
        (greaterThan : string → string → bool) (others : Blocks).


End ProviderListExtras.

(** Durations are compared as texts: nine minutes outlast ten hours. *)
Example longest_outage_by_text :
  longestOutage byteGreater
    [ {| AkashProvider.host := Some "a.example.com";
         AkashProvider.provider := None; AkashProvider.node := None;
         AkashProvider.allocatable := None; AkashProvider.allocated := None;
         AkashProvider.capacity := None; AkashProvider.issue := None;
         AkashProvider.issue_type := None;
         AkashProvider.severity := Some "Critical";
         AkashProvider.failureDuration := Some "9m";
         AkashProvider.failures := Some 3;
         AkashProvider.failed_ips := None |};
      {| AkashProvider.host := Some "b.example.com";
         AkashProvider.provider := None; AkashProvider.node := None;
         AkashProvider.allocatable := None; AkashProvider.allocated := None;
         AkashProvider.capacity := None; AkashProvider.issue := None;
         AkashProvider.issue_type := None;
         AkashProvider.severity := Some "critical";
         AkashProvider.failureDuration := Some "10h";
         AkashProvider.failures := None;
         AkashProvider.failed_ips := None |} ]
  = "9m".
Proof. reflexivity. Qed.
